(** * reproducibility.py: a shallow embedding and its verified properties

    The module captures a snapshot of a workflow run: it copies the
    source files of the working directory, records the git revision and
    exports the active conda environment, all into a freshly reset
    [reproducibility] directory.

    The Python functions are embedded as computations in a state and
    exception monad over an explicit world: a file-system tree, the
    console, a clock and the outcomes of the child processes.

    What the model takes from the platform:
    - strings are sequences of characters with code points below 256;
    - paths are POSIX paths, resolved lexically against the working
      directory; the tree has directories and regular files, no symbolic
      links and no permissions;
    - a name and a path may have any length: the limits of the operating
      system (255 bytes for a name, 4096 for a path) are not in the tree,
      and a statement about files created for arbitrary source names
      carries them as a condition;
    - [git] and [conda] are oracles: any process may fail to start, exit
      with any status and print anything, but none touches the tree;
    - every reading of the clock is an arbitrary date and time;
    - the exceptions are the [Exception] subclasses the calls can raise.

    Besides the tree and the console the world keeps a trace of the calls
    that changed the tree, in program order. *)

From Stdlib Require Import String Ascii List Bool Arith ZArith Lia.
From Stdlib Require Import Permutation.
From Stdlib Require Decimal DecimalString.
Import ListNotations.
Open Scope string_scope.
Open Scope list_scope.

Notation "a +:+ b" := (String.append a b)
  (at level 60, right associativity) : string_scope.

(** ** Python [str] operations used by the module *)

Module PyStr.

Abbreviation LF := ("010"%char) (only parsing).
Definition nl : string := String LF "".

(** [str.isspace] on a single character (code points below 256). *)
Definition is_space (c : ascii) : bool :=
  let n := nat_of_ascii c in
  (((9 <=? n) && (n <=? 13)) || ((28 <=? n) && (n <=? 32))
   || (n =? 133) || (n =? 160))%nat.

(** [c in s] for a one-character needle. *)
Fixpoint contains (c : ascii) (s : string) : bool :=
  match s with
  | "" => false
  | String a s' => Ascii.eqb a c || contains c s'
  end.

Fixpoint lstrip (s : string) : string :=
  match s with
  | "" => ""
  | String a s' => if is_space a then lstrip s' else s
  end.

Fixpoint rstrip (s : string) : string :=
  match s with
  | "" => ""
  | String a s' =>
      match rstrip s' with
      | "" => if is_space a then "" else String a ""
      | r => String a r
      end
  end.

(** [s.strip()] *)
Definition strip (s : string) : string := rstrip (lstrip s).

(** [s.split(sep)] for a one-character separator: never empty. *)
Fixpoint split_on (sep : ascii) (s : string) : list string :=
  match s with
  | "" => [""]
  | String a s' =>
      if Ascii.eqb a sep then "" :: split_on sep s'
      else match split_on sep s' with
           | w :: r => String a w :: r
           | [] => [String a ""]
           end
  end.

(** [s.split()]: maximal runs of non-blank characters. *)
Fixpoint split_ws (s : string) : list string :=
  match s with
  | "" => []
  | String a s' =>
      if is_space a then split_ws s'
      else match s' with
           | "" => [String a ""]
           | String b _ =>
               if is_space b then String a "" :: split_ws s'
               else match split_ws s' with
                    | w :: r => String a w :: r
                    | [] => [String a ""]
                    end
           end
  end.

(** [s.endswith(suffix)] *)
Fixpoint endswith (s suffix : string) : bool :=
  (s =? suffix) ||
  match s with
  | "" => false
  | String _ s' => endswith s' suffix
  end.

(** [s.startswith(prefix)] *)
Fixpoint startswith (s pre : string) {struct pre} : bool :=
  match pre with
  | "" => true
  | String p pre' =>
      match s with
      | "" => false
      | String c s' => Ascii.eqb c p && startswith s' pre'
      end
  end.

(** [s[:-n]] for a positive [n]. *)
Definition drop_last (n : nat) (s : string) : string :=
  substring 0 (String.length s - n) s.

(** [sep.join(words)] *)
Definition join_with (sep : string) (ws : list string) : string :=
  String.concat sep ws.

End PyStr.

(** ** [os.path] (the POSIX flavour) *)

Module PosixPath.
Import PyStr.

Abbreviation sep := ("/"%char) (only parsing).

(** [os.path.join(a, b)] *)
Definition join (a b : string) : string :=
  if startswith b "/" then b
  else if (a =? "") || endswith a "/" then a +:+ b
  else a +:+ "/" +:+ b.

(** [os.path.basename(p)]: the text after the last separator. *)
Definition basename (p : string) : string := last (split_on sep p) "".

(** A resolved location: the components below the root. *)
Definition path := list string.

Definition norm_step (stk : list string) (c : string) : list string :=
  if (c =? "") || (c =? ".") then stk
  else if c =? ".." then tl stk
  else c :: stk.

(** Lexical resolution of a path string against the working directory. *)
Definition resolve (cwd : path) (p : string) : path :=
  rev (fold_left norm_step (split_on sep p)
         (if startswith p "/" then [] else rev cwd)).

(** [os.path.abspath(os.curdir)] *)
Definition abspath_curdir (cwd : path) : string :=
  match cwd with
  | [] => "/"
  | _ => String.concat "" (map (fun c => "/" +:+ c) cwd)
  end.

(** A single ordinary file name. *)
Definition is_name (n : string) : bool :=
  negb (contains sep n) && negb (n =? "") && negb (n =? ".") && negb (n =? "..").

End PosixPath.

(** ** The file-system tree *)

Module FS.
Import PosixPath.

#[warnings="-register-all"]
Inductive node :=
| File (data : string)
| Dir (entries : list (string * node)).

Fixpoint assoc (k : string) (es : list (string * node)) : option node :=
  match es with
  | [] => None
  | (k', v) :: r => if k =? k' then Some v else assoc k r
  end.

Fixpoint set_entry (k : string) (v : node) (es : list (string * node))
  : list (string * node) :=
  match es with
  | [] => [(k, v)]
  | (k', v') :: r =>
      if k =? k' then (k, v) :: r else (k', v') :: set_entry k v r
  end.

Definition del_entry (k : string) (es : list (string * node))
  : list (string * node) :=
  filter (fun e => negb (k =? fst e)) es.

Fixpoint find (p : path) (t : node) : option node :=
  match p with
  | [] => Some t
  | c :: p' =>
      match t with
      | File _ => None
      | Dir es =>
          match assoc c es with
          | Some sub => find p' sub
          | None => None
          end
      end
  end.

(** Create or replace the node at [p]; the parent must be a directory. *)
Fixpoint put (p : path) (v : node) (t : node) : option node :=
  match p with
  | [] => Some v
  | c :: p' =>
      match t with
      | File _ => None
      | Dir es =>
          match p' with
          | [] => Some (Dir (set_entry c v es))
          | _ :: _ =>
              match assoc c es with
              | Some sub =>
                  match put p' v sub with
                  | Some sub' => Some (Dir (set_entry c sub' es))
                  | None => None
                  end
              | None => None
              end
          end
      end
  end.

(** Unlink the node at [p] together with everything below it. *)
Fixpoint remove (p : path) (t : node) : option node :=
  match p with
  | [] => None
  | c :: p' =>
      match t with
      | File _ => None
      | Dir es =>
          match p' with
          | [] => Some (Dir (del_entry c es))
          | _ :: _ =>
              match assoc c es with
              | Some sub =>
                  match remove p' sub with
                  | Some sub' => Some (Dir (set_entry c sub' es))
                  | None => None
                  end
              | None => None
              end
          end
      end
  end.

Definition names (es : list (string * node)) : list string := map fst es.

End FS.

(** ** [datetime.now().strftime("%Y%m%d_%H%M%S")] *)

Module DateTime.

Record datetime := mkDateTime {
  year : nat; month : nat; day : nat;
  hour : nat; minute : nat; second : nat }.

Definition digits (n : nat) : string :=
  DecimalString.NilEmpty.string_of_uint (Nat.to_uint n).

Fixpoint zeros (k : nat) : string :=
  match k with
  | O => ""
  | S k' => String "0" (zeros k')
  end.

(** Decimal rendering, zero-padded on the left to [w] digits. *)
Definition zfill (w n : nat) : string :=
  let s := digits n in zeros (w - String.length s) +:+ s.

Definition strftime (t : datetime) : string :=
  zfill 4 (year t) +:+ zfill 2 (month t) +:+ zfill 2 (day t) +:+ "_"
  +:+ zfill 2 (hour t) +:+ zfill 2 (minute t) +:+ zfill 2 (second t).

End DateTime.

(** ** Exceptions, outcomes and the world *)

Module Py.
Import PyStr PosixPath FS DateTime.

Inductive exn :=
| CalledProcessError (returncode : Z) (cmd : list string)
| FileNotFoundError (filename : string)
| NotADirectoryError (filename : string)
| IsADirectoryError (filename : string)
| FileExistsError (filename : string)
| PermissionError (filename : string)
| SameFileError (src dst : string)
| UnicodeDecodeError
| IndexError
| RuntimeError (msg : string).

Definition quoted (s : string) : string := "'" +:+ s +:+ "'".

Definition dquote : ascii := ascii_of_nat 34.
Definition backslash : ascii := ascii_of_nat 92.

Definition hex_digit (n : nat) : ascii :=
  nth n (list_ascii_of_string "0123456789abcdef") "0"%char.

(** One character of [repr(s)] between quotes [q]: the quote and the
    backslash are escaped, tab, line feed and carriage return are written
    with their letters, and the characters that are not printable (control
    characters, 127, 128 to 160 and 173) as [\xhh]. *)
Definition escape (q c : ascii) : string :=
  let n := nat_of_ascii c in
  if Ascii.eqb c q || Ascii.eqb c backslash then String backslash (String c "")
  else if (n =? 9)%nat then String backslash "t"
  else if (n =? 10)%nat then String backslash "n"
  else if (n =? 13)%nat then String backslash "r"
  else if ((n <? 32) || (n =? 127) || ((128 <=? n) && (n <=? 160))
           || (n =? 173))%nat
  then String backslash
         (String "x" (String (hex_digit (n / 16))
                        (String (hex_digit (n mod 16)) "")))
  else String c "".

Fixpoint escaped (q : ascii) (s : string) : string :=
  match s with
  | "" => ""
  | String c s' => escape q c +:+ escaped q s'
  end.

(** [repr(s)]: between apostrophes, or between double quotes when [s]
    holds an apostrophe and no double quote. *)
Definition repr (s : string) : string :=
  let q := if contains "'" s && negb (contains dquote s) then dquote
           else "'"%char in
  String q (escaped q s +:+ String q "").

(** [str(l)] for a list of strings. *)
Definition repr_list (l : list string) : string :=
  "[" +:+ join_with ", " (map repr l) +:+ "]".

Definition decimal (z : Z) : string :=
  DecimalString.NilZero.string_of_int (Z.to_int z).

(** [str(e)] *)
Definition str (e : exn) : string :=
  match e with
  | CalledProcessError rc cmd =>
      "Command " +:+ quoted (repr_list cmd)
      +:+ " returned non-zero exit status " +:+ decimal rc +:+ "."
  | FileNotFoundError f => "[Errno 2] No such file or directory: " +:+ repr f
  | NotADirectoryError f => "[Errno 20] Not a directory: " +:+ repr f
  | IsADirectoryError f => "[Errno 21] Is a directory: " +:+ repr f
  | FileExistsError f => "[Errno 17] File exists: " +:+ repr f
  | PermissionError f => "[Errno 13] Permission denied: " +:+ repr f
  | SameFileError s d =>
      repr s +:+ " and " +:+ repr d +:+ " are the same file"
  | UnicodeDecodeError => "'utf-8' codec can't decode byte: invalid start byte"
  | IndexError => "list index out of range"
  | RuntimeError msg => msg
  end.

(** What a pipe captured: text, or bytes that do not decode. *)
Inductive bytes :=
| Encoded (text : string)
| Undecodable.

(** How a child process ends: it cannot be started, or it exits. *)
Inductive proc :=
| SpawnError (e : exn)
| Exited (status : Z) (out : bytes) (err : string).

Record CompletedProcess (T : Type) := mkCompleted {
  returncode : Z; stdout : T; stderr : string }.
Arguments mkCompleted {T}.
Arguments returncode {T}.
Arguments stdout {T}.
Arguments stderr {T}.

(** Calls that changed the file system, in program order. *)
Inductive event :=
| EvRmtree (target : string)
| EvMkdir (target : string)
| EvCopy (src dst : string)
| EvWrite (target : string).

(** What the run cannot control: the clock, the child processes and the
    interpreter's platform. [now k] is the [k]-th reading of the clock. *)
Record host := mkHost {
  now : nat -> datetime;
  spawn : bool -> list string -> proc;
  platform_system : string;
  sys_prefix : string }.

Record world := mkWorld {
  fs : node;
  cwd : path;
  console : list string;
  clock : nat;
  trace : list event }.

Inductive outcome (A : Type) :=
| Return (a : A)
| Raise (e : exn).
Arguments Return {A}.
Arguments Raise {A}.

Definition M (A : Type) : Type := world -> outcome A * world.

Definition ret {A} (a : A) : M A := fun w => (Return a, w).

Definition raise {A} (e : exn) : M A := fun w => (Raise e, w).

Definition bind {A B} (m : M A) (k : A -> M B) : M B :=
  fun w =>
    match m w with
    | (Return a, w') => k a w'
    | (Raise e, w') => (Raise e, w')
    end.

(** [try: m  except: h] *)
Definition try_except {A} (m : M A) (h : exn -> M A) : M A :=
  fun w =>
    match m w with
    | (Return a, w') => (Return a, w')
    | (Raise e, w') => h e w'
    end.

Declare Scope py_scope.
Delimit Scope py_scope with py.
Notation "x <- m ;; k" := (bind m (fun x => k))
  (at level 61, m at next level, right associativity) : py_scope.
Notation "m ;; k" := (bind m (fun _ => k))
  (at level 61, right associativity) : py_scope.
Open Scope py_scope.

(** [for x in xs: body x] *)
Fixpoint for_each {A} (xs : list A) (body : A -> M unit) : M unit :=
  match xs with
  | [] => ret tt
  | x :: r => body x ;; for_each r body
  end.

(** [l[i]] *)
Definition item {A} (l : list A) (i : nat) : outcome A :=
  match nth_error l i with
  | Some x => Return x
  | None => Raise IndexError
  end.

(** A computation that does not touch the world. *)
Definition lift {A} (r : outcome A) : M A := fun w => (r, w).

(** [b.decode()] *)
Definition decode (b : bytes) : M string :=
  match b with
  | Encoded s => ret s
  | Undecodable => raise UnicodeDecodeError
  end.

Definition print (line : string) : M unit :=
  fun w => (Return tt,
            mkWorld (fs w) (cwd w) (console w ++ [line]) (clock w) (trace w)).

Definition log (e : event) (w : world) : world :=
  mkWorld (fs w) (cwd w) (console w) (clock w) (trace w ++ [e]).

Definition with_fs (t : node) (w : world) : world :=
  mkWorld t (cwd w) (console w) (clock w) (trace w).

Definition lookup (p : string) (w : world) : option node :=
  if p =? "" then None else find (resolve (cwd w) p) (fs w).

Definition os_getcwd : M path := fun w => (Return (cwd w), w).

(** [os.path.exists(p)] *)
Definition os_path_exists (p : string) : M bool :=
  fun w => (Return (match lookup p w with Some _ => true | None => false end), w).

Definition isdir (p : string) (w : world) : bool :=
  match lookup p w with Some (Dir _) => true | _ => false end.

(** [os.listdir(p)] *)
Definition os_listdir (p : string) : M (list string) :=
  fun w =>
    match lookup p w with
    | Some (Dir es) => (Return (names es), w)
    | Some (File _) => (Raise (NotADirectoryError p), w)
    | None => (Raise (FileNotFoundError p), w)
    end.

(** The error raised by a call that needs the parent directory of the
    resolved location [q] to exist. *)
Definition parent_error (p : string) (q : path) (w : world) : exn :=
  match find (removelast q) (fs w) with
  | Some (File _) => NotADirectoryError p
  | _ => FileNotFoundError p
  end.

(** [os.mkdir(p)] *)
Definition os_mkdir (p : string) : M unit :=
  fun w =>
    match lookup p w with
    | Some _ => (Raise (FileExistsError p), w)
    | None =>
        if p =? "" then (Raise (FileNotFoundError p), w)
        else
          let q := resolve (cwd w) p in
          match find (removelast q) (fs w) with
          | Some (Dir _) =>
              match put q (Dir []) (fs w) with
              | Some t => (Return tt, log (EvMkdir p) (with_fs t w))
              | None => (Raise (FileNotFoundError p), w)
              end
          | _ => (Raise (parent_error p q w), w)
          end
    end.

(** [shutil.rmtree(p)]; the root itself cannot be unlinked. *)
Definition shutil_rmtree (p : string) : M unit :=
  fun w =>
    match lookup p w with
    | None => (Raise (FileNotFoundError p), w)
    | Some (File _) => (Raise (NotADirectoryError p), w)
    | Some (Dir _) =>
        match remove (resolve (cwd w) p) (fs w) with
        | Some t => (Return tt, log (EvRmtree p) (with_fs t w))
        | None => (Raise (PermissionError p), w)
        end
    end.

(** Create or truncate the regular file named [p] and fill it. *)
Definition store (p : string) (data : string) (w : world)
  : outcome unit * world :=
  match lookup p w with
  | Some (Dir _) => (Raise (IsADirectoryError p), w)
  | _ =>
      if p =? "" then (Raise (FileNotFoundError p), w)
      else
        let q := resolve (cwd w) p in
        match find (removelast q) (fs w) with
        | Some (Dir _) =>
            match put q (File data) (fs w) with
            | Some t => (Return tt, with_fs t w)
            | None => (Raise (FileNotFoundError p), w)
            end
        | _ => (Raise (parent_error p q w), w)
        end
  end.

(** [with open(p, 'w') as f: f.write(c) for c in chunks] *)
Definition open_write (p : string) (chunks : list string) : M unit :=
  fun w =>
    match store p (String.concat "" chunks) w with
    | (Return _, w') => (Return tt, log (EvWrite p) w')
    | r => r
    end.

(** [os.path.samefile(a, b)], with a failing [stat] read as [False]. *)
Definition samefile (a b : string) (w : world) : bool :=
  match lookup a w, lookup b w with
  | Some _, Some _ =>
      if list_eq_dec string_dec (resolve (cwd w) a) (resolve (cwd w) b)
      then true else false
  | _, _ => false
  end.

(** [shutil.copy2(src, dst)] (contents only). *)
Definition shutil_copy2 (src dst : string) : M unit :=
  fun w =>
    let dst' := if isdir dst w then join dst (basename src) else dst in
    if samefile src dst' w then (Raise (SameFileError src dst'), w)
    else
      match lookup src w with
      | None => (Raise (FileNotFoundError src), w)
      | Some (Dir _) => (Raise (IsADirectoryError src), w)
      | Some (File data) =>
          match store dst' data w with
          | (Return _, w') => (Return tt, log (EvCopy src dst) w')
          | r => r
          end
      end.

Section Host.
Variable E : host.

(** [datetime.now().strftime("%Y%m%d_%H%M%S")] *)
Definition strftime_now : M string :=
  fun w => (Return (strftime (now E (clock w))),
            mkWorld (fs w) (cwd w) (console w) (S (clock w)) (trace w)).

(** [subprocess.run(argv, check=True, stdout=PIPE, stderr=PIPE)] *)
Definition subprocess_run_check (argv : list string)
  : M (CompletedProcess bytes) :=
  match spawn E false argv with
  | SpawnError e => raise e
  | Exited rc out err =>
      if (rc =? 0)%Z then ret (mkCompleted rc out err)
      else raise (CalledProcessError rc argv)
  end.

(** [subprocess.run(argv, capture_output=True, text=True, shell=sh)] *)
Definition subprocess_run_text (sh : bool) (argv : list string)
  : M (CompletedProcess string) :=
  match spawn E sh argv with
  | SpawnError e => raise e
  | Exited rc (Encoded out) err => ret (mkCompleted rc out err)
  | Exited _ Undecodable _ => raise UnicodeDecodeError
  end.

End Host.

End Py.

(** ** The module [reproducibility.py] *)

Module Reproducibility.
Import PyStr PosixPath FS DateTime Py.

Definition descriptor_name (timestamp : string) : string :=
  "git_commit_" +:+ timestamp +:+ ".txt".

Definition manifest_name (timestamp : string) : string :=
  "conda_env_" +:+ timestamp +:+ ".yml".

Definition announced_manifest_name (current_env timestamp : string) : string :=
  "conda_env_" +:+ current_env +:+ "_" +:+ timestamp +:+ ".yml".

Definition copy_name (f timestamp : string) : string :=
  f +:+ "_" +:+ timestamp +:+ ".txt".

(** The six [f.write] calls of [save_git_commit_to_file]. *)
Definition descriptor_lines (project_name branch_name commit_hash : string)
  : list string :=
  [ "Project Name: " +:+ project_name +:+ nl;
    "Branch Name: " +:+ branch_name +:+ nl;
    "Commit Hash: " +:+ commit_hash +:+ nl;
    "View single commit: https://github.com/<user>/" +:+ project_name
      +:+ "/commit/" +:+ commit_hash +:+ nl;
    "View log: https://github.com/<user>/" +:+ project_name
      +:+ "/commits/" +:+ commit_hash +:+ nl;
    "/!\ the files in the directory may have been modified since the last commit!!"
      +:+ nl ].

(** Lines 67-70: the project name carried by a remote URL. *)
Definition project_of_url (remote_url : string) : string :=
  let remote_url :=
    if endswith remote_url ".git" then drop_last 4 remote_url
    else remote_url in
  basename remote_url.

Section Host.
Variable E : host.

(** Lines 53-73. *)
Definition get_project_name : M string :=
  try_except
    (remote_result <-
       subprocess_run_check E ["git"; "config"; "--get"; "remote.origin.url"] ;;
     remote_url <- decode (stdout remote_result) ;;
     let remote_url := strip remote_url in
     ret (project_of_url remote_url))
    (fun _ =>
       here <- os_getcwd ;;
       ret (basename (abspath_curdir here))).

(** The [try] block of [save_git_commit_to_file], lines 30-87. *)
Definition save_git_commit_body (d : string) : M bool :=
  _ <- subprocess_run_check E ["git"; "rev-parse"; "--is-inside-work-tree"] ;;
  result <- subprocess_run_check E ["git"; "rev-parse"; "HEAD"] ;;
  commit_hash <- decode (stdout result) ;;
  let commit_hash := strip commit_hash in
  branch_result <-
    subprocess_run_check E ["git"; "rev-parse"; "--abbrev-ref"; "HEAD"] ;;
  branch_name <- decode (stdout branch_result) ;;
  let branch_name := strip branch_name in
  project_name <- get_project_name ;;
  timestamp <- strftime_now E ;;
  open_write (join d (descriptor_name timestamp))
    (descriptor_lines project_name branch_name commit_hash) ;;
  print ("Git information saved to " +:+ join d (descriptor_name timestamp)) ;;
  ret true.

(** The two [except] clauses, lines 89-94. *)
Definition save_git_commit_handler (e : exn) : M bool :=
  match e with
  | CalledProcessError _ _ =>
      print "Error: Not a git repository or git is not installed." ;;
      ret false
  | _ =>
      print ("Error: " +:+ str e) ;;
      ret false
  end.

Definition save_git_commit_to_file (d : string) : M bool :=
  try_except (save_git_commit_body d) save_git_commit_handler.

(** The loop of lines 125-131 over the rows of [conda info --envs]. *)
Fixpoint find_current_env (env_info : list string)
  : outcome (option string) :=
  match env_info with
  | [] => Return None
  | line :: rest =>
      if contains "*" line then
        match item (split_ws line) 0 with
        | Return current_env =>
            if current_env =? "*" then
              match item (split_ws line) 1 with
              | Return current_env => Return (Some current_env)
              | Raise e => Raise e
              end
            else Return (Some current_env)
        | Raise e => Raise e
        end
      else find_current_env rest
  end.

Definition is_windows : bool := platform_system E =? "Windows".

(** Lines 108-112: the name under which conda is invoked. *)
Definition conda_command : M string :=
  if is_windows then
    bat <- os_path_exists
             (join (join (sys_prefix E) "Scripts") "conda.bat") ;;
    ret (if bat : bool then "conda.bat" else "conda")
  else ret "conda".

Definition export_conda_environment (d : string) (include_builds : bool)
  : M (option string) :=
  conda_cmd <- conda_command ;;
  result <- subprocess_run_text E is_windows [conda_cmd; "info"; "--envs"] ;;
  if negb (returncode result =? 0)%Z then
    print ("Error running conda command: " +:+ stderr result) ;;
    ret None
  else
    let env_info := split_on LF (strip (stdout result)) in
    current_env <- lift (find_current_env env_info) ;;
    match current_env with
    | None | Some "" =>
        raise (RuntimeError "Could not determine current conda environment")
    | Some current_env =>
        let command :=
          ["conda"; "env"; "export"; "-n"; current_env]
          ++ (if include_builds then [] else ["--no-builds"]) in
        timestamp <- strftime_now E ;;
        print ("Running command: " +:+ join_with " " command) ;;
        result <- subprocess_run_text E is_windows command ;;
        if negb (returncode result =? 0)%Z then
          print ("Error exporting environment: " +:+ stderr result) ;;
          ret None
        else
          open_write (join d (manifest_name timestamp)) [stdout result] ;;
          print ("Environment exported to "
                 +:+ join d (announced_manifest_name current_env timestamp)) ;;
          ret None
    end.

(** Line 167: the names selected for copying. *)
Definition select (extensions : list string) (listing : list string)
  : list string :=
  filter (fun s => existsb (fun ext => endswith s ext) extensions) listing.

Definition save_files_rootdir (d : string) (extensions : list string)
  : M unit :=
  timestamp <- strftime_now E ;;
  listing <- os_listdir "." ;;
  let files := select extensions listing in
  for_each files
    (fun f => shutil_copy2 f (join d (copy_name f timestamp))).

(** Lines 180-182: reset the output directory. *)
Definition reset_directory (r_d : string) : M unit :=
  there <- os_path_exists r_d ;;
  (if there : bool then shutil_rmtree r_d else ret tt) ;;
  os_mkdir r_d.

Definition make_workflow_reproducible (w_d : string) : M unit :=
  let r_d := join w_d "reproducibility" in
  reset_directory r_d ;;
  save_files_rootdir r_d [".py"] ;;
  _ <- save_git_commit_to_file r_d ;;
  _ <- export_conda_environment r_d false ;;
  ret tt.

End Host.

End Reproducibility.

(** ** Vocabulary of the statements *)

Module Spec.
Import PyStr PosixPath FS DateTime Py Reproducibility.

(** The world after one more line on the console. *)
Definition say (line : string) (w : world) : world :=
  mkWorld (fs w) (cwd w) (console w ++ [line]) (clock w) (trace w).

Definition output_dir (w_d : string) : string := join w_d "reproducibility".

(** The work-tree query of line 31. *)
Definition worktree_query (E : host) : proc :=
  spawn E false ["git"; "rev-parse"; "--is-inside-work-tree"].

Definition head_query (E : host) : proc :=
  spawn E false ["git"; "rev-parse"; "HEAD"].

Definition branch_query (E : host) : proc :=
  spawn E false ["git"; "rev-parse"; "--abbrev-ref"; "HEAD"].

Definition remote_query (E : host) : proc :=
  spawn E false ["git"; "config"; "--get"; "remote.origin.url"].

(** The work-tree query of line 31 cannot be started, or exits with a
    status other than 0, as git does outside any repository. What the
    query prints is not read by the code: an answer [false] with status 0
    (inside the [.git] directory, in a bare repository) is not a failure
    of the query. *)
Definition worktree_query_fails (E : host) : Prop :=
  match worktree_query E with
  | SpawnError _ => True
  | Exited rc _ _ => rc <> 0%Z
  end.

(** The line the recorder prints when the work-tree query fails. *)
Definition recorder_complaint (E : host) : string :=
  match worktree_query E with
  | SpawnError (CalledProcessError _ _) | Exited _ _ _ =>
      "Error: Not a git repository or git is not installed."
  | SpawnError e => "Error: " +:+ str e
  end.


(** The remote query answers with the text [url]. *)
Definition remote_answers (E : host) (url : string) : Prop :=
  exists err, remote_query E = Exited 0 (Encoded url) err.

(** The project name the recorder derives in a given working directory. *)
Definition recorded_project (E : host) (here : path) : string :=
  match remote_query E with
  | Exited rc (Encoded url) _ =>
      if (rc =? 0)%Z then project_of_url (strip url)
      else basename (abspath_curdir here)
  | _ => basename (abspath_curdir here)
  end.

(** The spec's wording of the project name: the final path segment of the
    URL with a trailing [.git] removed. *)
Definition final_segment (url : string) : string :=
  last (split_on sep url) "".

Definition without_git_suffix (s : string) : string :=
  if endswith s ".git" then drop_last 4 s else s.

Definition spec_project_name (url : string) : string :=
  without_git_suffix (final_segment url).

(** The command name chosen by lines 108-112. *)
Definition conda_cmd_at (E : host) (w : world) : string :=
  if is_windows E then
    match lookup (join (join (sys_prefix E) "Scripts") "conda.bat") w with
    | Some _ => "conda.bat"
    | None => "conda"
    end
  else "conda".

Definition env_listing (E : host) (w : world) : proc :=
  spawn E (is_windows E) [conda_cmd_at E w; "info"; "--envs"].

Definition export_command (current_env : string) (include_builds : bool)
  : list string :=
  ["conda"; "env"; "export"; "-n"; current_env]
  ++ (if include_builds then [] else ["--no-builds"]).

(** The listing succeeds and none of its rows holds an asterisk, the one
    sign of an active environment the code looks for. A row of comment or
    legend that holds an asterisk is a row with an asterisk. *)
Definition no_row_with_asterisk (E : host) (w : world) : Prop :=
  exists listing err,
    env_listing E w = Exited 0 (Encoded listing) err
    /\ Forall (fun row => contains "*" row = false)
              (split_on LF (strip listing)).

Definition no_environment : exn :=
  RuntimeError "Could not determine current conda environment".

(** The orchestrator up to and including the revision recorder. *)
Definition upto_recorder (E : host) (w_d : string) : M bool :=
  reset_directory (output_dir w_d) ;;
  save_files_rootdir E (output_dir w_d) [".py"] ;;
  save_git_commit_to_file E (output_dir w_d).

(** [d] leads to a directory in which a regular file [n] can be created or
    replaced (an empty [d] leads to the working directory). *)
Definition can_create (d n : string) (w : world) : Prop :=
  exists es, find (resolve (cwd w) d) (fs w) = Some (Dir es)
             /\ forall sub, assoc n es <> Some (Dir sub).

(** The file named [p] holds [data]. *)
Definition holds (p data : string) (w : world) : Prop :=
  lookup p w = Some (File data).

(** The text is made of these lines, each ended by a line feed. *)
Definition lines_of (text : string) : list string :=
  removelast (split_on LF text).

(** An artifact event whose file name carries the timestamp [ts]. *)
Definition stamped (r_d ts : string) (ev : event) : Prop :=
  match ev with
  | EvCopy f dst => dst = join r_d (copy_name f ts)
  | EvWrite p =>
      p = join r_d (descriptor_name ts) \/ p = join r_d (manifest_name ts)
  | _ => True
  end.

(** The events a computation appends to the trace. *)
Definition appended (w w' : world) : list event :=
  skipn (List.length (trace w)) (trace w').

(** The [k]-th reading of the clock, as it appears in file names. *)
Definition reading (E : host) (k : nat) : string := strftime (now E k).

(** A copy named after the [k]-th reading. *)
Definition copy_stamped (E : host) (r_d : string) (k : nat) (ev : event)
  : Prop :=
  match ev with
  | EvCopy f dst => dst = join r_d (copy_name f (reading E k))
  | _ => True
  end.

(** A descriptor named after the reading [k], or a manifest named after
    the reading [k] or the one that follows it. *)
Definition write_stamped (E : host) (r_d : string) (k : nat) (ev : event)
  : Prop :=
  match ev with
  | EvWrite p =>
      p = join r_d (descriptor_name (reading E k))
      \/ p = join r_d (manifest_name (reading E k))
      \/ p = join r_d (manifest_name (reading E (S k)))
  | _ => True
  end.

(** Events that create no artifact. *)
Definition quiet (ev : event) : Prop :=
  match ev with
  | EvCopy _ _ | EvWrite _ => False
  | _ => True
  end.

(** The world after one more reading of the clock. *)
Definition tick (w : world) : world :=
  mkWorld (fs w) (cwd w) (console w) (S (clock w)) (trace w).

(** The shape shared by the recorder and the exporter: at most one
    reading of the clock and at most one file, named after it. *)
Definition one_file (p : string) (w w' : world) : Prop :=
  (clock w' = clock w /\ trace w' = trace w)
  \/ (clock w' = S (clock w)
      /\ (trace w' = trace w \/ trace w' = trace w ++ [EvWrite p])).

(** Events named after the readings of a run that started when the clock
    had been read [c] times: copies after the first reading, written files
    after the second or third; and all after the first if the three
    readings agree. *)
Definition well_stamped (E : host) (r_d : string) (c : nat)
    (evs : list event) : Prop :=
  Forall (copy_stamped E r_d c) evs
  /\ Forall (write_stamped E r_d (S c)) evs
  /\ (reading E (S c) = reading E c ->
      reading E (S (S c)) = reading E c ->
      Forall (stamped r_d (reading E c)) evs).

(** [post m w Q]: running [m] from [w] ends in an outcome and a world
    related by [Q]. *)
Definition post {A} (m : M A) (w : world)
    (Q : outcome A -> world -> Prop) : Prop :=
  Q (fst (m w)) (snd (m w)).

End Spec.

(** ** Sample hosts and worlds *)

Module Sample.
Import PyStr PosixPath FS DateTime Py Reproducibility Spec.

Definition ok (text : string) : proc := Exited 0 (Encoded (text +:+ nl)) "".

Definition conda_rows : string :=
  "# conda environments:" +:+ nl +:+ "#" +:+ nl
  +:+ "base                     /opt/conda" +:+ nl
  +:+ "sci                   *  /opt/conda/envs/sci".

Definition idle_rows : string :=
  "# conda environments:" +:+ nl +:+ "#" +:+ nl
  +:+ "base                     /opt/conda" +:+ nl
  +:+ "sci                      /opt/conda/envs/sci".

(** A checkout of [demo] on branch [main] with conda environment [sci]. *)
Definition tools (sh : bool) (argv : list string) : proc :=
  match argv with
  | ["git"; "rev-parse"; "--is-inside-work-tree"] => ok "true"
  | ["git"; "rev-parse"; "HEAD"] => ok "abc123"
  | ["git"; "rev-parse"; "--abbrev-ref"; "HEAD"] => ok "main"
  | ["git"; "config"; "--get"; "remote.origin.url"] =>
      ok "https://github.com/someone/demo.git"
  | ["conda"; "info"; "--envs"] => ok conda_rows
  | ["conda"; "env"; "export"; "-n"; "sci"; "--no-builds"] => ok "name: sci"
  | _ => SpawnError (FileNotFoundError "tool")
  end.


(** The same directory outside any repository. *)
Definition tools_no_git (sh : bool) (argv : list string) : proc :=
  match argv with
  | "git" :: _ =>
      Exited 128 (Encoded "")
        "fatal: not a git repository (or any of the parent directories): .git"
  | _ => tools sh argv
  end.

(** The same repository seen from inside its [.git] directory: the
    work-tree query answers [false] and exits with status 0. *)
Definition tools_git_dir (sh : bool) (argv : list string) : proc :=
  match argv with
  | ["git"; "rev-parse"; "--is-inside-work-tree"] => ok "false"
  | _ => tools sh argv
  end.


(** The same checkout with no conda environment activated. *)
Definition tools_no_env (sh : bool) (argv : list string) : proc :=
  match argv with
  | ["conda"; "info"; "--envs"] => ok idle_rows
  | _ => tools sh argv
  end.

(** A clock that advances one second between readings. *)
Definition ticking (k : nat) : datetime := mkDateTime 2024 1 1 12 0 k.

(** A clock that stands still during the run. *)
Definition frozen (k : nat) : datetime := mkDateTime 2024 1 1 12 0 0.

Definition linux (clk : nat -> datetime) (sp : bool -> list string -> proc)
  : host := mkHost clk sp "Linux" "/usr".

Definition host_ticking : host := linux ticking tools.
Definition host_frozen : host := linux frozen tools.
Definition host_no_git : host := linux ticking tools_no_git.
Definition host_no_env : host := linux ticking tools_no_env.
Definition host_git_dir : host := linux ticking tools_git_dir.

Definition at_home (entries : list (string * node)) : world :=
  mkWorld (Dir [("home", Dir [("demo", Dir entries)])]) ["home"; "demo"]
          [] 0 [].

Definition old_snapshot : list (string * node) :=
  [("a.py_20231231_235959.txt", File "old")].

(** A project directory holding an earlier snapshot. *)
Definition project : world :=
  at_home [("a.py", File "print('a')"); ("b.py", File "print('b')");
           ("notes.txt", File "todo");
           ("reproducibility", Dir old_snapshot)].

(** The scenario of the three files, with an empty directory [/out]. *)
Definition three_files_only : world :=
  mkWorld (Dir [("home", Dir [("demo",
                   Dir [("b.py", File "print('b')"); ("notes.txt", File "todo");
                        ("a.py", File "print('a')")])]);
                ("out", Dir [])])
          ["home"; "demo"] [] 0 [].

(** A project with a package directory whose name ends in [.py]. *)
Definition with_package_dir : world :=
  at_home [("a.py", File "print('a')");
           ("plugins.py", Dir [("__init__.py", File "")])].

End Sample.

(** ** Further vocabulary *)

From Stdlib Require DecimalNat.

Module Terms.
Import PyStr PosixPath FS DateTime Py Reproducibility Spec.

(** Every character of [s] satisfies [p]. *)
Fixpoint every (p : ascii -> bool) (s : string) : bool :=
  match s with
  | "" => true
  | String a s' => p a && every p s'
  end.

(** A word: not empty and without blanks. *)
Definition is_word (s : string) : bool :=
  negb (s =? "") && every (fun a => negb (is_space a)) s.

(** Only blanks. *)
Definition is_blank (s : string) : bool := every is_space s.




(** The contents of the regular file [f] of a directory. *)
Definition data_of (es : list (string * node)) (f : string) : string :=
  match assoc f es with
  | Some (File data) => data
  | _ => ""
  end.

(** The copies of [files], as they are named with the timestamp [ts]. *)
Definition copies_of (ts : string) (es : list (string * node))
    (files : list string) : list (string * node) :=
  map (fun f => (copy_name f ts, File (data_of es f))) files.

(** The entry [f] of a directory is a regular file. *)
Definition regular (es : list (string * node)) (f : string) : Prop :=
  exists data, assoc f es = Some (File data).

(** A directory whose entries have distinct, ordinary names. *)
Definition tidy (es : list (string * node)) : Prop :=
  NoDup (names es) /\ Forall (fun n => is_name n = true) (names es).

(** The exception with which [subprocess.run(..., text=True)] ends when
    the child cannot be started or its output cannot be decoded. *)
Definition launch_failure (p : proc) : option exn :=
  match p with
  | SpawnError e => Some e
  | Exited _ Undecodable _ => Some UnicodeDecodeError
  | Exited _ (Encoded _) _ => None
  end.

(** A child process that ran and reported failure. *)
Definition exits_nonzero (p : proc) : Prop :=
  match p with
  | Exited rc _ _ => rc <> 0%Z
  | SpawnError _ => False
  end.




(** A tree as a file system has it: at every level the entries are named
    by ordinary names (not empty, no separator, neither [.] nor [..]). *)
Fixpoint sane (t : node) : bool :=
  match t with
  | File _ => true
  | Dir es => forallb (fun e => is_name (fst e) && sane (snd e)) es
  end.

(** The location [q] is [r] or lies below it. *)
Fixpoint below (r q : path) : bool :=
  match r, q with
  | [], _ => true
  | a :: r', b :: q' => (a =? b) && below r' q'
  | _ :: _, [] => false
  end.

(** Neither location is on the way to the other. *)
Definition apart (r q : path) : Prop :=
  below r q = false /\ below q r = false.

(** From [w] to [w'] the working directory stayed, and the tree changed
    at most at [r], below it, and in the directories leading to it. *)
Definition within (r : path) (w w' : world) : Prop :=
  cwd w' = cwd w
  /\ forall q, apart r q -> find q (fs w') = find q (fs w).

(** A reading as [datetime.now()] gives it: a year of four digits and
    calendar ranges for the other fields. *)
Definition plausible (t : datetime) : bool :=
  ((1000 <=? year t) && (year t <? 10 * 1000)
   && (month t <=? 12) && (day t <=? 31)
   && (hour t <? 24) && (minute t <? 60) && (second t <? 60))%nat.

(** A decimal number with [k] more zeros in front. *)
Fixpoint padded (k : nat) (u : Decimal.uint) : Decimal.uint :=
  match k with
  | O => u
  | S k' => Decimal.D0 (padded k' u)
  end.

(** What every run of the exporter comes to: it never hands a path
    back, and either the tree is untouched or the one file at [p] was
    written and [None] returned. *)
Definition exporter_report (p : string) (w : world)
    (r : outcome (option string)) (w' : world) : Prop :=
  match r with
  | Return (Some _) => False
  | Return None =>
      (fs w' = fs w /\ trace w' = trace w)
      \/ trace w' = trace w ++ [EvWrite p]
  | Raise _ => fs w' = fs w /\ trace w' = trace w
  end.

(** The length of [s] in bytes as the file system counts it: two bytes
    for a character above 127. *)
Fixpoint byte_length (s : string) : nat :=
  match s with
  | "" => 0
  | String c s' =>
      (if (nat_of_ascii c <? 128)%nat then 1 else 2) + byte_length s'
  end.

(** The operating system accepts the name [n] in [d]: the name is at most
    255 bytes long and the path to it is shorter than 4096 bytes. Beyond
    that, creating the file fails with [OSError: [Errno 36] File name too
    long], which the tree of the model does not show. *)
Definition nameable (d n : string) : bool :=
  ((byte_length n <=? 255) && (byte_length (join d n) <? 4096))%nat.

(** What a run hands back to its caller. *)
Definition handed_back {A} (r : outcome A) : outcome unit :=
  match r with
  | Return _ => Return tt
  | Raise e => Raise e
  end.

End Terms.

(** ** Further sample hosts and worlds *)

Module Cases.
Import PyStr PosixPath FS DateTime Py Reproducibility Spec Sample Terms.

(** A listing that explains its marks before the rows, with the active
    environment [sci] after the explanation. *)
Definition legend_rows : list string :=
  [ "# * -> active"; "# + -> frozen";
    "base                     /opt/conda";
    "sci                   *  /opt/conda/envs/sci" ].

(** conda is installed but fails. *)
Definition tools_broken_conda (sh : bool) (argv : list string) : proc :=
  match argv with
  | ["conda"; "info"; "--envs"] =>
      Exited 1 (Encoded "") "CondaError: cannot read configuration"
  | _ => tools sh argv
  end.

(** The listing works, the export does not. *)
Definition tools_failed_export (sh : bool) (argv : list string) : proc :=
  match argv with
  | "conda" :: "env" :: _ =>
      Exited 1 (Encoded "") "EnvironmentLocationNotFound: sci"
  | _ => tools sh argv
  end.

(** conda is not installed. *)
Definition tools_no_conda (sh : bool) (argv : list string) : proc :=
  match argv with
  | "conda" :: _ => SpawnError (FileNotFoundError "conda")
  | _ => tools sh argv
  end.

(** A listing whose marked row holds the asterisk alone. *)
Definition tools_lone_marker (sh : bool) (argv : list string) : proc :=
  match argv with
  | ["conda"; "info"; "--envs"] =>
      ok ("# conda environments:" +:+ nl +:+ "#" +:+ nl +:+ " * " +:+ nl
          +:+ "base                     /opt/conda")
  | _ => tools sh argv
  end.

(** A repository in which nothing has been committed yet. *)
Definition tools_unborn (sh : bool) (argv : list string) : proc :=
  match argv with
  | ["git"; "rev-parse"; "HEAD"] =>
      Exited 128 (Encoded "HEAD")
        "fatal: ambiguous argument 'HEAD': unknown revision"
  | _ => tools sh argv
  end.

Definition host_broken_conda : host := linux ticking tools_broken_conda.
Definition host_failed_export : host := linux ticking tools_failed_export.
Definition host_no_conda : host := linux ticking tools_no_conda.
Definition host_lone_marker : host := linux ticking tools_lone_marker.
Definition host_unborn : host := linux ticking tools_unborn.

(** A project directory before its first run. *)
Definition fresh_entries : list (string * node) :=
  [("a.py", File "print('a')"); ("notes.txt", File "todo")].

Definition fresh_project : world := at_home fresh_entries.

(** A project in which [reproducibility] is a regular file. *)
Definition blocked_project : world :=
  at_home [("a.py", File "print('a')"); ("reproducibility", File "notes")].

End Cases.

(** * Properties *)

(** ** Strings *)

Module StrFacts.
Import PyStr.

Lemma append_nil_r s : s +:+ "" = s.
Proof. induction s; simpl; congruence. Qed.

Lemma append_assoc a b c : (a +:+ b) +:+ c = a +:+ (b +:+ c).
Proof. induction a; simpl; congruence. Qed.

Lemma length_append a b :
  String.length (a +:+ b) = String.length a + String.length b.
Proof. induction a; simpl; congruence. Qed.

Lemma append_inv_tail a b c : a +:+ c = b +:+ c -> a = b.
Proof.
  revert b; induction a as [|x a IH]; intros [|y b] H; simpl in H.
  - reflexivity.
  - apply (f_equal String.length) in H; simpl in H.
    rewrite length_append in H; lia.
  - apply (f_equal String.length) in H; simpl in H.
    rewrite length_append in H; lia.
  - injection H as -> H. f_equal. now apply IH.
Qed.

Lemma append_inv_head a b c : a +:+ b = a +:+ c -> b = c.
Proof. induction a; simpl; intros H; [assumption|]. injection H. auto. Qed.

Lemma contains_append c a b :
  contains c (a +:+ b) = contains c a || contains c b.
Proof.
  induction a as [|x a IH]; simpl; [reflexivity|].
  now rewrite IH, orb_assoc.
Qed.

Lemma split_on_nonempty sep s : split_on sep s <> [].
Proof.
  destruct s as [|a s]; simpl; [discriminate|].
  destruct (Ascii.eqb a sep); [discriminate|].
  destruct (split_on sep s); discriminate.
Qed.

Lemma split_on_plain sep s : contains sep s = false -> split_on sep s = [s].
Proof.
  induction s as [|a s IH]; simpl; intros H; [reflexivity|].
  apply orb_false_iff in H as [Ha Hs].
  now rewrite Ha, (IH Hs).
Qed.

Lemma split_on_append sep a b :
  split_on sep (a +:+ String sep b) = split_on sep a ++ split_on sep b.
Proof.
  induction a as [|x a IH]; simpl.
  - now rewrite Ascii.eqb_refl.
  - destruct (Ascii.eqb x sep); rewrite IH; [reflexivity|].
    destruct (split_on sep a) eqn:Ea; [|reflexivity].
    now apply split_on_nonempty in Ea.
Qed.

(** Appending separator-free text only extends the last field. *)
Lemma split_on_suffix sep a b :
  contains sep b = false ->
  split_on sep (a +:+ b)
  = removelast (split_on sep a) ++ [last (split_on sep a) "" +:+ b].
Proof.
  intros Hb. induction a as [|x a IH].
  - simpl. now apply split_on_plain.
  - cbn [String.append split_on].
    destruct (Ascii.eqb x sep).
    + rewrite IH.
      destruct (split_on sep a) eqn:Ea; [now apply split_on_nonempty in Ea|].
      reflexivity.
    + rewrite IH.
      destruct (split_on sep a) as [|w r] eqn:Ea;
        [now apply split_on_nonempty in Ea|].
      destruct r as [|w' r]; reflexivity.
Qed.

Lemma endswith_refl s : endswith s s = true.
Proof. destruct s; simpl; now rewrite ?String.eqb_refl, ?Ascii.eqb_refl. Qed.

Lemma endswith_append a b : endswith (a +:+ b) b = true.
Proof.
  induction a as [|x a IH]; simpl.
  - apply endswith_refl.
  - rewrite IH. apply orb_true_r.
Qed.

Lemma endswith_inv s suf :
  endswith s suf = true -> exists a, s = a +:+ suf.
Proof.
  induction s as [|x s IH]; cbn [endswith]; intros H.
  - rewrite orb_false_r in H. apply String.eqb_eq in H. now exists "".
  - apply orb_true_iff in H as [H|H].
    + apply String.eqb_eq in H. now exists "".
    + destruct (IH H) as [a ->]. now exists (String x a).
Qed.

Lemma substring_0_append a b :
  substring 0 (String.length a) (a +:+ b) = a.
Proof. induction a as [|x a IH]; simpl; [now destruct b|now rewrite IH]. Qed.

Lemma drop_last_append a b : drop_last (String.length b) (a +:+ b) = a.
Proof.
  unfold drop_last. rewrite length_append.
  replace (String.length a + String.length b - String.length b)
    with (String.length a) by lia.
  apply substring_0_append.
Qed.

Lemma startswith_append_l c a b :
  startswith (String c a +:+ b) "/" = startswith (String c a) "/".
Proof. reflexivity. Qed.

End StrFacts.

(** ** Paths *)

Module PathFacts.
Import PyStr PosixPath StrFacts.

Lemma is_name_inv n :
  is_name n = true ->
  contains sep n = false /\ n <> "" /\ n <> "." /\ n <> "..".
Proof.
  unfold is_name. rewrite !andb_true_iff, !negb_true_iff.
  intros [[[H1 H2] H3] H4]. rewrite !String.eqb_neq in *. tauto.
Qed.

Lemma startswith_plain n : contains sep n = false -> startswith n "/" = false.
Proof.
  destruct n as [|a n]; cbn [contains startswith]; [reflexivity|].
  intros H. apply orb_false_iff in H as [H _]. now rewrite H.
Qed.

Lemma norm_step_name stk n : is_name n = true -> norm_step stk n = n :: stk.
Proof.
  intros H. apply is_name_inv in H as (_ & H1 & H2 & H3).
  unfold norm_step. apply String.eqb_neq in H1, H2, H3.
  now rewrite H1, H2, H3.
Qed.

Lemma resolve_name cwd n : is_name n = true -> resolve cwd n = cwd ++ [n].
Proof.
  intros H. unfold resolve.
  destruct (is_name_inv _ H) as (Hs & _).
  rewrite (split_on_plain _ _ Hs), (startswith_plain _ Hs). simpl.
  rewrite (norm_step_name _ _ H). simpl. now rewrite rev_involutive.
Qed.

Lemma resolve_dot cwd : resolve cwd "." = cwd.
Proof. unfold resolve. simpl. apply rev_involutive. Qed.

Lemma resolve_empty cwd : resolve cwd "" = cwd.
Proof. unfold resolve. simpl. apply rev_involutive. Qed.

(** Joining a plain name onto a directory descends one level. *)
Lemma resolve_join cwd d n :
  is_name n = true -> resolve cwd (join d n) = resolve cwd d ++ [n].
Proof.
  intros H. destruct (is_name_inv _ H) as (Hs & _).
  unfold join. rewrite (startswith_plain _ Hs).
  destruct (String.eqb_spec d "") as [->|Hd].
  - simpl. now rewrite (resolve_name _ _ H), resolve_empty.
  - simpl. destruct d as [|c d]; [congruence|].
    destruct (endswith (String c d) "/") eqn:He.
    + destruct (endswith_inv _ _ He) as [a Ha]. unfold resolve.
      rewrite startswith_append_l. rewrite Ha at 1 3.
      rewrite append_assoc. change ("/" +:+ n) with (String sep n).
      change "/" with (String sep "").
      rewrite !split_on_append, !fold_left_app.
      rewrite (split_on_plain _ _ Hs). simpl.
      now rewrite (norm_step_name _ _ H).
    + unfold resolve.
      change (String c d +:+ "/" +:+ n) with (String c d +:+ String sep n).
      rewrite startswith_append_l.
      rewrite split_on_append, fold_left_app, (split_on_plain _ _ Hs).
      simpl. now rewrite (norm_step_name _ _ H).
Qed.

Lemma join_nonempty d n : n <> "" -> join d n <> "".
Proof.
  intros Hn. unfold join.
  destruct (startswith n "/"); [assumption|].
  destruct ((d =? "") || endswith d "/").
  - destruct d; simpl; [assumption|discriminate].
  - destruct d; simpl; discriminate.
Qed.

End PathFacts.

(** ** The file-system tree *)

Module TreeFacts.
Import PosixPath FS.

Lemma assoc_set_entry_same k v es : assoc k (set_entry k v es) = Some v.
Proof.
  induction es as [|[k' v'] es IH]; simpl.
  - now rewrite String.eqb_refl.
  - destruct (String.eqb_spec k k'); simpl.
    + now rewrite String.eqb_refl.
    + destruct (String.eqb_spec k k'); [contradiction|assumption].
Qed.

Lemma assoc_set_entry_other k k' v es :
  k <> k' -> assoc k' (set_entry k v es) = assoc k' es.
Proof.
  intros Hk. induction es as [|[k0 v0] es IH]; simpl.
  - destruct (String.eqb_spec k' k); [congruence|reflexivity].
  - destruct (String.eqb_spec k k0) as [->|H0]; simpl.
    + destruct (String.eqb_spec k' k0); [congruence|reflexivity].
    + now rewrite IH.
Qed.

Lemma set_entry_fresh k v es :
  assoc k es = None -> set_entry k v es = es ++ [(k, v)].
Proof.
  induction es as [|[k0 v0] es IH]; simpl; [reflexivity|].
  destruct (k =? k0); [discriminate|]. intros H. now rewrite IH.
Qed.

Lemma assoc_del_entry_same k es : assoc k (del_entry k es) = None.
Proof.
  induction es as [|[k0 v0] es IH]; simpl; [reflexivity|].
  destruct (k =? k0) eqn:E; simpl; [assumption|now rewrite E].
Qed.

Lemma find_app p q t :
  find (p ++ q) t =
  match find p t with Some t' => find q t' | None => None end.
Proof.
  revert t; induction p as [|c p IH]; intros t; simpl; [reflexivity|].
  destruct t as [|es]; [reflexivity|].
  destruct (assoc c es); [apply IH|reflexivity].
Qed.

Lemma find_snoc p n t es :
  find p t = Some (Dir es) -> find (p ++ [n]) t = assoc n es.
Proof.
  intros H. rewrite find_app, H. simpl. now destruct (assoc n es).
Qed.

Lemma find_snoc_inv p n t x :
  find (p ++ [n]) t = Some x ->
  exists es, find p t = Some (Dir es) /\ assoc n es = Some x.
Proof.
  rewrite find_app. destruct (find p t) as [[|es]|]; simpl; try discriminate.
  intros H. exists es. split; [reflexivity|].
  destruct (assoc n es); [assumption|discriminate].
Qed.

Lemma put_cons c p v es :
  p <> [] ->
  put (c :: p) v (Dir es) =
  match assoc c es with
  | Some sub =>
      match put p v sub with
      | Some sub' => Some (Dir (set_entry c sub' es))
      | None => None
      end
  | None => None
  end.
Proof. destruct p; [congruence|reflexivity]. Qed.

Lemma remove_cons c p es :
  p <> [] ->
  remove (c :: p) (Dir es) =
  match assoc c es with
  | Some sub =>
      match remove p sub with
      | Some sub' => Some (Dir (set_entry c sub' es))
      | None => None
      end
  | None => None
  end.
Proof. destruct p; [congruence|reflexivity]. Qed.

Lemma snoc_not_nil {A} (p : list A) n : p ++ [n] <> [].
Proof. now destruct p. Qed.

(** Writing below an existing directory succeeds and is seen there. *)
Lemma put_snoc p n v t es :
  find p t = Some (Dir es) ->
  exists t', put (p ++ [n]) v t = Some t'
             /\ find p t' = Some (Dir (set_entry n v es)).
Proof.
  revert t; induction p as [|c p IH]; intros t H; simpl in H.
  - injection H as ->. simpl. eauto.
  - destruct t as [|es0]; [discriminate|].
    destruct (assoc c es0) as [sub|] eqn:Ec; [|discriminate].
    destruct (IH _ H) as (sub' & Hp & Hf).
    change ((c :: p) ++ [n]) with (c :: (p ++ [n])).
    rewrite put_cons by apply snoc_not_nil.
    rewrite Ec, Hp. eexists; split; [reflexivity|].
    simpl. now rewrite assoc_set_entry_same.
Qed.

(** What was put is what is found. *)
Lemma find_put_same p v t t' : put p v t = Some t' -> find p t' = Some v.
Proof.
  revert t t'; induction p as [|c p IH]; intros t t' H.
  - simpl in H. now injection H as ->.
  - destruct t as [|es]; [discriminate|].
    destruct p as [|c' p].
    + simpl in H. injection H as <-. simpl.
      now rewrite assoc_set_entry_same.
    + rewrite put_cons in H by discriminate.
      destruct (assoc c es) as [sub|]; [|discriminate].
      destruct (put (c' :: p) v sub) as [sub'|] eqn:Hp; [|discriminate].
      injection H as <-. cbn [find]. rewrite assoc_set_entry_same.
      now apply (IH sub).
Qed.

(** Creating a new entry leaves every regular file in place. *)
Lemma put_snoc_frame p n v t t' es q x :
  find p t = Some (Dir es) -> assoc n es = None ->
  put (p ++ [n]) v t = Some t' ->
  find q t = Some (File x) -> find q t' = Some (File x).
Proof.
  revert t t' q; induction p as [|c p IH]; intros t t' q Hp Hn Hput Hq.
  - simpl in Hp. injection Hp as ->. simpl in Hput. injection Hput as <-.
    destruct q as [|a q]; [discriminate|]. simpl in *.
    destruct (String.eqb_spec n a) as [->|Hna].
    + now rewrite Hn in Hq.
    + now rewrite assoc_set_entry_other.
  - simpl in Hp. destruct t as [|es0]; [discriminate|].
    destruct (assoc c es0) as [sub|] eqn:Ec; [|discriminate].
    change ((c :: p) ++ [n]) with (c :: (p ++ [n])) in Hput.
    rewrite put_cons in Hput by apply snoc_not_nil.
    rewrite Ec in Hput.
    destruct (put (p ++ [n]) v sub) as [sub'|] eqn:Hs; [|discriminate].
    injection Hput as <-.
    destruct q as [|a q]; [discriminate|]. simpl in *.
    destruct (String.eqb_spec c a) as [->|Hca].
    + rewrite assoc_set_entry_same. rewrite Ec in Hq. eauto.
    + now rewrite assoc_set_entry_other.
Qed.

(** Unlinking an existing node empties its slot in the parent. *)
Lemma remove_snoc p n t x :
  find (p ++ [n]) t = Some x ->
  exists es t', find p t = Some (Dir es)
                /\ remove (p ++ [n]) t = Some t'
                /\ find p t' = Some (Dir (del_entry n es)).
Proof.
  revert t; induction p as [|c p IH]; intros t H.
  - simpl in H. destruct t as [|es]; [discriminate|].
    exists es. simpl. eauto.
  - change ((c :: p) ++ [n]) with (c :: (p ++ [n])) in *.
    cbn [find] in H. destruct t as [|es0]; [discriminate|].
    destruct (assoc c es0) as [sub|] eqn:Ec; [|discriminate].
    destruct (IH _ H) as (es & sub' & Hf & Hr & Hf').
    exists es, (Dir (set_entry c sub' es0)).
    rewrite remove_cons by apply snoc_not_nil. rewrite Ec, Hr.
    split; [cbn [find]; now rewrite Ec|]. split; [reflexivity|].
    cbn [find]. now rewrite assoc_set_entry_same.
Qed.

End TreeFacts.

(** ** The monad *)

Module MonadFacts.
Import Py.

Lemma bind_Return {A B} (m : M A) (k : A -> M B) w a w1 :
  m w = (Return a, w1) -> bind m k w = k a w1.
Proof. unfold bind. now intros ->. Qed.

Lemma bind_Raise {A B} (m : M A) (k : A -> M B) w e w1 :
  m w = (Raise e, w1) -> bind m k w = (Raise e, w1).
Proof. unfold bind. now intros ->. Qed.

Lemma bind_inv_Return {A B} (m : M A) (k : A -> M B) w b w' :
  bind m k w = (Return b, w') ->
  exists a w1, m w = (Return a, w1) /\ k a w1 = (Return b, w').
Proof.
  unfold bind. destruct (m w) as [[a|e] w1]; [eauto|discriminate].
Qed.

Lemma bind_assoc {A B C} (m : M A) (k : A -> M B) (h : B -> M C) w :
  bind (bind m k) h w = bind m (fun a => bind (k a) h) w.
Proof. unfold bind. destruct (m w) as [[a|e] w1]; reflexivity. Qed.

Lemma try_except_Raise {A} (m : M A) (h : exn -> M A) w e w1 :
  m w = (Raise e, w1) -> try_except m h w = h e w1.
Proof. unfold try_except. now intros ->. Qed.

Lemma try_except_Return {A} (m : M A) (h : exn -> M A) w a w1 :
  m w = (Return a, w1) -> try_except m h w = (Return a, w1).
Proof. unfold try_except. now intros ->. Qed.

(** Run the first computation of a sequence, given what it returns. *)
Ltac step H := rewrite (bind_Return _ _ _ _ _ H); cbv beta zeta.

End MonadFacts.

(** ** The revision recorder never raises *)

Section Recorder.
Import PyStr PosixPath FS DateTime Py Reproducibility Spec MonadFacts.
Variable E : host.

(** The [try] block can only end by [return True]. *)
Lemma save_git_commit_body_true d w b w' :
  save_git_commit_body E d w = (Return b, w') -> b = true.
Proof.
  unfold save_git_commit_body. intros H.
  repeat (apply bind_inv_Return in H as (? & ? & _ & H); cbv beta zeta in H).
  unfold ret in H. congruence.
Qed.

(** Either [except] clause prints one line and returns [False]. *)
Lemma save_git_commit_handler_false e w :
  exists line, save_git_commit_handler e w = (Return false, say line w).
Proof. destruct e; eexists; reflexivity. Qed.

(** C3. For every destination directory, every world and every outcome of
    the git queries, [save_git_commit_to_file] returns a boolean and never
    raises: the result is [False] exactly when something was raised inside
    the [try] block, be it a failed process invocation or any other
    error. *)
Theorem recorder_never_raises (d : string) (w : world) :
  exists b w',
    save_git_commit_to_file E d w = (Return b, w')
    /\ (b = false <-> exists e, fst (save_git_commit_body E d w) = Raise e).
Proof.
  unfold save_git_commit_to_file.
  destruct (save_git_commit_body E d w) as [[b|e] w1] eqn:Hb.
  - exists b, w1. split; [now apply try_except_Return|].
    apply save_git_commit_body_true in Hb as ->. simpl.
    split; [discriminate|]. intros [e He]. discriminate.
  - destruct (save_git_commit_handler_false e w1) as [line Hl].
    exists false, (say line w1). split.
    + rewrite (try_except_Raise _ _ _ _ _ Hb). exact Hl.
    + simpl. split; eauto.
Qed.

End Recorder.

(** ** Failures of one component and the rest of the run *)

Section Containment.
Import PyStr PosixPath FS DateTime Py Reproducibility Spec MonadFacts.
Variable E : host.

Lemma save_git_commit_unavailable d w :
  worktree_query_fails E ->
  save_git_commit_to_file E d w = (Return false, say (recorder_complaint E) w).
Proof.
  unfold worktree_query_fails, recorder_complaint, worktree_query.
  unfold save_git_commit_to_file, try_except, save_git_commit_body, bind,
    subprocess_run_check.
  destruct (spawn E false ["git"; "rev-parse"; "--is-inside-work-tree"])
    as [e|rc out err]; intros H.
  - now destruct e.
  - apply Z.eqb_neq in H. now rewrite H.
Qed.

Lemma make_workflow_split w_d w0 :
  make_workflow_reproducible E w_d w0
  = bind (upto_recorder E w_d)
      (fun _ => _ <- export_conda_environment E (output_dir w_d) false ;;
                ret tt) w0.
Proof.
  unfold make_workflow_reproducible, upto_recorder, output_dir, bind.
  destruct (reset_directory _ w0) as [[[]|e1] w1]; [|reflexivity].
  destruct (save_files_rootdir E _ _ w1) as [[[]|e2] w2]; [|reflexivity].
  now destruct (save_git_commit_to_file E _ w2) as [[b|e3] w3].
Qed.

(** C4, as the code has it. When git cannot be started or its work-tree
    query exits with a status other than 0, [save_git_commit_to_file]
    returns [False] having only printed a line: the file system and the
    list of written artifacts are as they were, so no descriptor exists.
    After a query that ran, the line is the fixed complaint. The
    orchestrator goes on exactly as if the recorder were that one
    [print]: the source copies made before stay and the environment export
    still runs on them. Only the exit status of the query counts, not the
    answer it prints. *)
Theorem recorder_failure_is_contained (d w_d : string) (w w0 : world) :
  worktree_query_fails E ->
  (exists w',
      save_git_commit_to_file E d w = (Return false, w')
      /\ fs w' = fs w /\ trace w' = trace w
      /\ console w' = console w ++ [recorder_complaint E])
  /\ (forall rc out err,
        worktree_query E = Exited rc out err ->
        recorder_complaint E
        = "Error: Not a git repository or git is not installed.")
  /\ make_workflow_reproducible E w_d w0
     = (reset_directory (output_dir w_d) ;;
        save_files_rootdir E (output_dir w_d) [".py"] ;;
        print (recorder_complaint E) ;;
        _ <- export_conda_environment E (output_dir w_d) false ;;
        ret tt) w0.
Proof.
  intros H. split; [|split].
  - exists (say (recorder_complaint E) w).
    now rewrite save_git_commit_unavailable.
  - intros rc out err Hq. unfold recorder_complaint. now rewrite Hq.
  - unfold make_workflow_reproducible, output_dir, bind.
    destruct (reset_directory _ w0) as [[[]|e1] w1]; [|reflexivity].
    destruct (save_files_rootdir E _ _ w1) as [[[]|e2] w2]; [|reflexivity].
    now rewrite save_git_commit_unavailable.
Qed.

Lemma subprocess_run_text_exited sh argv rc out err w :
  spawn E sh argv = Exited rc (Encoded out) err ->
  subprocess_run_text E sh argv w = (Return (mkCompleted rc out err), w).
Proof. unfold subprocess_run_text. now intros ->. Qed.

Lemma subprocess_run_check_exited argv out err w :
  spawn E false argv = Exited 0 out err ->
  subprocess_run_check E argv w = (Return (mkCompleted 0%Z out err), w).
Proof. unfold subprocess_run_check. now intros ->. Qed.

Lemma conda_command_at w :
  conda_command E w = (Return (conda_cmd_at E w), w).
Proof.
  unfold conda_command, conda_cmd_at.
  destruct (is_windows E); [|reflexivity].
  unfold bind, os_path_exists, ret.
  now destruct (lookup _ w).
Qed.

Lemma find_current_env_unmarked rows :
  Forall (fun row => contains "*" row = false) rows ->
  find_current_env rows = Return None.
Proof.
  induction 1 as [|row rows Hrow _ IH]; simpl; [reflexivity|].
  now rewrite Hrow.
Qed.

Lemma export_conda_unmarked d ib w :
  no_row_with_asterisk E w ->
  export_conda_environment E d ib w = (Raise no_environment, w).
Proof.
  intros (listing & err & Hl & Hrows). unfold export_conda_environment.
  rewrite (bind_Return _ _ _ _ _ (conda_command_at w)).
  unfold env_listing in Hl.
  rewrite (bind_Return _ _ _ _ _ (subprocess_run_text_exited _ _ _ _ _ _ Hl)).
  cbn [returncode stdout negb Z.eqb].
  unfold bind, lift. now rewrite (find_current_env_unmarked _ Hrows).
Qed.

(** C2, as the code has it. When the listing succeeds and none of its
    rows holds an asterisk, [export_conda_environment] raises
    [RuntimeError] and leaves the world as it found it: no manifest is
    written and whatever the source copier and the revision recorder
    produced is untouched. Nothing in [make_workflow_reproducible]
    catches the exception, so it reaches the caller. *)
Theorem exporter_without_active_env_raises (d : string) (ib : bool)
    (w : world) :
  no_row_with_asterisk E w ->
  export_conda_environment E d ib w = (Raise no_environment, w)
  /\ forall w_d w0 b,
       upto_recorder E w_d w0 = (Return b, w) ->
       make_workflow_reproducible E w_d w0 = (Raise no_environment, w).
Proof.
  intros H. split; [now apply export_conda_unmarked|].
  intros w_d w0 b Hpre. rewrite make_workflow_split.
  rewrite (bind_Return _ _ _ _ _ Hpre).
  now rewrite (bind_Raise _ _ _ _ _ (export_conda_unmarked _ _ _ H)).
Qed.

End Containment.

(** ** Resetting the output directory *)

Section Preparer.
Import PyStr PosixPath FS DateTime Py Reproducibility Spec.
Import StrFacts PathFacts TreeFacts MonadFacts.

Lemma lookup_nonempty p w x : lookup p w = Some x -> (p =? "") = false.
Proof. unfold lookup. now destruct (p =? ""). Qed.

Lemma lookup_find p w x :
  lookup p w = Some x -> find (resolve (cwd w) p) (fs w) = Some x.
Proof. unfold lookup. now destruct (p =? ""). Qed.

Lemma lookup_join d n w :
  is_name n = true ->
  lookup (join d n) w = find (resolve (cwd w) d ++ [n]) (fs w).
Proof.
  intros Hn. unfold lookup. rewrite (resolve_join _ _ _ Hn).
  destruct (is_name_inv _ Hn) as (_ & Hne & _).
  apply (join_nonempty d) in Hne. apply String.eqb_neq in Hne.
  now rewrite Hne.
Qed.


End Preparer.

(** ** Names of the artifacts *)

Module NameFacts.
Import PyStr PosixPath DateTime Reproducibility StrFacts PathFacts.

Lemma contains_uint u :
  contains sep (DecimalString.NilEmpty.string_of_uint u) = false.
Proof. induction u; simpl; auto. Qed.

Lemma contains_zeros k : contains sep (zeros k) = false.
Proof. induction k; simpl; auto. Qed.

Lemma contains_zfill w n : contains sep (zfill w n) = false.
Proof.
  unfold zfill, digits. now rewrite contains_append, contains_zeros, contains_uint.
Qed.

(** A timestamp is made of digits and one underscore. *)
Lemma strftime_plain t : contains sep (strftime t) = false.
Proof.
  unfold strftime. rewrite !contains_append, !contains_zfill. reflexivity.
Qed.

Lemma is_name_intro n :
  contains sep n = false -> contains "_" n = true -> is_name n = true.
Proof.
  intros Hs Hu. unfold is_name. rewrite Hs.
  destruct (String.eqb_spec n "") as [->|_]; [discriminate|].
  destruct (String.eqb_spec n ".") as [->|_]; [discriminate|].
  destruct (String.eqb_spec n "..") as [->|_]; [discriminate|].
  reflexivity.
Qed.

Lemma is_name_descriptor ts :
  contains sep ts = false -> is_name (descriptor_name ts) = true.
Proof.
  intros H. apply is_name_intro; unfold descriptor_name.
  - rewrite !contains_append, H. reflexivity.
  - reflexivity.
Qed.

Lemma is_name_manifest ts :
  contains sep ts = false -> is_name (manifest_name ts) = true.
Proof.
  intros H. apply is_name_intro; unfold manifest_name.
  - rewrite !contains_append, H. reflexivity.
  - reflexivity.
Qed.

Lemma is_name_copy f ts :
  contains sep f = false -> contains sep ts = false ->
  is_name (copy_name f ts) = true.
Proof.
  intros Hf H. apply is_name_intro; unfold copy_name.
  - rewrite !contains_append, Hf, H. reflexivity.
  - rewrite contains_append. apply orb_true_r.
Qed.

End NameFacts.

(** ** Writing into a directory *)

Section Writing.
Import PyStr PosixPath FS DateTime Py Reproducibility Spec.
Import StrFacts PathFacts TreeFacts MonadFacts.

(** A regular file can be created or replaced in an existing directory,
    and then holds what was written. *)
Lemma store_in_dir d n data w :
  is_name n = true -> can_create d n w ->
  exists t,
    store (join d n) data w = (Return tt, with_fs t w)
    /\ put (resolve (cwd w) d ++ [n]) (File data) (fs w) = Some t
    /\ find (resolve (cwd w) d ++ [n]) t = Some (File data)
    /\ (forall es, find (resolve (cwd w) d) (fs w) = Some (Dir es) ->
          find (resolve (cwd w) d) t = Some (Dir (set_entry n (File data) es))).
Proof.
  intros Hn (es & Hf & Hfree).
  destruct (put_snoc _ n (File data) _ _ Hf) as (t & Hput & Hparent).
  exists t. split; [|split; [exact Hput|split]].
  - unfold store. rewrite (lookup_join _ _ _ Hn), (find_snoc _ _ _ _ Hf).
    destruct (is_name_inv _ Hn) as (_ & Hne & _).
    apply (join_nonempty d) in Hne. apply String.eqb_neq in Hne.
    assert (Hgo :
      (if join d n =? "" then (Raise (FileNotFoundError (join d n)), w)
       else
         let q := resolve (cwd w) (join d n) in
         match find (removelast q) (fs w) with
         | Some (Dir _) =>
             match put q (File data) (fs w) with
             | Some t => (Return tt, with_fs t w)
             | None => (Raise (FileNotFoundError (join d n)), w)
             end
         | _ => (Raise (parent_error (join d n) q w), w)
         end) = (Return tt, with_fs t w)).
    { rewrite Hne. cbv zeta. rewrite (resolve_join _ _ _ Hn).
      now rewrite removelast_last, Hf, Hput. }
    destruct (assoc n es) as [[data0|sub]|] eqn:Ea; try exact Hgo.
    now destruct (Hfree sub).
  - apply find_put_same in Hput. exact Hput.
  - intros es' Hd'. rewrite Hf in Hd'. injection Hd' as <-. exact Hparent.
Qed.

Lemma open_write_in_dir d n chunks w :
  is_name n = true -> can_create d n w ->
  exists w',
    open_write (join d n) chunks w = (Return tt, w')
    /\ holds (join d n) (String.concat "" chunks) w'
    /\ trace w' = trace w ++ [EvWrite (join d n)]
    /\ console w' = console w /\ clock w' = clock w /\ cwd w' = cwd w.
Proof.
  intros Hn Hc.
  destruct (store_in_dir d n (String.concat "" chunks) w Hn Hc)
    as (t & Hs & _ & Hf & _).
  exists (log (EvWrite (join d n)) (with_fs t w)).
  unfold open_write. rewrite Hs. repeat split.
  unfold holds. now rewrite (lookup_join _ _ _ Hn).
Qed.

End Writing.

(** ** The descriptor file *)

Section Descriptor.
Import PyStr PosixPath FS DateTime Py Reproducibility Spec.
Import StrFacts PathFacts TreeFacts MonadFacts NameFacts.
Variable E : host.

Lemma get_project_name_at w :
  get_project_name E w = (Return (recorded_project E (cwd w)), w).
Proof.
  unfold get_project_name, try_except, bind, subprocess_run_check,
    recorded_project, remote_query.
  destruct (spawn E false ["git"; "config"; "--get"; "remote.origin.url"])
    as [e|rc [url|] err]; [reflexivity| |];
    now destruct (rc =? 0)%Z.
Qed.

Lemma decode_encoded s w : decode (Encoded s) w = (Return s, w).
Proof. reflexivity. Qed.

Lemma strftime_now_at w :
  strftime_now E w
  = (Return (strftime (now E (clock w))),
     mkWorld (fs w) (cwd w) (console w) (S (clock w)) (trace w)).
Proof. reflexivity. Qed.

(** When the three mandatory queries succeed and the destination can take
    the file, the recorder writes the descriptor and returns [True]. *)
Lemma save_git_commit_success d w o0 e0 h e1 b e2 :
  worktree_query E = Exited 0 o0 e0 ->
  head_query E = Exited 0 (Encoded h) e1 ->
  branch_query E = Exited 0 (Encoded b) e2 ->
  can_create d (descriptor_name (strftime (now E (clock w)))) w ->
  exists w',
    save_git_commit_to_file E d w = (Return true, w')
    /\ holds (join d (descriptor_name (strftime (now E (clock w)))))
         (String.concat ""
            (descriptor_lines (recorded_project E (cwd w)) (strip b) (strip h)))
         w'
    /\ trace w'
       = trace w ++ [EvWrite (join d (descriptor_name (strftime (now E (clock w)))))].
Proof.
  intros H0 H1 H2 Hc.
  set (ts := strftime (now E (clock w))) in *.
  assert (Hn : is_name (descriptor_name ts) = true)
    by apply is_name_descriptor, strftime_plain.
  set (w1 := mkWorld (fs w) (cwd w) (console w) (S (clock w)) (trace w)).
  destruct (open_write_in_dir d (descriptor_name ts)
              (descriptor_lines (recorded_project E (cwd w)) (strip b) (strip h))
              w1 Hn Hc) as (w2 & Hw & Hh & Ht & _).
  exists (say ("Git information saved to " +:+ join d (descriptor_name ts)) w2).
  split; [|split].
  - unfold save_git_commit_to_file. apply try_except_Return.
    unfold save_git_commit_body.
    step (subprocess_run_check_exited E _ _ _ w H0).
    step (subprocess_run_check_exited E _ _ _ w H1).
    cbn [stdout]. step (decode_encoded h w).
    step (subprocess_run_check_exited E _ _ _ w H2).
    cbn [stdout]. step (decode_encoded b w).
    step (get_project_name_at w).
    step (strftime_now_at w). fold ts w1.
    step Hw. reflexivity.
  - exact Hh.
  - exact Ht.
Qed.

End Descriptor.

(** ** The project name *)

Module ProjectFacts.
Import PyStr PosixPath Reproducibility Spec StrFacts PathFacts.

(** A string either has no separator or splits at its last one. *)
Lemma last_separator s :
  contains sep s = false
  \/ exists a b, s = a +:+ String sep b /\ contains sep b = false.
Proof.
  induction s as [|c s [IH|(a & b & -> & Hb)]].
  - now left.
  - cbn [contains]. destruct (Ascii.eqb_spec c sep) as [->|Hc].
    + right. exists "", s. now split.
    + now left.
  - right. exists (String c a), b. now split.
Qed.

Lemma final_segment_plain s : contains sep s = false -> final_segment s = s.
Proof. intros H. unfold final_segment. now rewrite split_on_plain. Qed.

Lemma final_segment_after a b :
  contains sep b = false -> final_segment (a +:+ String sep b) = b.
Proof.
  intros H. unfold final_segment.
  now rewrite split_on_append, (split_on_plain _ _ H), last_last.
Qed.

(** The final segment is a separator-free suffix. *)
Lemma final_segment_suffix s :
  exists pre, s = pre +:+ final_segment s.
Proof.
  destruct (last_separator s) as [H|(a & b & -> & Hb)].
  - exists "". now rewrite final_segment_plain.
  - exists (a +:+ "/"). rewrite (final_segment_after _ _ Hb).
    now rewrite append_assoc.
Qed.

Lemma final_segment_append s t :
  contains sep t = false -> final_segment (s +:+ t) = final_segment s +:+ t.
Proof.
  intros H. unfold final_segment.
  now rewrite (split_on_suffix _ _ _ H), last_last.
Qed.

(** The code strips [.git] and then takes the base name; the spec takes
    the final segment and then strips [.git]: the two agree. *)
Lemma project_of_url_spec url : project_of_url url = spec_project_name url.
Proof.
  unfold project_of_url, spec_project_name, without_git_suffix, basename.
  fold (final_segment url).
  destruct (endswith url ".git") eqn:He.
  - destruct (endswith_inv _ _ He) as [a ->].
    rewrite (drop_last_append a ".git" : drop_last 4 _ = a).
    fold (final_segment a).
    rewrite final_segment_append by reflexivity.
    rewrite endswith_append.
    now rewrite (drop_last_append _ ".git" : drop_last 4 _ = _).
  - fold (final_segment url).
    destruct (endswith (final_segment url) ".git") eqn:Hf; [|reflexivity].
    destruct (endswith_inv _ _ Hf) as [x Hx].
    destruct (final_segment_suffix url) as [pre Hpre].
    rewrite Hx, <- append_assoc in Hpre.
    rewrite Hpre, endswith_append in He. discriminate.
Qed.




End ProjectFacts.

(** ** Blanks around an answer *)

Module StripFacts.
Import PyStr PosixPath Reproducibility Spec Terms StrFacts ProjectFacts.










End StripFacts.

Section DescriptorContents.
Import PyStr PosixPath FS DateTime Py Reproducibility Spec Terms.
Import StrFacts PathFacts MonadFacts ProjectFacts StripFacts.
Variable E : host.

(** C6. When git reports commit [abc123] on branch [main] and the project
    name comes out as [demo], the recorder returns [True] and the
    descriptor it wrote consists of exactly these six lines: the project,
    [Branch Name: main], [Commit Hash: abc123], the single-commit link
    ending in [demo/commit/abc123], the log link ending in
    [demo/commits/abc123], and the fixed warning. *)
Theorem descriptor_of_demo (d : string) (w : world) o0 e0 h e1 b e2 :
  worktree_query E = Exited 0 o0 e0 ->
  head_query E = Exited 0 (Encoded h) e1 -> strip h = "abc123" ->
  branch_query E = Exited 0 (Encoded b) e2 -> strip b = "main" ->
  recorded_project E (cwd w) = "demo" ->
  can_create d (descriptor_name (strftime (now E (clock w)))) w ->
  exists w' text,
    save_git_commit_to_file E d w = (Return true, w')
    /\ holds (join d (descriptor_name (strftime (now E (clock w))))) text w'
    /\ lines_of text
       = [ "Project Name: demo";
           "Branch Name: main";
           "Commit Hash: abc123";
           "View single commit: https://github.com/<user>/demo/commit/abc123";
           "View log: https://github.com/<user>/demo/commits/abc123";
           "/!\ the files in the directory may have been modified since the last commit!!" ].
Proof.
  intros H0 H1 Hh H2 Hb Hp Hc.
  destruct (save_git_commit_success E d w _ _ _ _ _ _ H0 H1 H2 Hc)
    as (w' & Hrun & Hfile & _).
  rewrite Hp, Hb, Hh in Hfile.
  eexists w', _. split; [exact Hrun|]. split; [exact Hfile|]. reflexivity.
Qed.


End DescriptorContents.

(** ** The environment manifest *)

Section Manifest.
Import PyStr PosixPath FS DateTime Py Reproducibility Spec.
Import StrFacts PathFacts MonadFacts NameFacts.
Variable E : host.

Lemma join_inj d a b :
  startswith a "/" = false -> startswith b "/" = false ->
  join d a = join d b -> a = b.
Proof.
  unfold join. intros -> ->.
  destruct ((d =? "") || endswith d "/"); intros H.
  - now apply append_inv_head in H.
  - now apply append_inv_head, append_inv_head in H.
Qed.

Lemma split_ws_words s : Forall (fun w => w <> "") (split_ws s).
Proof.
  induction s as [|a s IH]; [constructor|]. cbn [split_ws].
  destruct (is_space a); [exact IH|].
  destruct s as [|b s0]; [repeat constructor; discriminate|].
  destruct (is_space b); [constructor; [discriminate|exact IH]|].
  destruct (split_ws (String b s0)); constructor;
    try discriminate; try constructor.
  now inversion IH.
Qed.

Lemma item_In {A} (l : list A) i x : item l i = Return x -> In x l.
Proof.
  unfold item. destruct (nth_error l i) eqn:Hn; [|discriminate].
  intros [= <-]. now apply nth_error_In in Hn.
Qed.

(** The name picked from a marked row is never empty. *)
Lemma find_current_env_named rows env :
  find_current_env rows = Return (Some env) -> env <> "".
Proof.
  induction rows as [|row rows IH]; cbn [find_current_env]; [discriminate|].
  destruct (contains "*" row); [|exact IH].
  pose proof (split_ws_words row) as Hw. rewrite Forall_forall in Hw.
  destruct (item (split_ws row) 0) as [c|] eqn:H0; [|discriminate].
  destruct (c =? "*").
  - destruct (item (split_ws row) 1) as [c'|] eqn:H1; [|discriminate].
    intros [= <-]. now apply item_In, Hw in H1.
  - intros [= <-]. now apply item_In, Hw in H0.
Qed.

Lemma names_differ env ts :
  announced_manifest_name env ts <> manifest_name ts.
Proof.
  unfold announced_manifest_name, manifest_name. intros H.
  apply (f_equal String.length) in H.
  rewrite !length_append in H. simpl in H. lia.
Qed.

(** When both conda commands exit with status 0, a row of the listing names
    the active environment and the manifest can be created in [d], the
    export goes through: [None] is returned, [conda_env_{timestamp}.yml]
    holds the exported text and the last line printed announces another
    name. *)
Lemma export_conda_success (d : string) (ib : bool) (w : world)
    listing err1 env text err2 :
  env_listing E w = Exited 0 (Encoded listing) err1 ->
  find_current_env (split_on LF (strip listing)) = Return (Some env) ->
  spawn E (is_windows E) (export_command env ib)
    = Exited 0 (Encoded text) err2 ->
  can_create d (manifest_name (strftime (now E (clock w)))) w ->
  exists w',
    export_conda_environment E d ib w = (Return None, w')
    /\ holds (join d (manifest_name (strftime (now E (clock w))))) text w'
    /\ trace w'
       = trace w ++ [EvWrite (join d (manifest_name (strftime (now E (clock w)))))]
    /\ console w'
       = console w
         ++ [ "Running command: " +:+ join_with " " (export_command env ib);
              "Environment exported to "
              +:+ join d (announced_manifest_name env
                            (strftime (now E (clock w)))) ]
    /\ join d (announced_manifest_name env (strftime (now E (clock w))))
       <> join d (manifest_name (strftime (now E (clock w)))).
Proof.
  intros Hl Henv Hx Hc.
  set (ts := strftime (now E (clock w))) in *.
  assert (Hn : is_name (manifest_name ts) = true)
    by apply is_name_manifest, strftime_plain.
  pose proof (find_current_env_named _ _ Henv) as Hne.
  set (line := "Running command: " +:+ join_with " " (export_command env ib)).
  set (w1 := say line
               (mkWorld (fs w) (cwd w) (console w) (S (clock w)) (trace w))).
  destruct (open_write_in_dir d (manifest_name ts) [text] w1 Hn Hc)
    as (w2 & Hw & Hh & Ht & Hcon & _).
  exists (say ("Environment exported to "
               +:+ join d (announced_manifest_name env ts)) w2).
  split; [|split; [|split; [|split]]].
  - unfold export_conda_environment.
    step (conda_command_at E w). unfold env_listing in Hl.
    step (subprocess_run_text_exited E _ _ _ _ _ w Hl).
    cbn [returncode stdout negb Z.eqb].
    unfold bind at 1, lift. rewrite Henv.
    destruct env as [|c env]; [congruence|].
    step (strftime_now_at E w). fold ts.
    unfold bind at 1, print. fold (export_command (String c env) ib).
    fold line. fold (say line
      (mkWorld (fs w) (cwd w) (console w) (S (clock w)) (trace w))). fold w1.
    step (subprocess_run_text_exited E _ _ _ _ _ w1 Hx).
    cbn [returncode stdout negb Z.eqb].
    step Hw. reflexivity.
  - exact Hh.
  - exact Ht.
  - cbn [console say]. rewrite Hcon. unfold w1. cbn [console say].
    now rewrite <- app_assoc.
  - intros H. apply join_inj in H; [|reflexivity..].
    now apply names_differ in H.
Qed.

End Manifest.

(** ** Copying the source files *)

Section Copier.
Import PyStr PosixPath FS DateTime Py Reproducibility Spec.
Import StrFacts PathFacts TreeFacts MonadFacts NameFacts.
Variable E : host.

(** Copying a regular file to a new name in an existing directory adds
    that entry and disturbs no other file. *)
Lemma copy2_into_dir f d n data w es :
  is_name n = true ->
  lookup f w = Some (File data) ->
  lookup d w = Some (Dir es) -> assoc n es = None ->
  exists w',
    shutil_copy2 f (join d n) w = (Return tt, w')
    /\ lookup d w' = Some (Dir (es ++ [(n, File data)]))
    /\ (forall q x, lookup q w = Some (File x) -> lookup q w' = Some (File x))
    /\ clock w' = clock w
    /\ trace w' = trace w ++ [EvCopy f (join d n)].
Proof.
  intros Hn Hf Hd Hfree.
  pose proof (lookup_find _ _ _ Hd) as Hfd.
  assert (Hc : can_create d n w).
  { exists es. split; [exact Hfd|]. intros sub. rewrite Hfree. discriminate. }
  destruct (store_in_dir d n data w Hn Hc) as (t & Hs & Hput & _ & Hdir).
  assert (Hdst : lookup (join d n) w = None).
  { now rewrite (lookup_join _ _ _ Hn), (find_snoc _ _ _ _ Hfd). }
  exists (log (EvCopy f (join d n)) (with_fs t w)).
  split; [|split; [|split; [|split]]]; try reflexivity.
  - unfold shutil_copy2, isdir, samefile. rewrite Hdst. cbv beta iota zeta.
    rewrite Hf, Hdst. now rewrite Hs.
  - unfold lookup. rewrite (lookup_nonempty _ _ _ Hd).
    cbn [cwd fs log with_fs]. rewrite (Hdir _ Hfd).
    now rewrite (set_entry_fresh _ _ _ Hfree).
  - intros q x Hq. unfold lookup in *. destruct (q =? ""); [discriminate|].
    cbn [cwd fs log with_fs].
    now apply (put_snoc_frame _ _ _ _ _ _ _ _ Hfd Hfree Hput).
Qed.

(** A list arranged like three given elements is one of six. *)
Lemma permutation_of_three {A} (x y z : A) l :
  Permutation l [x; y; z] ->
  l = [x; y; z] \/ l = [x; z; y] \/ l = [y; x; z]
  \/ l = [z; x; y] \/ l = [y; z; x] \/ l = [z; y; x].
Proof.
  intros H.
  destruct (Permutation_vs_cons_inv H) as (l1 & l2 & ->).
  apply Permutation_sym, Permutation_cons_app_inv in H.
  apply Permutation_length_2_inv in H.
  destruct l1 as [|a [|b [|c l1]]]; simpl in H;
    destruct H as [H|H]; inversion H; subst; simpl; tauto.
Qed.

(** C8. With exactly the regular files [a.py], [b.py] and [notes.txt] in
    the working directory, in whatever order they are listed, and an
    empty destination, [save_files_rootdir] with the filter [[".py"]]
    leaves in the destination exactly two files, [a.py_<ts>.txt] and
    [b.py_<ts>.txt], holding the contents of their sources; [notes.txt]
    is not copied. *)
Theorem copies_of_three_files (d : string) (w : world)
    (es : list (string * node)) (ca cb cn : string) :
  lookup "." w = Some (Dir es) ->
  Permutation es [("a.py", File ca); ("b.py", File cb); ("notes.txt", File cn)] ->
  lookup d w = Some (Dir []) ->
  exists w' out,
    save_files_rootdir E d [".py"] w = (Return tt, w')
    /\ lookup d w' = Some (Dir out)
    /\ Permutation out
         [ (copy_name "a.py" (strftime (now E (clock w))), File ca);
           (copy_name "b.py" (strftime (now E (clock w))), File cb) ].
Proof.
  intros Hcwd Hperm Hd.
  set (ts := strftime (now E (clock w))).
  set (w1 := mkWorld (fs w) (cwd w) (console w) (S (clock w)) (trace w)).
  assert (Hts : contains sep ts = false) by apply strftime_plain.
  assert (Hna : is_name (copy_name "a.py" ts) = true)
    by now apply is_name_copy.
  assert (Hnb : is_name (copy_name "b.py" ts) = true)
    by now apply is_name_copy.
  assert (Hfa : lookup "a.py" w1 = Some (File ca)
                /\ lookup "b.py" w1 = Some (File cb)).
  { pose proof (lookup_find _ _ _ Hcwd) as Hf. rewrite resolve_dot in Hf.
    unfold lookup. cbn [String.eqb cwd fs w1].
    rewrite !resolve_name by reflexivity.
    rewrite !(find_snoc _ _ _ _ Hf).
    apply permutation_of_three in Hperm.
    destruct Hperm as [-> | [-> | [-> | [-> | [-> | ->]]]]]; now split. }
  destruct Hfa as [Hfa Hfb].
  assert (Hsel : select [".py"] (names es) = ["a.py"; "b.py"]
                 \/ select [".py"] (names es) = ["b.py"; "a.py"]).
  { apply permutation_of_three in Hperm.
    destruct Hperm as [-> | [-> | [-> | [-> | [-> | ->]]]]]; cbv; tauto. }
  assert (Hlist : os_listdir "." w1 = (Return (names es), w1)).
  { unfold os_listdir. now rewrite (Hcwd : lookup "." w1 = _). }
  destruct Hsel as [Hsel|Hsel].
  - destruct (copy2_into_dir "a.py" d _ ca w1 [] Hna Hfa Hd eq_refl)
      as (w2 & Hrun2 & Hd2 & Hfr2 & _).
    destruct (copy2_into_dir "b.py" d _ cb w2 _ Hnb (Hfr2 _ _ Hfb) Hd2
                eq_refl) as (w3 & Hrun3 & Hd3 & _).
    exists w3. eexists. split; [|split; [exact Hd3|reflexivity]].
    unfold save_files_rootdir. step (strftime_now_at E w). fold ts w1.
    step Hlist. rewrite Hsel. cbn [for_each].
    step Hrun2. step Hrun3. reflexivity.
  - destruct (copy2_into_dir "b.py" d _ cb w1 [] Hnb Hfb Hd eq_refl)
      as (w2 & Hrun2 & Hd2 & Hfr2 & _).
    destruct (copy2_into_dir "a.py" d _ ca w2 _ Hna (Hfr2 _ _ Hfa) Hd2
                eq_refl) as (w3 & Hrun3 & Hd3 & _).
    exists w3. eexists. split; [|split; [exact Hd3|apply perm_swap]].
    unfold save_files_rootdir. step (strftime_now_at E w). fold ts w1.
    step Hlist. rewrite Hsel. cbn [for_each].
    step Hrun2. step Hrun3. reflexivity.
Qed.

End Copier.

(** ** Postconditions of the primitives *)

Module PostFacts.
Import PyStr PosixPath FS DateTime Py Reproducibility Spec.

Lemma post_bind {A B} (m : M A) (k : A -> M B) w Q :
  post m w (fun r w1 =>
              match r with
              | Return a => post (k a) w1 Q
              | Raise e => Q (Raise e) w1
              end) ->
  post (bind m k) w Q.
Proof. unfold post, bind. now destruct (m w) as [[a|e] w1]. Qed.

Lemma post_try {A} (m : M A) (h : exn -> M A) w Q :
  post m w (fun r w1 =>
              match r with
              | Return a => Q (Return a) w1
              | Raise e => post (h e) w1 Q
              end) ->
  post (try_except m h) w Q.
Proof. unfold post, try_except. now destruct (m w) as [[a|e] w1]. Qed.

(** A computation that leaves the world alone may end in any outcome. *)
Lemma post_still {A} (m : M A) w Q :
  snd (m w) = w -> (forall r, Q r w) -> post m w Q.
Proof. unfold post. intros -> H. apply H. Qed.

Lemma post_ret {A} (a : A) w Q : Q (Return a) w -> post (ret a) w Q.
Proof. exact (fun H => H). Qed.

Lemma post_raise {A} e w (Q : outcome A -> world -> Prop) :
  Q (Raise e) w -> post (raise e) w Q.
Proof. exact (fun H => H). Qed.

Lemma post_print line w Q : Q (Return tt) (say line w) -> post (print line) w Q.
Proof. exact (fun H => H). Qed.

Lemma post_strftime_now E w Q :
  Q (Return (reading E (clock w))) (tick w) -> post (strftime_now E) w Q.
Proof. exact (fun H => H). Qed.

Lemma store_cases p data w :
  (exists t, store p data w = (Return tt, with_fs t w))
  \/ (exists e, store p data w = (Raise e, w)).
Proof.
  unfold store.
  destruct (lookup p w) as [[|]|]; destruct (p =? "");
    try (right; eexists; reflexivity);
    destruct (find _ (fs w)) as [[|]|];
    try (right; eexists; reflexivity);
    destruct (put _ _ (fs w));
    solve [left; eexists; reflexivity | right; eexists; reflexivity].
Qed.

Lemma post_open_write p chunks w Q :
  (forall t, Q (Return tt) (log (EvWrite p) (with_fs t w))) ->
  (forall e, Q (Raise e) w) ->
  post (open_write p chunks) w Q.
Proof.
  intros Hok Herr. unfold post, open_write.
  destruct (store_cases p (String.concat "" chunks) w) as [[t ->]|[e ->]];
    [apply Hok|apply Herr].
Qed.

Lemma post_copy2 src dst w Q :
  (forall t, Q (Return tt) (log (EvCopy src dst) (with_fs t w))) ->
  (forall e, Q (Raise e) w) ->
  post (shutil_copy2 src dst) w Q.
Proof.
  intros Hok Herr. unfold post, shutil_copy2.
  set (dst' := if isdir dst w then join dst (basename src) else dst).
  destruct (samefile src dst' w); [apply Herr|].
  destruct (lookup src w) as [[data|]|]; try apply Herr.
  destruct (store_cases dst' data w) as [[t ->]|[e ->]];
    [apply Hok|apply Herr].
Qed.

Lemma post_rmtree p w Q :
  (forall t, Q (Return tt) (log (EvRmtree p) (with_fs t w))) ->
  (forall e, Q (Raise e) w) ->
  post (shutil_rmtree p) w Q.
Proof.
  intros Hok Herr. unfold post, shutil_rmtree.
  destruct (lookup p w) as [[|]|]; try apply Herr.
  destruct (remove _ _); [apply Hok|apply Herr].
Qed.

Lemma post_mkdir p w Q :
  (forall t, Q (Return tt) (log (EvMkdir p) (with_fs t w))) ->
  (forall e, Q (Raise e) w) ->
  post (os_mkdir p) w Q.
Proof.
  intros Hok Herr. unfold post, os_mkdir.
  destruct (lookup p w); try apply Herr.
  destruct (p =? ""); try apply Herr.
  destruct (find _ _) as [[|]|]; try apply Herr.
  destruct (put _ _ _); [apply Hok|apply Herr].
Qed.

Lemma still_run_check E argv w : snd (subprocess_run_check E argv w) = w.
Proof.
  unfold subprocess_run_check.
  destruct (spawn E false argv) as [e|rc out err]; [reflexivity|].
  now destruct (rc =? 0)%Z.
Qed.

Lemma still_run_text E sh argv w : snd (subprocess_run_text E sh argv w) = w.
Proof.
  unfold subprocess_run_text.
  now destruct (spawn E sh argv) as [e|rc [out|] err].
Qed.

Lemma still_decode b w : snd (decode b w) = w.
Proof. now destruct b. Qed.

End PostFacts.

(** ** What each component adds to the trace *)

Section Effects.
Import PyStr PosixPath FS DateTime Py Reproducibility Spec.
Import MonadFacts PostFacts.
Variable E : host.

Tactic Notation "still" "as" ident(a) ident(e) :=
  apply post_bind; apply post_still;
  [ first [ apply still_run_check | apply still_run_text
          | apply still_decode | reflexivity ]
  | intros [a|e] ].

Lemma reset_directory_effect r_d w :
  post (reset_directory r_d) w
    (fun _ w' =>
       clock w' = clock w
       /\ exists evs, trace w' = trace w ++ evs /\ Forall quiet evs).
Proof.
  assert (Hnone : forall v : world,
             clock v = clock w -> trace v = trace w ->
             clock v = clock w
             /\ exists evs, trace v = trace w ++ evs /\ Forall quiet evs).
  { intros v Hc Ht. split; [exact Hc|]. exists []. now rewrite app_nil_r. }
  unfold reset_directory. still as there e; [|now apply Hnone].
  apply post_bind. destruct there.
  - apply post_rmtree; [intros t|intros e; now apply Hnone].
    apply post_mkdir; [intros t'|intros e]; (split; [reflexivity|]).
    + exists [EvRmtree r_d; EvMkdir r_d]. cbn. rewrite <- app_assoc.
      split; [reflexivity|repeat constructor].
    + exists [EvRmtree r_d]. split; [reflexivity|repeat constructor].
  - apply post_ret.
    apply post_mkdir; [intros t'|intros e; now apply Hnone].
    split; [reflexivity|]. exists [EvMkdir r_d].
    split; [reflexivity|repeat constructor].
Qed.

Lemma for_each_copy_effect d ts files w :
  post (for_each files (fun f => shutil_copy2 f (join d (copy_name f ts)))) w
    (fun _ w' =>
       clock w' = clock w
       /\ exists done,
            trace w'
            = trace w ++ map (fun f => EvCopy f (join d (copy_name f ts))) done).
Proof.
  revert w. induction files as [|f files IH]; intros w.
  - apply post_ret. split; [reflexivity|]. exists []. now rewrite app_nil_r.
  - cbn [for_each]. apply post_bind. apply post_copy2.
    + intros t. specialize (IH (log (EvCopy f (join d (copy_name f ts)))
                                  (with_fs t w))).
      unfold post in *. destruct IH as (Hc & done & Ht).
      split; [exact Hc|]. exists (f :: done). rewrite Ht. cbn.
      now rewrite <- app_assoc.
    + intros e. split; [reflexivity|]. exists []. now rewrite app_nil_r.
Qed.

Lemma save_files_rootdir_effect d exts w :
  post (save_files_rootdir E d exts) w
    (fun _ w' =>
       clock w' = S (clock w)
       /\ exists done,
            trace w'
            = trace w
              ++ map (fun f => EvCopy f (join d (copy_name f (reading E (clock w)))))
                   done).
Proof.
  unfold save_files_rootdir. apply post_bind, post_strftime_now.
  apply post_bind.
  assert (Hl : snd (os_listdir "." (tick w)) = tick w).
  { unfold os_listdir. now destruct (lookup "." (tick w)) as [[|]|]. }
  apply post_still; [exact Hl|]. intros [listing|e].
  - apply (for_each_copy_effect d (reading E (clock w)) _ (tick w)).
  - split; [reflexivity|]. exists []. now rewrite app_nil_r.
Qed.

Lemma post_handler e w Q :
  (forall line, Q (Return false) (say line w)) ->
  post (save_git_commit_handler e) w Q.
Proof. intros H. destruct e; apply H. Qed.

Lemma save_git_commit_effect d w :
  post (save_git_commit_to_file E d) w
    (fun _ w' =>
       one_file (join d (descriptor_name (reading E (clock w)))) w w').
Proof.
  unfold save_git_commit_to_file, save_git_commit_body.
  assert (Hleft : forall e, post (save_git_commit_handler e) w
            (fun _ w' =>
               one_file (join d (descriptor_name (reading E (clock w)))) w w')).
  { intros e. apply post_handler. intros line. left. now split. }
  apply post_try.
  still as r0 e; [|apply Hleft]. still as r1 e; [|apply Hleft].
  still as h e; [|apply Hleft]. still as r2 e; [|apply Hleft].
  still as b e; [|apply Hleft].
  apply post_bind. apply post_still;
    [now rewrite get_project_name_at|intros [project_name|e]];
    [|apply Hleft].
  apply post_bind, post_strftime_now.
  apply post_bind, post_open_write.
  - intros t. apply post_bind, post_print, post_ret.
    right. split; [reflexivity|]. now right.
  - intros e. apply post_handler. intros line.
    right. split; [reflexivity|]. now left.
Qed.

Lemma export_conda_effect d ib w :
  post (export_conda_environment E d ib) w
    (fun _ w' =>
       one_file (join d (manifest_name (reading E (clock w)))) w w').
Proof.
  unfold export_conda_environment.
  apply post_bind. apply post_still;
    [now rewrite conda_command_at|intros [conda_cmd|e]];
    [|left; now split].
  still as listing e; [|left; now split].
  destruct (negb (returncode listing =? 0)%Z).
  { apply post_bind, post_print, post_ret. left. now split. }
  still as found e; [|left; now split].
  destruct found as [[|c0 current_env]|];
    try (apply post_raise; left; now split).
  apply post_bind, post_strftime_now.
  apply post_bind, post_print.
  still as exported e; [|right; split; [reflexivity|now left]].
  destruct (negb (returncode exported =? 0)%Z).
  { apply post_bind, post_print, post_ret.
    right; split; [reflexivity|now left]. }
  apply post_bind, post_open_write.
  - intros t. apply post_bind, post_print, post_ret.
    right. split; [reflexivity|]. now right.
  - intros e. right. split; [reflexivity|]. now left.
Qed.

End Effects.

(** ** The name of the manifest and the name announced *)

Section ManifestName.
Import PyStr PosixPath FS DateTime Py Reproducibility Spec.
Import StrFacts PathFacts TreeFacts MonadFacts NameFacts PostFacts.
Variable E : host.

Lemma last_of_two {A} (l : list A) a b d : last (l ++ [a; b]) d = b.
Proof.
  change [a; b] with ([a] ++ [b]). rewrite app_assoc. apply last_last.
Qed.

(** A file is only ever created below an existing directory. *)
Lemma store_join_inv d n data w w' :
  is_name n = true ->
  store (join d n) data w = (Return tt, w') -> can_create d n w.
Proof.
  intros Hn Hs. unfold can_create.
  pose proof (resolve_join (cwd w) d n Hn) as Hq.
  pose proof (lookup_join d n w Hn) as Hl.
  unfold store in Hs.
  destruct (lookup (join d n) w) as [[data0|sub0]|] eqn:Hlook;
    cbv beta iota in Hs; try discriminate;
    (destruct (join d n =? ""); [discriminate|]);
    cbv zeta in Hs; rewrite Hq, removelast_last in Hs;
    destruct (find (resolve (cwd w) d) (fs w)) as [[|es]|] eqn:Hd;
    try discriminate;
    exists es; (split; [reflexivity|]); intros sub Hsub;
    rewrite (find_snoc _ _ _ _ Hd), Hsub in Hl; discriminate.
Qed.

Lemma open_write_inv p chunks w r w' :
  open_write p chunks w = (r, w') ->
  (r = Return tt /\ trace w' = trace w ++ [EvWrite p]
   /\ exists v, store p (String.concat "" chunks) w = (Return tt, v))
  \/ w' = w.
Proof.
  unfold open_write.
  destruct (store_cases p (String.concat "" chunks) w) as [[t Hs]|[e Hs]];
    rewrite Hs; cbv beta iota; intros [= <- <-].
  - left. repeat split. now exists (with_fs t w).
  - now right.
Qed.

(** The exporter appends to the trace only on the path where everything
    succeeded. *)
Lemma export_conda_wrote (d : string) (ib : bool) (w : world) :
  trace (snd (export_conda_environment E d ib w)) <> trace w ->
  exists listing err1 env text err2,
    env_listing E w = Exited 0 (Encoded listing) err1
    /\ find_current_env (split_on LF (strip listing)) = Return (Some env)
    /\ spawn E (is_windows E) (export_command env ib)
       = Exited 0 (Encoded text) err2
    /\ can_create d (manifest_name (strftime (now E (clock w)))) w.
Proof.
  unfold export_conda_environment. step (conda_command_at E w).
  unfold bind at 1, subprocess_run_text at 1. fold (env_listing E w).
  destruct (env_listing E w) as [e|rc [listing|] err1] eqn:Hl;
    try (intros H; now elim H).
  cbn [returncode stdout ret]. destruct (Z.eqb_spec rc 0) as [->|Hrc];
    [|intros H; now elim H].
  cbn [negb]. unfold bind at 1, lift.
  destruct (find_current_env (split_on LF (strip listing)))
    as [[[|c env]|]|e] eqn:Henv; try (intros H; now elim H).
  step (strftime_now_at E w). unfold bind at 1, print.
  fold (export_command (String c env) ib).
  unfold bind at 1, subprocess_run_text at 1.
  destruct (spawn E (is_windows E) (export_command (String c env) ib))
    as [e|rc [text|] err2] eqn:Hx; try (intros H; now elim H).
  cbn [returncode stdout ret]. destruct (Z.eqb_spec rc 0) as [->|Hrc];
    [|intros H; now elim H].
  cbn [negb]. unfold bind at 1.
  set (ts := strftime (now E (clock w))).
  match goal with
  | |- context [open_write ?p ?c ?v] =>
      destruct (open_write p c v) as [r w2] eqn:Hw
  end.
  destruct (open_write_inv _ _ _ _ _ Hw) as [(-> & _ & v & Hs)| ->].
  - intros _. exists listing, err1, (String c env), text, err2.
    split; [reflexivity|]. split; [exact Henv|]. split; [exact Hx|].
    apply store_join_inv in Hs;
      [exact Hs|apply is_name_manifest, strftime_plain].
  - destruct r as [[]|e]; intros H; now elim H.
Qed.

(** C10. Whenever [export_conda_environment] writes its manifest, it
    returns [None], not the path of the file; the file it created is
    [conda_env_{timestamp}.yml] in [d] and holds the text printed by the
    export command, while the last line it prints announces
    [conda_env_{current_env}_{timestamp}.yml], with the name picked from
    the listing, which is another name. *)
Theorem export_announces_other_name (d : string) (ib : bool) (w : world) :
  trace (snd (export_conda_environment E d ib w)) <> trace w ->
  exists listing env text w',
    export_conda_environment E d ib w = (Return None, w')
    /\ (exists err, env_listing E w = Exited 0 (Encoded listing) err)
    /\ find_current_env (split_on LF (strip listing)) = Return (Some env)
    /\ (exists err, spawn E (is_windows E) (export_command env ib)
                    = Exited 0 (Encoded text) err)
    /\ trace w'
       = trace w
         ++ [EvWrite (join d ("conda_env_" +:+ reading E (clock w) +:+ ".yml"))]
    /\ holds (join d ("conda_env_" +:+ reading E (clock w) +:+ ".yml")) text w'
    /\ last (console w') ""
       = "Environment exported to "
         +:+ join d ("conda_env_" +:+ env +:+ "_" +:+ reading E (clock w)
                     +:+ ".yml")
    /\ join d ("conda_env_" +:+ env +:+ "_" +:+ reading E (clock w) +:+ ".yml")
       <> join d ("conda_env_" +:+ reading E (clock w) +:+ ".yml").
Proof.
  intros Hwrote.
  destruct (export_conda_wrote d ib w Hwrote)
    as (listing & err1 & env & text & err2 & Hl & Henv & Hx & Hc).
  destruct (export_conda_success E d ib w _ _ _ _ _ Hl Henv Hx Hc)
    as (w' & Hrun & Hh & Ht & Hcon & Hne).
  unfold manifest_name, announced_manifest_name in Hh, Ht, Hcon, Hne.
  exists listing, env, text, w'. unfold reading.
  split; [exact Hrun|]. split; [now exists err1|]. split; [exact Henv|].
  split; [now exists err2|]. split; [exact Ht|]. split; [exact Hh|].
  split; [|exact Hne].
  rewrite Hcon. apply last_of_two.
Qed.

End ManifestName.

(** ** Timestamps of the artifacts of one run *)

Section Stamps.
Import PyStr PosixPath FS DateTime Py Reproducibility Spec.
Import MonadFacts PostFacts.
Variable E : host.
Variable r_d : string.
Variable c : nat.

Lemma well_stamped_nil : well_stamped E r_d c [].
Proof. repeat split; constructor. Qed.

Lemma well_stamped_app a b :
  well_stamped E r_d c a -> well_stamped E r_d c b ->
  well_stamped E r_d c (a ++ b).
Proof.
  intros (A1 & A2 & A3) (B1 & B2 & B3). split; [|split].
  - apply Forall_app; auto.
  - apply Forall_app; auto.
  - intros H1 H2. apply Forall_app; auto.
Qed.

Lemma well_stamped_quiet evs : Forall quiet evs -> well_stamped E r_d c evs.
Proof.
  intros H. repeat split; try intros _ _;
    (eapply Forall_impl; [|exact H]); now intros [].
Qed.

Lemma well_stamped_copies done :
  well_stamped E r_d c
    (map (fun f => EvCopy f (join r_d (copy_name f (reading E c)))) done).
Proof.
  repeat split; try intros _ _; apply Forall_forall; intros ev Hin;
    apply in_map_iff in Hin as (f & <- & _); reflexivity.
Qed.

Lemma well_stamped_descriptor :
  well_stamped E r_d c [EvWrite (join r_d (descriptor_name (reading E (S c))))].
Proof.
  split; [|split].
  - now repeat constructor.
  - constructor; [|constructor]. now left.
  - intros -> _. constructor; [|constructor]. now left.
Qed.

Lemma well_stamped_manifest k :
  k = S c \/ k = S (S c) ->
  well_stamped E r_d c [EvWrite (join r_d (manifest_name (reading E k)))].
Proof.
  intros Hk. split; [|split].
  - now repeat constructor.
  - constructor; [|constructor]. destruct Hk as [->| ->]; cbn; tauto.
  - intros H1 H2. constructor; [|constructor].
    destruct Hk as [->| ->]; rewrite ?H1, ?H2; now right.
Qed.

(** One component's contribution, appended to what came before. *)
Lemma stamped_extends (w0 w1 w2 : world) evs :
  (exists evs0, trace w1 = trace w0 ++ evs0 /\ well_stamped E r_d c evs0) ->
  trace w2 = trace w1 ++ evs -> well_stamped E r_d c evs ->
  exists evs2, trace w2 = trace w0 ++ evs2 /\ well_stamped E r_d c evs2.
Proof.
  intros (evs0 & Ht & Hs) Ht2 Hs2. exists (evs0 ++ evs).
  split; [now rewrite Ht2, Ht, app_assoc|now apply well_stamped_app].
Qed.

End Stamps.

Section Correlation.
Import PyStr PosixPath FS DateTime Py Reproducibility Spec.
Import MonadFacts PostFacts.
Variable E : host.

(** C1, as the code has it. Every artifact of a run is named after a
    reading of the clock taken during that run by the component that
    writes it: each copied source file after the single reading of the
    source copier, the descriptor after the reading of the recorder, the
    manifest after the reading of the exporter. The three readings are
    taken one after the other; when they agree, every artifact of the run
    carries the same timestamp. *)
Theorem artifacts_carry_component_readings (w_d : string) (w : world) :
  exists evs,
    trace (snd (make_workflow_reproducible E w_d w)) = trace w ++ evs
    /\ Forall (copy_stamped E (output_dir w_d) (clock w)) evs
    /\ Forall (write_stamped E (output_dir w_d) (S (clock w))) evs
    /\ (reading E (S (clock w)) = reading E (clock w) ->
        reading E (S (S (clock w))) = reading E (clock w) ->
        Forall (stamped (output_dir w_d) (reading E (clock w))) evs).
Proof.
  change (exists evs,
    trace (snd (make_workflow_reproducible E w_d w)) = trace w ++ evs
    /\ well_stamped E (output_dir w_d) (clock w) evs).
  unfold make_workflow_reproducible. fold (output_dir w_d).
  set (r_d := output_dir w_d). set (c := clock w). unfold bind.
  pose proof (reset_directory_effect r_d w) as H1. unfold post in H1.
  destruct (reset_directory r_d w) as [r1 w1]. cbn [fst snd] in H1.
  destruct H1 as (Hc1 & evs1 & Ht1 & Hq1).
  assert (G1 : exists evs, trace w1 = trace w ++ evs
                           /\ well_stamped E r_d c evs).
  { exists evs1. split; [exact Ht1|now apply well_stamped_quiet]. }
  destruct r1 as [[]|e1]; [|exact G1].
  pose proof (save_files_rootdir_effect E r_d [".py"] w1) as H2.
  unfold post in H2.
  destruct (save_files_rootdir E r_d [".py"] w1) as [r2 w2].
  cbn [fst snd] in H2. destruct H2 as (Hc2 & done & Ht2).
  rewrite Hc1 in Hc2, Ht2. fold c in Hc2, Ht2.
  pose proof (stamped_extends E r_d c w w1 w2 _ G1 Ht2
                (well_stamped_copies E r_d c done)) as G2.
  destruct r2 as [[]|e2]; [|exact G2].
  pose proof (save_git_commit_effect E r_d w2) as H3. unfold post in H3.
  destruct (save_git_commit_to_file E r_d w2) as [r3 w3].
  cbn [fst snd] in H3. unfold one_file in H3. rewrite Hc2 in H3.
  assert (G3 : (exists evs, trace w3 = trace w ++ evs
                            /\ well_stamped E r_d c evs)
               /\ (clock w3 = S c \/ clock w3 = S (S c))).
  { destruct H3 as [[Hc3 Ht3]|[Hc3 [Ht3|Ht3]]].
    - split; [|left; congruence]. rewrite Ht3. exact G2.
    - split; [|now right]. rewrite Ht3. exact G2.
    - split; [|now right].
      exact (stamped_extends E r_d c w w2 w3 _ G2 Ht3
               (well_stamped_descriptor E r_d c)). }
  destruct G3 as [G3 Hc3].
  destruct r3 as [b|e3]; [|exact G3].
  pose proof (export_conda_effect E r_d false w3) as H4. unfold post in H4.
  destruct (export_conda_environment E r_d false w3) as [r4 w4].
  cbn [fst snd] in H4. unfold one_file in H4.
  assert (G4 : exists evs, trace w4 = trace w ++ evs
                           /\ well_stamped E r_d c evs).
  { destruct H4 as [[_ Ht4]|[_ [Ht4|Ht4]]].
    - rewrite Ht4. exact G3.
    - rewrite Ht4. exact G3.
    - exact (stamped_extends E r_d c w w3 w4 _ G3 Ht4
               (well_stamped_manifest E r_d c _ Hc3)). }
  now destruct r4.
Qed.

End Correlation.

(** ** The properties at the sample inputs *)

Section Samples.
Import PyStr PosixPath FS DateTime Py Reproducibility Spec Sample.

Lemma project_takes_new_files n :
  (n =? "a.py_20231231_235959.txt") = false ->
  can_create "reproducibility" n project.
Proof.
  intros Hn. exists old_snapshot. split; [reflexivity|].
  intros sub. cbn. rewrite Hn. discriminate.
Defined.

(** C1, the claim as stated fails: with a clock that advances between the
    readings, the copies, the descriptor and the manifest of one run carry
    three different timestamps. *)
Lemma readings_differ_within_run :
  ~ exists ts,
      Forall (stamped (output_dir ".") ts)
        (appended project
           (snd (make_workflow_reproducible host_ticking "." project))).
Proof.
  intros [ts H].
  assert (Hrun :
    appended project
      (snd (make_workflow_reproducible host_ticking "." project))
    = [ EvRmtree "./reproducibility"; EvMkdir "./reproducibility";
        EvCopy "a.py" "./reproducibility/a.py_20240101_120000.txt";
        EvCopy "b.py" "./reproducibility/b.py_20240101_120000.txt";
        EvWrite "./reproducibility/git_commit_20240101_120001.txt";
        EvWrite "./reproducibility/conda_env_20240101_120002.yml" ])
    by reflexivity.
  rewrite Hrun in H. rewrite Forall_forall in H.
  assert (Hcopy := H (EvCopy "a.py" "./reproducibility/a.py_20240101_120000.txt")
                     ltac:(simpl; tauto)).
  assert (Hdesc := H (EvWrite "./reproducibility/git_commit_20240101_120001.txt")
                     ltac:(simpl; tauto)).
  cbn in Hcopy. injection Hcopy as Hts.
  apply (StrFacts.append_inv_tail "20240101_120000" ts ".txt") in Hts.
  subst ts. destruct Hdesc as [Hd|Hd]; discriminate Hd.
Qed.

Lemma frozen_clock_correlates :
  reading host_frozen 1 = reading host_frozen 0
  /\ reading host_frozen 2 = reading host_frozen 0
  /\ exists evs,
       trace (snd (make_workflow_reproducible host_frozen "." project))
       = trace project ++ evs
       /\ Forall (stamped (output_dir ".") (reading host_frozen 0)) evs.
Proof.
  split; [reflexivity|]. split; [reflexivity|].
  destruct (artifacts_carry_component_readings host_frozen "." project)
    as (evs & Ht & _ & _ & Hs).
  exists evs. split; [exact Ht|]. apply Hs; reflexivity.
Defined.

Lemma idle_listing_has_no_asterisk w : no_row_with_asterisk host_no_env w.
Proof.
  exists (idle_rows +:+ nl), "". split; [reflexivity|].
  vm_compute. repeat constructor.
Defined.

(** C2, the claim as stated fails: with no row marked active the
    exception leaves [make_workflow_reproducible] and reaches the caller. *)
Lemma missing_env_reaches_caller :
  no_row_with_asterisk host_no_env project
  /\ fst (make_workflow_reproducible host_no_env "." project)
     = Raise (RuntimeError "Could not determine current conda environment").
Proof. split; [apply idle_listing_has_no_asterisk|reflexivity]. Qed.

Lemma exporter_without_active_env_sample :
  no_row_with_asterisk host_no_env project
  /\ export_conda_environment host_no_env "reproducibility" false project
     = (Raise (RuntimeError "Could not determine current conda environment"),
        project).
Proof.
  split; [apply idle_listing_has_no_asterisk|].
  apply (exporter_without_active_env_raises host_no_env "reproducibility"
           false project (idle_listing_has_no_asterisk project)).
Defined.

(** C4, the claim as stated fails: inside the [.git] directory the
    working directory is not inside a work tree, and git says so, but
    with exit status 0; the recorder goes on, writes the descriptor and
    returns [True]. *)
Lemma git_dir_is_recorded :
  worktree_query host_git_dir = Exited 0 (Encoded ("false" +:+ nl)) ""
  /\ fst (save_git_commit_to_file host_git_dir "reproducibility" project)
     = Return true
  /\ holds "reproducibility/git_commit_20240101_120000.txt"
       (String.concat "" (descriptor_lines "demo" "main" "abc123"))
       (snd (save_git_commit_to_file host_git_dir "reproducibility" project)).
Proof. repeat split. Qed.

Lemma recorder_failure_sample :
  worktree_query_fails host_no_git
  /\ (exists w',
        save_git_commit_to_file host_no_git "reproducibility" project
        = (Return false, w')
        /\ fs w' = fs project /\ trace w' = trace project
        /\ console w'
           = ["Error: Not a git repository or git is not installed."])
  /\ appended project
       (snd (make_workflow_reproducible host_no_git "." project))
     = [ EvRmtree "./reproducibility"; EvMkdir "./reproducibility";
         EvCopy "a.py" "./reproducibility/a.py_20240101_120000.txt";
         EvCopy "b.py" "./reproducibility/b.py_20240101_120000.txt";
         EvWrite "./reproducibility/conda_env_20240101_120001.yml" ].
Proof.
  assert (H : worktree_query_fails host_no_git) by (cbn; discriminate).
  split; [exact H|].
  destruct (recorder_failure_is_contained host_no_git "reproducibility" "."
              project project H) as [(w' & Hr & Hf & Ht & Hc) [Hline Hrun]].
  split.
  - exists w'. split; [exact Hr|]. split; [exact Hf|]. split; [exact Ht|].
    rewrite Hc. now rewrite (Hline _ _ _ eq_refl).
  - rewrite Hrun. reflexivity.
Defined.


(** Two runs in a row: the second leaves only its own artifacts. *)
Lemma second_run_replaces_first :
  lookup (output_dir ".")
    (snd (make_workflow_reproducible host_ticking "."
            (snd (make_workflow_reproducible host_ticking "." project))))
  = Some (Dir [ ("a.py_20240101_120003.txt", File "print('a')");
                ("b.py_20240101_120003.txt", File "print('b')");
                ("git_commit_20240101_120004.txt",
                 File (String.concat "" (descriptor_lines "demo" "main" "abc123")));
                ("conda_env_20240101_120005.yml", File ("name: sci" +:+ nl)) ]).
Proof. reflexivity. Qed.

Lemma descriptor_sample :
  exists w' text,
    save_git_commit_to_file host_ticking "reproducibility" project
    = (Return true, w')
    /\ holds "reproducibility/git_commit_20240101_120000.txt" text w'
    /\ In "Commit Hash: abc123" (lines_of text).
Proof.
  destruct (descriptor_of_demo host_ticking "reproducibility" project
              (Encoded ("true" +:+ nl)) "" ("abc123" +:+ nl) ""
              ("main" +:+ nl) ""
              eq_refl eq_refl eq_refl eq_refl eq_refl eq_refl
              (project_takes_new_files
                 (descriptor_name (reading host_ticking 0)) eq_refl))
    as (w' & text & Hr & Hh & Hl).
  exists w', text. split; [exact Hr|]. split; [exact Hh|].
  rewrite Hl. simpl. tauto.
Defined.


Lemma copies_sample :
  exists w' out,
    save_files_rootdir host_ticking "/out" [".py"] three_files_only
    = (Return tt, w')
    /\ lookup "/out" w' = Some (Dir out)
    /\ Permutation out
         [ ("a.py_20240101_120000.txt", File "print('a')");
           ("b.py_20240101_120000.txt", File "print('b')") ].
Proof.
  apply (copies_of_three_files host_ticking "/out" three_files_only
           [("b.py", File "print('b')"); ("notes.txt", File "todo");
            ("a.py", File "print('a')")]
           "print('a')" "print('b')" "todo" eq_refl).
  - apply Permutation_sym.
    apply (Permutation_cons_append
             [("b.py", File "print('b')"); ("notes.txt", File "todo")]).
  - reflexivity.
Defined.

Lemma export_sample :
  exists w',
    export_conda_environment host_ticking "reproducibility" false project
    = (Return None, w')
    /\ trace w'
       = [EvWrite "reproducibility/conda_env_20240101_120000.yml"]
    /\ holds "reproducibility/conda_env_20240101_120000.yml"
         ("name: sci" +:+ nl) w'
    /\ last (console w') ""
       = "Environment exported to reproducibility/conda_env_sci_20240101_120000.yml".
Proof.
  destruct (export_announces_other_name host_ticking "reproducibility" false
              project)
    as (listing & env & text & w' & Hrun & [err1 Hl] & Henv & [err2 Hx]
        & Ht & Hh & Hc & _).
  - vm_compute. discriminate.
  - assert (Hl' : env_listing host_ticking project
                  = Exited 0 (Encoded (conda_rows +:+ nl)) "") by reflexivity.
    rewrite Hl' in Hl. injection Hl as <- _.
    assert (Henv' : Return (Some env) = Return (Some "sci"))
      by (rewrite <- Henv; reflexivity).
    injection Henv' as ->.
    assert (Hx' : Exited 0 (Encoded text) err2
                  = Exited 0 (Encoded ("name: sci" +:+ nl)) "")
      by (rewrite <- Hx; reflexivity).
    injection Hx' as -> _.
    exists w'. split; [exact Hrun|]. split; [exact Ht|].
    split; [exact Hh|exact Hc].
Defined.

(** C9, where the code departs from the claim: a directory whose name
    ends in [.py] is selected like a file, and copying it raises an
    exception that ends the whole run. *)
Lemma package_directory_aborts_run :
  select [".py"] ["a.py"; "plugins.py"] = ["a.py"; "plugins.py"]
  /\ fst (save_files_rootdir host_ticking "." [".py"] with_package_dir)
     = Raise (IsADirectoryError "plugins.py")
  /\ fst (make_workflow_reproducible host_ticking "." with_package_dir)
     = Raise (IsADirectoryError "plugins.py").
Proof. repeat split. Qed.

End Samples.

(** * Further properties *)

(** ** The selection of line 167 *)

Section Selection.
Import PyStr PosixPath FS DateTime Py Reproducibility Spec Terms.
Import StrFacts.

Lemma endswith_iff s suffix :
  endswith s suffix = true <-> exists stem, s = stem +:+ suffix.
Proof.
  split; [apply endswith_inv|]. intros [stem ->]. apply endswith_append.
Qed.

Lemma endswith_empty s : endswith s "" = true.
Proof. apply endswith_iff. exists s. now rewrite append_nil_r. Qed.

(** X1. A name is selected exactly when it is listed and ends with one of the
    extensions. An empty extension among the filters selects every name,
    and no filter at all selects none. *)
Theorem select_spec (exts before after listing : list string) (f : string) :
  (In f (select exts listing)
   <-> In f listing /\ exists ext stem, In ext exts /\ f = stem +:+ ext)
  /\ select (before ++ "" :: after) listing = listing
  /\ select [] listing = [].
Proof.
  split; [|split].
  - unfold select. rewrite filter_In, existsb_exists. split.
    + intros [Hin (ext & Hext & He)]. split; [exact Hin|].
      apply endswith_iff in He as [stem ->]. now exists ext, stem.
    + intros [Hin (ext & stem & Hext & ->)]. split; [exact Hin|].
      exists ext. split; [exact Hext|apply endswith_append].
  - unfold select. induction listing as [|g l IH]; [reflexivity|].
    cbn [filter]. rewrite existsb_app. cbn [existsb].
    rewrite endswith_empty, orb_true_r. now rewrite IH.
  - unfold select. induction listing as [|g l IH]; [reflexivity|exact IH].
Qed.

End Selection.

(** ** The artifacts of a run do not overwrite one another *)

Section Collisions.
Import PyStr PosixPath FS DateTime Py Reproducibility Spec Terms.
Import StrFacts.

Lemma append_inv_last a b x y :
  a +:+ String x "" = b +:+ String y "" -> a = b /\ x = y.
Proof.
  revert b; induction a as [|c a IH]; intros [|c' b] H; simpl in H.
  - now injection H.
  - injection H as _ H. now destruct b.
  - injection H as _ H. now destruct a.
  - injection H as -> H. destruct (IH _ H) as [-> ->]. now split.
Qed.

Lemma txt_is_not_yml a b : a +:+ ".txt" <> b +:+ ".yml".
Proof.
  change ".txt" with (".tx" +:+ "t"). change ".yml" with (".ym" +:+ "l").
  rewrite <- !append_assoc. intros H.
  apply append_inv_last in H as [_ H]. discriminate.
Qed.

Lemma dot_uint u :
  contains "." (DecimalString.NilEmpty.string_of_uint u) = false.
Proof. induction u; simpl; auto. Qed.

Lemma dot_zeros k : contains "." (zeros k) = false.
Proof. induction k; simpl; auto. Qed.

(** A timestamp holds no dot. *)
Lemma dot_strftime t : contains "." (strftime t) = false.
Proof.
  unfold strftime, zfill, digits.
  now rewrite !contains_append, !dot_zeros, !dot_uint.
Qed.

Lemma copy_name_inj f g ts : copy_name f ts = copy_name g ts -> f = g.
Proof. unfold copy_name. apply append_inv_tail. Qed.

Lemma copy_is_not_manifest f ts ts' : copy_name f ts <> manifest_name ts'.
Proof.
  unfold copy_name, manifest_name. rewrite <- !append_assoc.
  apply txt_is_not_yml.
Qed.

Lemma python_copy_is_not_descriptor f t t' :
  endswith f ".py" = true ->
  copy_name f (strftime t) <> descriptor_name (strftime t').
Proof.
  intros Hf H. unfold copy_name, descriptor_name in H.
  rewrite <- !append_assoc in H. apply append_inv_tail in H.
  apply (f_equal (contains ".")) in H.
  apply endswith_inv in Hf as [stem ->].
  rewrite !contains_append, !dot_strftime in H.
  cbn in H. rewrite orb_true_r in H. discriminate.
Qed.

(** X2. The names given to the copies of two different Python files, to the
    descriptor and to the manifest are pairwise different, whatever the
    readings of the clock: no artifact of a run replaces another. *)
Theorem artifact_names_distinct (f g : string) (t1 t2 t3 : datetime) :
  endswith f ".py" = true -> endswith g ".py" = true -> f <> g ->
  NoDup [ copy_name f (strftime t1); copy_name g (strftime t1);
          descriptor_name (strftime t2); manifest_name (strftime t3) ].
Proof.
  intros Hf Hg Hfg.
  repeat constructor; cbn [In]; intros H;
    repeat match type of H with _ \/ _ => destruct H as [H|H] end;
    try contradiction.
  - symmetry in H. now apply copy_name_inj in H.
  - symmetry in H. now apply python_copy_is_not_descriptor in H.
  - symmetry in H. now apply copy_is_not_manifest in H.
  - symmetry in H. now apply python_copy_is_not_descriptor in H.
  - symmetry in H. now apply copy_is_not_manifest in H.
  - discriminate H.
Qed.

End Collisions.

(** ** Project names of the usual remote URLs *)

Section RemoteFormats.
Import PyStr PosixPath FS DateTime Py Reproducibility Spec Terms.
Import StrFacts ProjectFacts.

(** X3. For a remote URL of the form [<anything>/<name>.git], as in
    [https://github.com/username/project.git] and
    [git@github.com:username/project.git], the project is [<name>];
    without the [.git] it is [<name>] too, less a [.git] that the name
    itself may end in. A URL that ends with a slash gives the empty
    name. *)
Theorem project_of_hosted_url (front name : string) :
  contains sep name = false ->
  project_of_url (front +:+ "/" +:+ name +:+ ".git") = name
  /\ project_of_url (front +:+ "/" +:+ name)
     = (if endswith name ".git" then drop_last 4 name else name)
  /\ project_of_url (front +:+ "/") = "".
Proof.
  intros Hname. rewrite !project_of_url_spec.
  unfold spec_project_name, without_git_suffix.
  change (front +:+ "/" +:+ name +:+ ".git")
    with (front +:+ String sep (name +:+ ".git")).
  change (front +:+ "/" +:+ name) with (front +:+ String sep name).
  change (front +:+ "/") with (front +:+ String sep "").
  rewrite !final_segment_after;
    try reflexivity; try assumption;
    try (rewrite contains_append, Hname; reflexivity).
  split; [|split]; try reflexivity.
  rewrite endswith_append. exact (drop_last_append name ".git").
Qed.

End RemoteFormats.

(** ** The rows of the environment listing *)

Section Rows.
Import PyStr PosixPath FS DateTime Py Reproducibility Spec Terms.
Import StrFacts MonadFacts.

Lemma is_word_inv s :
  is_word s = true ->
  exists a s', s = String a s' /\ is_space a = false
               /\ every (fun c => negb (is_space c)) s' = true.
Proof.
  unfold is_word. destruct s as [|a s']; [discriminate|]. cbn.
  intros H. apply andb_true_iff in H as [Ha Hs].
  exists a, s'. now rewrite (proj1 (negb_true_iff _) Ha).
Qed.

Lemma split_ws_blank s : is_blank s = true -> split_ws s = [].
Proof.
  induction s as [|a s IH]; [reflexivity|]. cbn. intros H.
  apply andb_true_iff in H as [-> Hs]. now apply IH.
Qed.

Lemma split_ws_lead lead s : is_blank lead = true -> split_ws (lead +:+ s) = split_ws s.
Proof.
  induction lead as [|a lead IH]; [reflexivity|]. cbn. intros H.
  apply andb_true_iff in H as [-> Hs]. now apply IH.
Qed.

Lemma split_ws_grow a a2 r :
  is_space a = false -> is_space a2 = false ->
  split_ws (String a (String a2 r))
  = match split_ws (String a2 r) with
    | w :: r' => String a w :: r'
    | [] => [String a ""]
    end.
Proof.
  intros Ha Ha2.
  change (split_ws (String a (String a2 r)))
    with (if is_space a then split_ws (String a2 r)
          else if is_space a2 then String a "" :: split_ws (String a2 r)
          else match split_ws (String a2 r) with
               | w :: r' => String a w :: r'
               | [] => [String a ""]
               end).
  now rewrite Ha, Ha2.
Qed.

(** A word followed by a blank is the first word of the text. *)
Lemma split_ws_word name b s :
  is_word name = true -> is_space b = true ->
  split_ws (name +:+ String b s) = name :: split_ws s.
Proof.
  intros Hw Hb. apply is_word_inv in Hw as (a & n & -> & Ha & Hn).
  revert a Ha. induction n as [|a2 n IH]; intros a Ha.
  - cbn. now rewrite Ha, Hb.
  - cbn in Hn. apply andb_true_iff in Hn as [Ha2 Hn].
    apply negb_true_iff in Ha2. specialize (IH Hn a2 Ha2).
    change (String a (String a2 n) +:+ String b s)
      with (String a (String a2 (n +:+ String b s))).
    change (String a2 n +:+ String b s)
      with (String a2 (n +:+ String b s)) in IH.
    now rewrite (split_ws_grow _ _ _ Ha Ha2), IH.
Qed.

Lemma split_ws_last_word name trail :
  is_word name = true -> is_blank trail = true ->
  split_ws (name +:+ trail) = [name].
Proof.
  intros Hw Ht. destruct trail as [|b trail].
  - rewrite append_nil_r.
    apply is_word_inv in Hw as (a & n & -> & Ha & Hn).
    revert a Ha. induction n as [|a2 n IH]; intros a Ha.
    + cbn. now rewrite Ha.
    + cbn in Hn. apply andb_true_iff in Hn as [Ha2 Hn].
      apply negb_true_iff in Ha2. specialize (IH Hn a2 Ha2).
      now rewrite (split_ws_grow _ _ _ Ha Ha2), IH.
  - cbn in Ht. apply andb_true_iff in Ht as [Hb Ht].
    rewrite (split_ws_word _ _ _ Hw Hb). now rewrite (split_ws_blank _ Ht).
Qed.

Lemma find_current_env_skips pre rows :
  Forall (fun row => contains "*" row = false) pre ->
  find_current_env (pre ++ rows) = find_current_env rows.
Proof.
  induction 1 as [|row pre Hrow _ IH]; [reflexivity|].
  cbn [app find_current_env]. now rewrite Hrow.
Qed.

Lemma blank_cons gap :
  is_blank gap = true -> gap <> "" ->
  exists b gap', gap = String b gap' /\ is_space b = true
                 /\ is_blank gap' = true.
Proof.
  destruct gap as [|b gap']; [congruence|]. cbn. intros H _.
  apply andb_true_iff in H as [Hb Hg]. now exists b, gap'.
Qed.

(** X4. In the layout of [conda info --envs], [name  *  path], the name taken
    is the first column of the first row that holds an asterisk: rows
    without one before it are passed over, rows after it are not read. *)
Theorem active_env_is_first_column (pre rest : list string)
    (name gap tail : string) :
  Forall (fun row => contains "*" row = false) pre ->
  is_word name = true -> name <> "*" ->
  is_blank gap = true -> gap <> "" ->
  find_current_env (pre ++ (name +:+ gap +:+ "*" +:+ tail) :: rest)
  = Return (Some name).
Proof.
  intros Hpre Hw Hname Hgap Hne.
  rewrite (find_current_env_skips _ _ Hpre). cbn [find_current_env].
  destruct (blank_cons _ Hgap Hne) as (b & gap' & -> & Hb & Hg').
  assert (Hmark : contains "*" (name +:+ String b gap' +:+ "*" +:+ tail) = true).
  { rewrite !contains_append. cbn. now rewrite !orb_true_r. }
  rewrite Hmark.
  change (name +:+ String b gap' +:+ "*" +:+ tail)
    with (name +:+ String b (gap' +:+ "*" +:+ tail)).
  rewrite (split_ws_word _ _ _ Hw Hb). cbn [item nth_error].
  apply String.eqb_neq in Hname. now rewrite Hname.
Qed.

(** X5. A row that opens with the asterisk, as conda prints for an environment
    without a name, gives the word after the asterisk: the path. *)
Theorem unnamed_env_is_its_path (pre rest : list string)
    (lead gap path trail : string) :
  Forall (fun row => contains "*" row = false) pre ->
  is_blank lead = true -> is_blank gap = true -> gap <> "" ->
  is_word path = true -> is_blank trail = true ->
  find_current_env (pre ++ (lead +:+ "*" +:+ gap +:+ path +:+ trail) :: rest)
  = Return (Some path).
Proof.
  intros Hpre Hlead Hgap Hne Hw Ht.
  rewrite (find_current_env_skips _ _ Hpre). cbn [find_current_env].
  assert (Hmark : contains "*" (lead +:+ "*" +:+ gap +:+ path +:+ trail) = true).
  { rewrite !contains_append. cbn. now rewrite !orb_true_r. }
  rewrite Hmark, (split_ws_lead _ _ Hlead).
  destruct (blank_cons _ Hgap Hne) as (b & gap' & -> & Hb & Hg').
  change ("*" +:+ String b gap' +:+ path +:+ trail)
    with ("*" +:+ String b (gap' +:+ path +:+ trail)).
  rewrite (split_ws_word "*" _ _ eq_refl Hb).
  rewrite (split_ws_lead _ _ Hg'), (split_ws_last_word _ _ Hw Ht).
  reflexivity.
Qed.

End Rows.

(** ** Failures of the environment exporter *)

Section ExporterFailures.
Import PyStr PosixPath FS DateTime Py Reproducibility Spec Terms.
Import StrFacts PathFacts TreeFacts MonadFacts NameFacts.
Variable E : host.

Lemma run_text_failure sh argv e w :
  launch_failure (spawn E sh argv) = Some e ->
  subprocess_run_text E sh argv w = (Raise e, w).
Proof.
  unfold subprocess_run_text, launch_failure.
  destruct (spawn E sh argv) as [e'|rc [out|] err]; intros H;
    inversion H; reflexivity.
Qed.

(** The exporter is the last step: the run ends as it does. *)
Lemma run_ends_with_exporter w_d w0 b w :
  upto_recorder E w_d w0 = (Return b, w) ->
  make_workflow_reproducible E w_d w0
  = (handed_back (fst (export_conda_environment E (output_dir w_d) false w)),
     snd (export_conda_environment E (output_dir w_d) false w)).
Proof.
  intros Hpre. rewrite make_workflow_split.
  rewrite (bind_Return _ _ _ _ _ Hpre). unfold bind, ret.
  now destruct (export_conda_environment E _ _ w) as [[v|e] w'].
Qed.



(** X6. When the listing command exits with a status other than 0, the
    exporter prints its standard error and returns [None]; nothing else
    changes, and a run of [make_workflow_reproducible] that got this far
    returns normally, without a manifest. *)
Theorem failed_listing_is_only_printed (d : string) (ib : bool) (w : world)
    (rc : Z) (out err : string) :
  env_listing E w = Exited rc (Encoded out) err -> rc <> 0%Z ->
  export_conda_environment E d ib w
  = (Return None, say ("Error running conda command: " +:+ err) w)
  /\ forall w_d w0 b,
       upto_recorder E w_d w0 = (Return b, w) ->
       make_workflow_reproducible E w_d w0
       = (Return tt, say ("Error running conda command: " +:+ err) w).
Proof.
  intros Hl Hrc.
  assert (Hrun : forall d ib,
             export_conda_environment E d ib w
             = (Return None, say ("Error running conda command: " +:+ err) w)).
  { intros d' ib'. unfold export_conda_environment.
    step (conda_command_at E w). unfold env_listing in Hl.
    step (subprocess_run_text_exited E _ _ _ _ _ w Hl).
    cbn [returncode stderr]. apply Z.eqb_neq in Hrc. rewrite Hrc.
    reflexivity. }
  split; [apply Hrun|].
  intros w_d w0 b Hpre.
  now rewrite (run_ends_with_exporter _ _ _ _ Hpre), Hrun.
Qed.

(** X7. When the export command exits with a status other than 0, the exporter
    has read the clock and announced the command; it then prints the
    command's standard error and returns [None]. The file system is left
    as it was. *)
Theorem failed_export_is_only_printed (d : string) (ib : bool) (w : world)
    listing err1 env (rc : Z) text err2 :
  env_listing E w = Exited 0 (Encoded listing) err1 ->
  find_current_env (split_on LF (strip listing)) = Return (Some env) ->
  spawn E (is_windows E) (export_command env ib)
    = Exited rc (Encoded text) err2 ->
  rc <> 0%Z ->
  export_conda_environment E d ib w
  = (Return None,
     say ("Error exporting environment: " +:+ err2)
       (say ("Running command: " +:+ join_with " " (export_command env ib))
          (tick w))).
Proof.
  intros Hl Henv Hx Hrc. unfold export_conda_environment.
  step (conda_command_at E w). unfold env_listing in Hl.
  step (subprocess_run_text_exited E _ _ _ _ _ w Hl).
  cbn [returncode stdout stderr negb Z.eqb].
  pose proof (find_current_env_named _ _ Henv) as Hne.
  unfold bind at 1. unfold lift. rewrite Henv.
  destruct env as [|a env]; [congruence|].
  step (strftime_now_at E w).
  unfold bind at 1. unfold print at 1. cbn [fs cwd console clock trace].
  unfold export_command in Hx.
  rewrite (bind_Return _ _ _ _ _ (subprocess_run_text_exited E _ _ _ _ _ _ Hx)).
  cbn [returncode stderr]. apply Z.eqb_neq in Hrc. rewrite Hrc.
  reflexivity.
Qed.

(** X8. When the listing command cannot be started, or its output cannot be
    decoded, the exception leaves the exporter, which has changed nothing,
    and ends the run of [make_workflow_reproducible]. *)
Theorem unstartable_conda_ends_run (d : string) (ib : bool) (w : world)
    (e : exn) :
  launch_failure (env_listing E w) = Some e ->
  export_conda_environment E d ib w = (Raise e, w)
  /\ forall w_d w0 b,
       upto_recorder E w_d w0 = (Return b, w) ->
       make_workflow_reproducible E w_d w0 = (Raise e, w).
Proof.
  intros Hl.
  assert (Hrun : forall d ib, export_conda_environment E d ib w = (Raise e, w)).
  { intros d' ib'. unfold export_conda_environment.
    step (conda_command_at E w). unfold env_listing in Hl.
    now rewrite (bind_Raise _ _ _ _ _ (run_text_failure _ _ _ w Hl)). }
  split; [apply Hrun|].
  intros w_d w0 b Hpre.
  now rewrite (run_ends_with_exporter _ _ _ _ Hpre), Hrun.
Qed.

(** X9. A marked row that holds the asterisk and nothing else has no second
    word: the lookup raises [IndexError], which leaves the exporter and
    ends the run. *)
Theorem lone_marker_raises_index_error (d : string) (ib : bool) (w : world)
    listing err (pre rest : list string) (lead trail : string) :
  env_listing E w = Exited 0 (Encoded listing) err ->
  split_on LF (strip listing) = pre ++ (lead +:+ "*" +:+ trail) :: rest ->
  Forall (fun row => contains "*" row = false) pre ->
  is_blank lead = true -> is_blank trail = true ->
  export_conda_environment E d ib w = (Raise IndexError, w)
  /\ forall w_d w0 b,
       upto_recorder E w_d w0 = (Return b, w) ->
       make_workflow_reproducible E w_d w0 = (Raise IndexError, w).
Proof.
  intros Hl Hrows Hpre Hlead Htrail.
  assert (Hfind : find_current_env (split_on LF (strip listing))
                  = Raise IndexError).
  { rewrite Hrows, (find_current_env_skips _ _ Hpre). cbn [find_current_env].
    assert (Hmark : contains "*" (lead +:+ "*" +:+ trail) = true).
    { rewrite !contains_append. cbn. now rewrite !orb_true_r. }
    rewrite Hmark, (split_ws_lead _ _ Hlead).
    rewrite (split_ws_last_word "*" _ eq_refl Htrail). reflexivity. }
  assert (Hrun : forall d ib,
             export_conda_environment E d ib w = (Raise IndexError, w)).
  { intros d' ib'. unfold export_conda_environment.
    step (conda_command_at E w). unfold env_listing in Hl.
    step (subprocess_run_text_exited E _ _ _ _ _ w Hl).
    cbn [returncode stdout negb Z.eqb].
    unfold bind, lift. now rewrite Hfind. }
  split; [apply Hrun|].
  intros w_d w0 b Hpre'.
  now rewrite (run_ends_with_exporter _ _ _ _ Hpre'), Hrun.
Qed.


End ExporterFailures.

(** ** What the revision recorder reports *)

Section RecorderReports.
Import PyStr PosixPath FS DateTime Py Reproducibility Spec Terms.
Import StrFacts PathFacts TreeFacts MonadFacts NameFacts PostFacts StripFacts.
Variable E : host.

Tactic Notation "quiet_step" "as" ident(a) ident(e) :=
  apply post_bind; apply post_still;
  [ first [ apply still_run_check | apply still_run_text
          | apply still_decode | reflexivity ]
  | intros [a|e] ].

Lemma run_check_nonzero argv w :
  exits_nonzero (spawn E false argv) ->
  exists rc, subprocess_run_check E argv w
             = (Raise (CalledProcessError rc argv), w).
Proof.
  unfold exits_nonzero, subprocess_run_check.
  destruct (spawn E false argv) as [e|rc out err]; [easy|].
  intros H. apply Z.eqb_neq in H. rewrite H. now exists rc.
Qed.


(** X11. After the work-tree query succeeded, a [HEAD] or branch query that
    exits with a status other than 0 (a repository without a commit, for
    one) is answered like a missing repository: the recorder prints that
    fixed line, returns [False] and changes nothing else. *)
Theorem failed_query_is_reported_as_no_repository (d : string) (w : world)
    o0 e0 :
  worktree_query E = Exited 0 o0 e0 ->
  exits_nonzero (head_query E)
  \/ ((exists h e1, head_query E = Exited 0 (Encoded h) e1)
      /\ exits_nonzero (branch_query E)) ->
  save_git_commit_to_file E d w
  = (Return false,
     say "Error: Not a git repository or git is not installed." w).
Proof.
  intros H0 Hq. unfold save_git_commit_to_file.
  destruct Hq as [Hh|[(h & e1 & H1) Hb]].
  - destruct (run_check_nonzero _ w Hh) as [rc Hrun].
    assert (Hbody : save_git_commit_body E d w
                    = (Raise (CalledProcessError rc
                                ["git"; "rev-parse"; "HEAD"]), w)).
    { unfold save_git_commit_body.
      step (subprocess_run_check_exited E _ _ _ w H0).
      now rewrite (bind_Raise _ _ _ _ _ Hrun). }
    now rewrite (try_except_Raise _ _ _ _ _ Hbody).
  - destruct (run_check_nonzero _ w Hb) as [rc Hrun].
    assert (Hbody : save_git_commit_body E d w
                    = (Raise (CalledProcessError rc
                                ["git"; "rev-parse"; "--abbrev-ref"; "HEAD"]),
                       w)).
    { unfold save_git_commit_body.
      step (subprocess_run_check_exited E _ _ _ w H0).
      step (subprocess_run_check_exited E _ _ _ w H1).
      cbn [stdout]. step (decode_encoded h w).
      now rewrite (bind_Raise _ _ _ _ _ Hrun). }
    now rewrite (try_except_Raise _ _ _ _ _ Hbody).
Qed.










End RecorderReports.

(** ** The output directory before the first run, and what blocks it *)

Section ResetEdges.
Import PyStr PosixPath FS DateTime Py Reproducibility Spec Terms.
Import StrFacts PathFacts TreeFacts MonadFacts NameFacts.
Variable E : host.

Lemma output_dir_resolves w_d w :
  resolve (cwd w) (output_dir w_d) = resolve (cwd w) w_d ++ ["reproducibility"].
Proof. unfold output_dir. now apply resolve_join. Qed.

Lemma output_dir_lookup w_d w :
  lookup (output_dir w_d) w
  = find (resolve (cwd w) w_d ++ ["reproducibility"]) (fs w).
Proof. unfold output_dir. now apply lookup_join. Qed.

Lemma output_dir_nonempty w_d : (output_dir w_d =? "") = false.
Proof.
  apply String.eqb_neq. unfold output_dir. now apply join_nonempty.
Qed.

Lemma reset_failure_ends_run w_d w e w' :
  reset_directory (output_dir w_d) w = (Raise e, w') ->
  make_workflow_reproducible E w_d w = (Raise e, w').
Proof.
  intros H. unfold make_workflow_reproducible. fold (output_dir w_d).
  now rewrite (bind_Raise _ _ _ _ _ H).
Qed.

(** X14. On a first run, when [w_d] is a directory without an entry
    [reproducibility], nothing is removed: the directory is created empty
    and every regular file stays as it was. *)
Theorem first_run_creates_directory (w_d : string) (w : world)
    (es : list (string * node)) :
  find (resolve (cwd w) w_d) (fs w) = Some (Dir es) ->
  assoc "reproducibility" es = None ->
  exists w',
    reset_directory (output_dir w_d) w = (Return tt, w')
    /\ lookup (output_dir w_d) w' = Some (Dir [])
    /\ find (resolve (cwd w) w_d) (fs w')
       = Some (Dir (es ++ [("reproducibility", Dir [])]))
    /\ (forall q x, lookup q w = Some (File x) -> lookup q w' = Some (File x))
    /\ trace w' = trace w ++ [EvMkdir (output_dir w_d)].
Proof.
  intros Hd Hfresh.
  pose proof (output_dir_lookup w_d w) as Hl.
  rewrite (find_snoc _ _ _ _ Hd), Hfresh in Hl.
  destruct (put_snoc _ "reproducibility" (Dir []) _ _ Hd) as (t & Hput & Hdir).
  exists (log (EvMkdir (output_dir w_d)) (with_fs t w)).
  split; [|split; [|split; [|split]]].
  - unfold reset_directory, bind, os_path_exists. rewrite Hl.
    cbv beta iota. unfold ret, os_mkdir. rewrite Hl, output_dir_nonempty.
    cbv zeta. now rewrite output_dir_resolves, removelast_last, Hd, Hput.
  - rewrite output_dir_lookup. cbn [cwd log with_fs fs].
    now apply find_put_same with (t := fs w).
  - cbn [cwd log with_fs fs]. now rewrite Hdir, set_entry_fresh.
  - intros q x Hq. unfold lookup in *. cbn [cwd log with_fs fs].
    destruct (q =? ""); [discriminate|].
    now apply (put_snoc_frame _ _ _ _ _ _ _ _ Hd Hfresh Hput).
  - reflexivity.
Qed.

(** X15. When [w_d/reproducibility] is a regular file, [shutil.rmtree] refuses
    it: the reset raises [NotADirectoryError], the file stays, and the run
    of [make_workflow_reproducible] ends there. *)
Theorem file_in_place_of_directory_ends_run (w_d : string) (w : world)
    (data : string) :
  lookup (output_dir w_d) w = Some (File data) ->
  reset_directory (output_dir w_d) w
  = (Raise (NotADirectoryError (output_dir w_d)), w)
  /\ make_workflow_reproducible E w_d w
     = (Raise (NotADirectoryError (output_dir w_d)), w).
Proof.
  intros Hl.
  assert (Hrun : reset_directory (output_dir w_d) w
                 = (Raise (NotADirectoryError (output_dir w_d)), w)).
  { unfold reset_directory, bind, os_path_exists, shutil_rmtree.
    now rewrite Hl; cbv beta iota; rewrite Hl. }
  split; [exact Hrun|now apply reset_failure_ends_run].
Qed.


End ResetEdges.

(** ** The source copier on any directory *)

Section CopierAtLarge.
Import PyStr PosixPath FS DateTime Py Reproducibility Spec Terms.
Import StrFacts PathFacts TreeFacts MonadFacts NameFacts.
Variable E : host.

Lemma assoc_snoc_other k k' v es :
  k <> k' -> assoc k (es ++ [(k', v)]) = assoc k es.
Proof.
  intros Hk. induction es as [|[k0 v0] es IH]; cbn.
  - apply String.eqb_neq in Hk. now rewrite Hk.
  - now rewrite IH.
Qed.

(** Creating a new entry leaves every directory a directory. *)
Lemma put_snoc_keeps_dirs p n v t t' es q sub :
  find p t = Some (Dir es) -> assoc n es = None ->
  put (p ++ [n]) v t = Some t' ->
  find q t = Some (Dir sub) -> exists sub', find q t' = Some (Dir sub').
Proof.
  revert t t' q sub; induction p as [|c p IH]; intros t t' q sub Hp Hn Hput Hq.
  - simpl in Hp. injection Hp as ->. simpl in Hput. injection Hput as <-.
    destruct q as [|a q]; [simpl; eauto|]. simpl in *.
    destruct (String.eqb_spec n a) as [->|Hna].
    + now rewrite Hn in Hq.
    + rewrite assoc_set_entry_other by assumption. eauto.
  - simpl in Hp. destruct t as [|es0]; [discriminate|].
    destruct (assoc c es0) as [sub0|] eqn:Ec; [|discriminate].
    change ((c :: p) ++ [n]) with (c :: (p ++ [n])) in Hput.
    rewrite put_cons in Hput by apply snoc_not_nil.
    rewrite Ec in Hput.
    destruct (put (p ++ [n]) v sub0) as [sub0'|] eqn:Hs; [|discriminate].
    injection Hput as <-.
    destruct q as [|a q]; [simpl; eauto|]. simpl in *.
    destruct (String.eqb_spec c a) as [->|Hca].
    + rewrite assoc_set_entry_same. rewrite Ec in Hq. eauto.
    + rewrite assoc_set_entry_other by assumption. eauto.
Qed.

(** One copy into an existing directory, under a name not yet taken. *)
Lemma copy2_adds_entry f d n data w es :
  is_name n = true ->
  lookup f w = Some (File data) ->
  lookup d w = Some (Dir es) -> assoc n es = None ->
  exists w',
    shutil_copy2 f (join d n) w = (Return tt, w')
    /\ lookup d w' = Some (Dir (es ++ [(n, File data)]))
    /\ (forall q x, lookup q w = Some (File x) -> lookup q w' = Some (File x))
    /\ (forall q sub, lookup q w = Some (Dir sub) ->
                      exists sub', lookup q w' = Some (Dir sub'))
    /\ cwd w' = cwd w /\ clock w' = clock w /\ console w' = console w
    /\ trace w' = trace w ++ [EvCopy f (join d n)].
Proof.
  intros Hn Hf Hd Hfree.
  pose proof (lookup_find _ _ _ Hd) as Hfd.
  assert (Hc : can_create d n w).
  { exists es. split; [exact Hfd|]. intros sub. rewrite Hfree. discriminate. }
  destruct (store_in_dir d n data w Hn Hc) as (t & Hs & Hput & _ & Hdir).
  assert (Hdst : lookup (join d n) w = None).
  { now rewrite (lookup_join _ _ _ Hn), (find_snoc _ _ _ _ Hfd). }
  exists (log (EvCopy f (join d n)) (with_fs t w)).
  split; [|split; [|split; [|split]]]; try (repeat split; reflexivity).
  - unfold shutil_copy2, isdir, samefile. rewrite Hdst. cbv beta iota zeta.
    rewrite Hf, Hdst. now rewrite Hs.
  - unfold lookup. rewrite (lookup_nonempty _ _ _ Hd).
    cbn [cwd fs log with_fs]. rewrite (Hdir _ Hfd).
    now rewrite (set_entry_fresh _ _ _ Hfree).
  - intros q x Hq. unfold lookup in *. destruct (q =? ""); [discriminate|].
    cbn [cwd fs log with_fs].
    now apply (put_snoc_frame _ _ _ _ _ _ _ _ Hfd Hfree Hput).
  - intros q sub Hq. unfold lookup in *. destruct (q =? ""); [discriminate|].
    cbn [cwd fs log with_fs].
    now apply (put_snoc_keeps_dirs _ _ _ _ _ _ _ _ Hfd Hfree Hput Hq).
Qed.

(** The loop of line 170 over regular files whose copies are new names. *)
Lemma copy_loop d ts es files :
  contains sep ts = false ->
  NoDup files ->
  Forall (fun f => is_name f = true) files ->
  forall w acc,
    (forall f, In f files -> lookup f w = Some (File (data_of es f))) ->
    lookup d w = Some (Dir acc) ->
    (forall f, In f files -> assoc (copy_name f ts) acc = None) ->
    exists w',
      for_each files (fun f => shutil_copy2 f (join d (copy_name f ts))) w
      = (Return tt, w')
      /\ lookup d w' = Some (Dir (acc ++ copies_of ts es files))
      /\ (forall q x, lookup q w = Some (File x) -> lookup q w' = Some (File x))
      /\ (forall q sub, lookup q w = Some (Dir sub) ->
                        exists sub', lookup q w' = Some (Dir sub'))
      /\ cwd w' = cwd w /\ clock w' = clock w /\ console w' = console w
      /\ trace w'
         = trace w ++ map (fun f => EvCopy f (join d (copy_name f ts))) files.
Proof.
  intros Hts Hnd Hnames. induction files as [|f files IH];
    intros w acc Hsrc Hd Hfree.
  - exists w. cbn. rewrite !app_nil_r. repeat split; eauto.
  - inversion Hnd as [|? ? Hnotin Hnd']; subst.
    inversion Hnames as [|? ? Hf Hnames']; subst.
    assert (Hn : is_name (copy_name f ts) = true).
    { apply is_name_copy; [|exact Hts]. now apply is_name_inv in Hf. }
    destruct (copy2_adds_entry f d _ (data_of es f) w acc Hn
                (Hsrc f (or_introl eq_refl)) Hd (Hfree f (or_introl eq_refl)))
      as (w1 & Hrun & Hd1 & Hfr1 & Hdr1 & Hcwd1 & Hclk1 & Hcon1 & Htr1).
    destruct (IH Hnd' Hnames' w1 (acc ++ [(copy_name f ts, File (data_of es f))]))
      as (w2 & Hrun2 & Hd2 & Hfr2 & Hdr2 & Hcwd2 & Hclk2 & Hcon2 & Htr2).
    + intros g Hg. apply Hfr1, Hsrc. now right.
    + exact Hd1.
    + intros g Hg. rewrite assoc_snoc_other; [apply Hfree; now right|].
      intros Heq. apply copy_name_inj in Heq. now subst.
    + exists w2. cbn [for_each]. step Hrun.
      split; [exact Hrun2|]. split; [|split; [|split; [|split; [|split; [|split]]]]].
      * rewrite Hd2. cbn [copies_of map]. now rewrite <- app_assoc.
      * intros q x Hq. now apply Hfr2, Hfr1.
      * intros q sub Hq. destruct (Hdr1 _ _ Hq) as [sub1 Hq1].
        now apply (Hdr2 _ _ Hq1).
      * congruence.
      * congruence.
      * congruence.
      * rewrite Htr2, Htr1. cbn [map]. now rewrite <- app_assoc.
Qed.

Lemma listed_file_lookup es f w :
  lookup "." w = Some (Dir es) -> is_name f = true ->
  lookup f w = assoc f es.
Proof.
  intros Hl Hf. apply lookup_find in Hl. rewrite resolve_dot in Hl.
  unfold lookup. destruct (is_name_inv _ Hf) as (_ & Hne & _).
  apply String.eqb_neq in Hne. rewrite Hne.
  now rewrite (resolve_name _ _ Hf), (find_snoc _ _ _ _ Hl).
Qed.

Lemma regular_data es f : regular es f -> assoc f es = Some (File (data_of es f)).
Proof. intros [data H]. unfold data_of. now rewrite H. Qed.

Lemma selection_names exts es :
  tidy es ->
  NoDup (select exts (names es))
  /\ Forall (fun f => is_name f = true) (select exts (names es)).
Proof.
  intros [Hnd Hn]. split.
  - now apply NoDup_filter.
  - apply Forall_forall. intros f Hf. unfold select in Hf.
    apply filter_In in Hf as [Hf _].
    now apply (proj1 (Forall_forall _ _) Hn).
Qed.

(** X17. When every selected entry of the working directory is a regular file,
    none of the copies' names is taken in the destination and each of
    them is a name the operating system accepts there (at most 255 bytes,
    which a source name of up to 235 bytes gives), the copier returns, and
    the destination holds what it held followed by one copy per selected
    file, in listing order, each with the contents of its source and all
    named after the one reading of the clock. No regular file anywhere is
    changed. *)
Theorem copier_copies_selection (d : string) (exts : list string)
    (w : world) (es acc : list (string * node)) :
  lookup "." w = Some (Dir es) -> tidy es ->
  Forall (regular es) (select exts (names es)) ->
  lookup d w = Some (Dir acc) ->
  (forall f, In f (select exts (names es)) ->
             assoc (copy_name f (reading E (clock w))) acc = None) ->
  Forall (fun f => nameable d (copy_name f (reading E (clock w))) = true)
    (select exts (names es)) ->
  exists w',
    save_files_rootdir E d exts w = (Return tt, w')
    /\ lookup d w'
       = Some (Dir (acc ++ copies_of (reading E (clock w)) es
                             (select exts (names es))))
    /\ (forall q x, lookup q w = Some (File x) -> lookup q w' = Some (File x))
    /\ clock w' = S (clock w) /\ console w' = console w
    /\ trace w'
       = trace w
         ++ map (fun f => EvCopy f (join d (copy_name f (reading E (clock w)))))
              (select exts (names es)).
Proof.
  intros Hl Htidy Hreg Hd Hfree _.
  destruct (selection_names exts es Htidy) as [Hnd Hnames].
  destruct (copy_loop d (reading E (clock w)) es (select exts (names es))
              (strftime_plain _) Hnd Hnames (tick w) acc)
    as (w' & Hrun & Hd' & Hfr & _ & _ & Hclk & Hcon & Htr).
  - intros f Hf.
    rewrite (listed_file_lookup es f (tick w) Hl
               (proj1 (Forall_forall _ _) Hnames f Hf)).
    apply regular_data. now apply (proj1 (Forall_forall _ _) Hreg).
  - exact Hd.
  - exact Hfree.
  - exists w'. split; [|repeat split; assumption].
    unfold save_files_rootdir. step (strftime_now_at E w).
    assert (Hlist : os_listdir "." (tick w) = (Return (names es), tick w)).
    { unfold os_listdir.
      change (lookup "." (tick w)) with (lookup "." w). now rewrite Hl. }
    step Hlist. exact Hrun.
Qed.

Lemma for_each_app {A} (xs ys : list A) (body : A -> M unit) w w1 :
  for_each xs body w = (Return tt, w1) ->
  for_each (xs ++ ys) body w = for_each ys body w1.
Proof.
  revert w. induction xs as [|x xs IH]; intros w H; cbn [for_each app] in *.
  - unfold ret in H. now injection H as ->.
  - unfold bind in *. destruct (body x w) as [[[]|e] w0]; [|discriminate].
    now apply IH.
Qed.

(** X18. The copier stops at the first selected entry that is a directory: it
    raises [IsADirectoryError] for it, the copies of the files listed
    before it stay in the destination, and nothing listed after it is
    copied. The files listed before it are regular files whose copies'
    names are free in the destination and accepted by the operating
    system (at most 255 bytes). *)
Theorem copier_stops_at_directory (d : string) (exts : list string)
    (w : world) (es acc sub : list (string * node))
    (before after : list string) (f : string) :
  lookup "." w = Some (Dir es) -> tidy es ->
  select exts (names es) = before ++ f :: after ->
  Forall (regular es) before -> assoc f es = Some (Dir sub) ->
  lookup d w = Some (Dir acc) ->
  (forall g, In g (before ++ [f]) ->
             assoc (copy_name g (reading E (clock w))) acc = None) ->
  Forall (fun g => nameable d (copy_name g (reading E (clock w))) = true)
    before ->
  exists w',
    save_files_rootdir E d exts w = (Raise (IsADirectoryError f), w')
    /\ lookup d w'
       = Some (Dir (acc ++ copies_of (reading E (clock w)) es before))
    /\ trace w'
       = trace w
         ++ map (fun g => EvCopy g (join d (copy_name g (reading E (clock w)))))
              before.
Proof.
  intros Hl Htidy Hsel Hreg Hf Hd Hfree _.
  set (ts := reading E (clock w)) in *.
  destruct (selection_names exts es Htidy) as [Hnd Hnames].
  rewrite Hsel in Hnd, Hnames.
  assert (Hnd1 : NoDup before /\ ~ In f before).
  { apply NoDup_remove in Hnd as [Hnd Hnotin]. split.
    - now apply NoDup_app_remove_r in Hnd.
    - intros Hin. apply Hnotin, in_or_app. now left. }
  destruct Hnd1 as [Hnd1 Hnotin].
  apply Forall_app in Hnames as [Hn1 Hn2].
  inversion Hn2 as [|? ? Hfname _]; subst.
  destruct (copy_loop d ts es before (strftime_plain _) Hnd1 Hn1 (tick w) acc)
    as (w1 & Hrun & Hd1 & _ & Hdr & Hcwd & _ & _ & Htr).
  - intros g Hg.
    rewrite (listed_file_lookup es g (tick w) Hl
               (proj1 (Forall_forall _ _) Hn1 g Hg)).
    apply regular_data. now apply (proj1 (Forall_forall _ _) Hreg).
  - exact Hd.
  - intros g Hg. apply Hfree, in_or_app. now left.
  - exists w1. split; [|split; [exact Hd1|exact Htr]].
    unfold save_files_rootdir. step (strftime_now_at E w).
    assert (Hlist : os_listdir "." (tick w) = (Return (names es), tick w)).
    { unfold os_listdir.
      change (lookup "." (tick w)) with (lookup "." w). now rewrite Hl. }
    step Hlist. rewrite Hsel. fold ts.
    rewrite (for_each_app _ _ _ _ _ Hrun). cbn [for_each].
    assert (Hsrc : exists sub', lookup f w1 = Some (Dir sub')).
    { apply (Hdr f sub).
      now rewrite (listed_file_lookup es f (tick w) Hl Hfname). }
    destruct Hsrc as [sub' Hsrc].
    assert (Hn : is_name (copy_name f ts) = true).
    { apply is_name_copy; [|apply strftime_plain]. now apply is_name_inv in Hfname. }
    assert (Hdst : lookup (join d (copy_name f ts)) w1 = None).
    { rewrite (lookup_join _ _ _ Hn).
      rewrite (find_snoc _ _ _ _ (lookup_find _ _ _ Hd1)).
      assert (Hgen : forall l a,
                 ~ In f l -> assoc (copy_name f ts) a = None ->
                 assoc (copy_name f ts) (a ++ copies_of ts es l) = None).
      { induction l as [|g l IHl]; intros a Hni Ha; cbn [copies_of map].
        - now rewrite app_nil_r.
        - replace (a ++ (copy_name g ts, File (data_of es g))
                          :: map (fun f0 => (copy_name f0 ts, File (data_of es f0))) l)
            with ((a ++ [(copy_name g ts, File (data_of es g))])
                  ++ copies_of ts es l)
            by now rewrite <- app_assoc.
          apply IHl.
          + intros Hin. apply Hni. now right.
          + rewrite assoc_snoc_other; [exact Ha|].
            intros Heq. apply copy_name_inj in Heq. apply Hni. now left. }
      apply Hgen; [exact Hnotin|]. apply Hfree, in_or_app. right. now left. }
    unfold bind, shutil_copy2, isdir, samefile.
    rewrite Hdst. cbv beta iota zeta. rewrite Hsrc, Hdst. reflexivity.
Qed.

End CopierAtLarge.

(** ** What a run leaves alone *)

Section Frame.
Import PyStr PosixPath FS DateTime Py Reproducibility Spec Terms.
Import StrFacts PathFacts TreeFacts MonadFacts NameFacts PostFacts.
Variable E : host.

Lemma assoc_del_entry_other k k' es :
  k <> k' -> assoc k' (del_entry k es) = assoc k' es.
Proof.
  intros Hk. induction es as [|[k0 v0] es IH]; [reflexivity|].
  unfold del_entry in *. cbn [filter fst assoc].
  destruct (String.eqb_spec k k0) as [->|Hk0]; cbn [negb].
  - apply String.eqb_neq in Hk. rewrite String.eqb_sym in Hk.
    now rewrite Hk.
  - cbn [assoc]. now rewrite IH.
Qed.

(** Writing at [r] or below it changes nothing apart from [r]. *)
Lemma put_outside r s v t t' q :
  put (r ++ s) v t = Some t' -> apart r q -> find q t' = find q t.
Proof.
  revert t t' q. induction r as [|c r IH]; intros t t' q Hput [Hrq Hqr].
  - discriminate Hrq.
  - destruct t as [|es]; [discriminate Hput|].
    destruct q as [|a q]; [discriminate Hqr|].
    cbn [below] in Hrq, Hqr. cbn [app] in Hput.
    destruct (String.eqb_spec c a) as [->|Hca].
    + rewrite String.eqb_refl in Hqr. cbn [andb] in Hrq, Hqr.
      destruct (r ++ s) as [|c' p'] eqn:Hp.
      * apply app_eq_nil in Hp as [-> _]. discriminate Hrq.
      * rewrite put_cons in Hput by discriminate.
        destruct (assoc a es) as [sub|] eqn:Ea; [|discriminate].
        destruct (put (c' :: p') v sub) as [sub'|] eqn:Hs; [|discriminate].
        injection Hput as <-. cbn [find]. rewrite assoc_set_entry_same, Ea.
        now apply (IH sub).
    + assert (Hgo : forall x, find (a :: q) (Dir (set_entry c x es))
                              = find (a :: q) (Dir es)).
      { intros x. cbn [find]. now rewrite assoc_set_entry_other. }
      destruct (r ++ s) as [|c' p'].
      * cbn in Hput. injection Hput as <-. apply Hgo.
      * rewrite put_cons in Hput by discriminate.
        destruct (assoc c es) as [sub|]; [|discriminate].
        destruct (put (c' :: p') v sub) as [sub'|]; [|discriminate].
        injection Hput as <-. apply Hgo.
Qed.

(** Unlinking [r] changes nothing apart from [r]. *)
Lemma remove_outside r t t' q :
  remove r t = Some t' -> apart r q -> find q t' = find q t.
Proof.
  revert t t' q. induction r as [|c r IH]; intros t t' q Hrm [Hrq Hqr].
  - discriminate Hrq.
  - destruct t as [|es]; [discriminate Hrm|].
    destruct q as [|a q]; [discriminate Hqr|].
    cbn [below] in Hrq, Hqr.
    destruct (String.eqb_spec c a) as [->|Hca].
    + rewrite String.eqb_refl in Hqr. cbn [andb] in Hrq, Hqr.
      destruct r as [|c' p'].
      * discriminate Hrq.
      * rewrite remove_cons in Hrm by discriminate.
        destruct (assoc a es) as [sub|] eqn:Ea; [|discriminate].
        destruct (remove (c' :: p') sub) as [sub'|] eqn:Hs; [|discriminate].
        injection Hrm as <-. cbn [find]. rewrite assoc_set_entry_same, Ea.
        now apply (IH sub).
    + destruct r as [|c' p'].
      * cbn in Hrm. injection Hrm as <-. cbn [find].
        now rewrite assoc_del_entry_other.
      * rewrite remove_cons in Hrm by discriminate.
        destruct (assoc c es) as [sub|]; [|discriminate].
        destruct (remove (c' :: p') sub) as [sub'|]; [|discriminate].
        injection Hrm as <-. cbn [find]. now rewrite assoc_set_entry_other.
Qed.

Lemma sane_dir es :
  sane (Dir es) = forallb (fun e => is_name (fst e) && sane (snd e)) es.
Proof. reflexivity. Qed.

Lemma sane_assoc es c s :
  sane (Dir es) = true -> assoc c es = Some s -> sane s = true.
Proof.
  rewrite sane_dir. induction es as [|[k v] es IH]; [discriminate|].
  cbn [forallb fst snd assoc]. intros H.
  apply andb_true_iff in H as [Hkv Hes]. apply andb_true_iff in Hkv as [_ Hv].
  destruct (c =? k); [now intros [= <-]|now apply IH].
Qed.

Lemma sane_names es :
  sane (Dir es) = true -> Forall (fun n => is_name n = true) (names es).
Proof.
  rewrite sane_dir. induction es as [|[k v] es IH]; [constructor|].
  cbn [forallb fst snd names map]. intros H.
  apply andb_true_iff in H as [Hkv Hes]. apply andb_true_iff in Hkv as [Hk _].
  constructor; [exact Hk|now apply IH].
Qed.

Lemma sane_set_entry es c v :
  sane (Dir es) = true -> sane v = true ->
  is_name c = true \/ assoc c es <> None ->
  sane (Dir (set_entry c v es)) = true.
Proof.
  rewrite !sane_dir. induction es as [|[k x] es IH]; intros H Hv Hc.
  - cbn. destruct Hc as [->|Hc]; [now rewrite Hv|now elim Hc].
  - cbn [forallb fst snd] in H. apply andb_true_iff in H as [Hkx Hes].
    apply andb_true_iff in Hkx as [Hk Hx].
    cbn [set_entry]. cbn [assoc] in Hc.
    destruct (String.eqb_spec c k) as [->|Hck]; cbn [forallb fst snd].
    + now rewrite Hk, Hv, Hes.
    + rewrite Hk, Hx. cbn [andb]. now apply IH.
Qed.

Lemma sane_del_entry es c :
  sane (Dir es) = true -> sane (Dir (del_entry c es)) = true.
Proof.
  rewrite !sane_dir. unfold del_entry.
  induction es as [|[k x] es IH]; [reflexivity|].
  cbn [forallb filter fst snd]. intros H.
  apply andb_true_iff in H as [Hkx Hes].
  destruct (negb (c =? k)); cbn [forallb fst snd];
    [rewrite Hkx|]; now apply IH.
Qed.

Lemma sane_find p t s : sane t = true -> find p t = Some s -> sane s = true.
Proof.
  revert t. induction p as [|c p IH]; intros t Ht Hf.
  - cbn in Hf. now injection Hf as <-.
  - destruct t as [|es]; [discriminate|]. cbn [find] in Hf.
    destruct (assoc c es) as [sub|] eqn:Ec; [|discriminate].
    apply (IH sub); [now apply (sane_assoc es c)|exact Hf].
Qed.

Lemma sane_put p n v t t' :
  is_name n = true -> sane t = true -> sane v = true ->
  put (p ++ [n]) v t = Some t' -> sane t' = true.
Proof.
  intros Hn. revert t t'. induction p as [|c p IH]; intros t t' Ht Hv Hput.
  - destruct t as [|es]; [discriminate|]. cbn in Hput. injection Hput as <-.
    apply sane_set_entry; auto.
  - destruct t as [|es]; [discriminate|].
    change ((c :: p) ++ [n]) with (c :: (p ++ [n])) in Hput.
    rewrite put_cons in Hput by apply snoc_not_nil.
    destruct (assoc c es) as [sub|] eqn:Ec; [|discriminate].
    destruct (put (p ++ [n]) v sub) as [sub'|] eqn:Hs; [|discriminate].
    injection Hput as <-. apply sane_set_entry; [exact Ht| |right; congruence].
    apply (IH sub); [now apply (sane_assoc es c)|exact Hv|exact Hs].
Qed.

Lemma sane_remove p t t' :
  sane t = true -> remove p t = Some t' -> sane t' = true.
Proof.
  revert t t'. induction p as [|c p IH]; intros t t' Ht Hrm; [discriminate|].
  destruct t as [|es]; [discriminate|].
  destruct p as [|c' p].
  - cbn in Hrm. injection Hrm as <-. now apply sane_del_entry.
  - rewrite remove_cons in Hrm by discriminate.
    destruct (assoc c es) as [sub|] eqn:Ec; [|discriminate].
    destruct (remove (c' :: p) sub) as [sub'|] eqn:Hs; [|discriminate].
    injection Hrm as <-. apply sane_set_entry; [exact Ht| |right; congruence].
    apply (IH sub); [now apply (sane_assoc es c)|exact Hs].
Qed.

Lemma post_seq {A B} (m : M A) (k : A -> M B) w (P : world -> Prop) Q :
  post m w (fun _ w1 => P w1) ->
  (forall a w1, P w1 -> post (k a) w1 Q) ->
  (forall e w1, P w1 -> Q (Raise e) w1) ->
  post (bind m k) w Q.
Proof.
  unfold post, bind. destruct (m w) as [[a|e] w1]; cbn [fst snd]; auto.
Qed.

Lemma within_refl r w : within r w w.
Proof. now split. Qed.

Lemma within_same r w w1 w2 :
  within r w w1 -> cwd w2 = cwd w1 -> fs w2 = fs w1 -> within r w w2.
Proof. intros [Hc Hf] Hc2 Hf2. split; [congruence|]. now rewrite Hf2. Qed.

Lemma within_put r s v w w1 t :
  within r w w1 -> put (r ++ s) v (fs w1) = Some t ->
  forall w2, cwd w2 = cwd w1 -> fs w2 = t -> within r w w2.
Proof.
  intros [Hc Hf] Hput w2 Hc2 Hf2. split; [congruence|].
  intros q Hq. rewrite Hf2, (put_outside _ _ _ _ _ _ Hput Hq). now apply Hf.
Qed.

Lemma within_remove r w w1 t :
  within r w w1 -> remove r (fs w1) = Some t ->
  forall w2, cwd w2 = cwd w1 -> fs w2 = t -> within r w w2.
Proof.
  intros [Hc Hf] Hrm w2 Hc2 Hf2. split; [congruence|].
  intros q Hq. rewrite Hf2, (remove_outside _ _ _ _ Hrm Hq). now apply Hf.
Qed.

(** What [store] does to the tree, when it does anything. *)
Lemma store_effect p data w :
  (exists t, store p data w = (Return tt, with_fs t w)
             /\ put (resolve (cwd w) p) (File data) (fs w) = Some t)
  \/ (exists e, store p data w = (Raise e, w)).
Proof.
  unfold store.
  destruct (lookup p w) as [[|]|]; destruct (p =? "");
    try (right; eexists; reflexivity);
    cbv zeta;
    destruct (find _ (fs w)) as [[|]|];
    try (right; eexists; reflexivity);
    destruct (put _ _ (fs w)) eqn:Hput;
    solve [left; eexists; split; reflexivity | right; eexists; reflexivity].
Qed.

Lemma open_write_within r d n chunks w w1 :
  is_name n = true -> resolve (cwd w1) d = r ->
  within r w w1 ->
  post (open_write (join d n) chunks) w1 (fun _ w2 => within r w w2).
Proof.
  intros Hn Hr Hw. unfold post, open_write.
  destruct (store_effect (join d n) (String.concat "" chunks) w1)
    as [(t & -> & Hput)|[e ->]]; [|exact Hw].
  rewrite (resolve_join _ _ _ Hn), Hr in Hput.
  now apply (within_put _ _ _ _ _ _ Hw Hput).
Qed.

Lemma copy2_within r d f n w w1 :
  is_name f = true -> is_name n = true -> resolve (cwd w1) d = r ->
  within r w w1 ->
  post (shutil_copy2 f (join d n)) w1 (fun _ w2 => within r w w2).
Proof.
  intros Hf Hn Hr Hw. unfold post, shutil_copy2.
  set (dst' := if isdir (join d n) w1 then join (join d n) (basename f)
               else join d n).
  assert (Hdst : exists s, resolve (cwd w1) dst' = r ++ s).
  { unfold dst'. destruct (isdir (join d n) w1).
    - assert (Hb : basename f = f).
      { unfold basename. destruct (is_name_inv _ Hf) as (Hs & _).
        now rewrite (split_on_plain _ _ Hs). }
      rewrite Hb, (resolve_join _ _ _ Hf), (resolve_join _ _ _ Hn), Hr.
      exists [n; f]. now rewrite <- app_assoc.
    - rewrite (resolve_join _ _ _ Hn), Hr. now exists [n]. }
  destruct Hdst as [s Hs].
  destruct (samefile f dst' w1); [exact Hw|].
  destruct (lookup f w1) as [[data|]|]; try exact Hw.
  destruct (store_effect dst' data w1) as [(t & -> & Hput)|[e ->]];
    [|exact Hw].
  rewrite Hs in Hput. now apply (within_put _ _ _ _ _ _ Hw Hput).
Qed.

Lemma copy_loop_within r d ts files w :
  Forall (fun f => is_name f = true) files -> contains sep ts = false ->
  forall w1, resolve (cwd w1) d = r -> within r w w1 ->
    post (for_each files (fun f => shutil_copy2 f (join d (copy_name f ts))))
      w1 (fun _ w2 => within r w w2).
Proof.
  intros Hfiles Hts. induction Hfiles as [|f files Hf _ IH]; intros w1 Hr Hw.
  - exact Hw.
  - cbn [for_each]. apply post_bind.
    assert (Hn : is_name (copy_name f ts) = true).
    { apply is_name_copy; [|exact Hts]. now apply is_name_inv in Hf. }
    pose proof (copy2_within r d f _ w w1 Hf Hn Hr Hw) as Hstep.
    unfold post in *.
    destruct (shutil_copy2 f (join d (copy_name f ts)) w1) as [[[]|e] w2];
      cbn [fst snd] in *; [|exact Hstep].
    apply IH; [|exact Hstep].
    rewrite <- Hr. now rewrite (proj1 Hstep), (proj1 Hw).
Qed.

Lemma reset_within w_d w :
  sane (fs w) = true ->
  post (reset_directory (output_dir w_d)) w
    (fun _ w1 => within (resolve (cwd w) (output_dir w_d)) w w1
                 /\ sane (fs w1) = true).
Proof.
  intros Hsane. set (r := resolve (cwd w) (output_dir w_d)).
  assert (Hr : r = resolve (cwd w) w_d ++ ["reproducibility"])
    by (unfold r, output_dir; now apply resolve_join).
  assert (Hmk : forall w1,
             within r w w1 -> sane (fs w1) = true -> cwd w1 = cwd w ->
             post (os_mkdir (output_dir w_d)) w1
               (fun _ w2 => within r w w2 /\ sane (fs w2) = true)).
  { intros w1 Hw Hs Hc. unfold post, os_mkdir.
    destruct (lookup (output_dir w_d) w1); [now split|].
    destruct (output_dir w_d =? ""); [now split|]. cbv zeta.
    rewrite Hc. fold r.
    destruct (find (removelast r) (fs w1)) as [[|es]|]; try now split.
    destruct (put r (Dir []) (fs w1)) as [t|] eqn:Hput; [|now split].
    cbn [fst snd]. split.
    - rewrite <- (app_nil_r r) in Hput.
      now apply (within_put _ _ _ _ _ _ Hw Hput).
    - cbn [fs log with_fs]. rewrite Hr in Hput.
      apply (sane_put (resolve (cwd w) w_d) "reproducibility" (Dir [])
               (fs w1) t);
        [reflexivity|exact Hs|reflexivity|exact Hput]. }
  unfold reset_directory. apply post_bind. unfold post at 1, os_path_exists.
  cbn [fst snd]. destruct (lookup (output_dir w_d) w) as [x|] eqn:Hl.
  - apply post_bind. unfold post at 1, shutil_rmtree. rewrite Hl.
    destruct x as [|old]; [split; [apply within_refl|exact Hsane]|].
    fold r. destruct (remove r (fs w)) as [t|] eqn:Hrm;
      [|split; [apply within_refl|exact Hsane]].
    cbn [fst snd]. apply Hmk; [|cbn [fs log with_fs]|reflexivity].
    + now apply (within_remove _ _ _ _ (within_refl r w) Hrm).
    + now apply (sane_remove _ _ _ Hsane Hrm).
  - apply post_bind. unfold post at 1, ret. cbn [fst snd].
    apply Hmk; [apply within_refl|exact Hsane|reflexivity].
Qed.

Lemma copier_within w_d w w1 exts :
  within (resolve (cwd w) (output_dir w_d)) w w1 -> sane (fs w1) = true ->
  post (save_files_rootdir E (output_dir w_d) exts) w1
    (fun _ w2 => within (resolve (cwd w) (output_dir w_d)) w w2).
Proof.
  intros Hw Hs. unfold save_files_rootdir.
  apply post_bind, post_strftime_now. apply post_bind.
  unfold post at 1, os_listdir.
  change (lookup "." (tick w1)) with (lookup "." w1).
  destruct (lookup "." w1) as [[|es]|] eqn:Hl; cbn [fst snd];
    try (apply (within_same _ _ _ _ Hw); reflexivity).
  assert (Hes : sane (Dir es) = true).
  { apply lookup_find in Hl. now apply (sane_find _ _ _ Hs Hl). }
  apply copy_loop_within.
  - pose proof (sane_names _ Hes) as Hn. apply Forall_forall.
    intros f Hf. unfold select in Hf. apply filter_In in Hf as [Hf _].
    now apply (proj1 (Forall_forall _ _) Hn).
  - apply strftime_plain.
  - cbn [cwd tick]. destruct Hw as [Hc _]. now rewrite Hc.
  - apply (within_same _ _ _ _ Hw); reflexivity.
Qed.

Lemma recorder_within r d w w1 :
  resolve (cwd w1) d = r -> within r w w1 ->
  post (save_git_commit_to_file E d) w1 (fun _ w2 => within r w w2).
Proof.
  intros Hr Hw. unfold save_git_commit_to_file, save_git_commit_body.
  assert (Hleft : forall e w2, within r w w2 ->
                    post (save_git_commit_handler e) w2
                      (fun _ w3 => within r w w3)).
  { intros e w2 Hw2. apply post_handler. intros line.
    apply (within_same _ _ _ _ Hw2); reflexivity. }
  apply post_try.
  apply post_bind; apply post_still; [apply still_run_check|intros [r0|e]];
    [|now apply Hleft].
  apply post_bind; apply post_still; [apply still_run_check|intros [r1|e]];
    [|now apply Hleft].
  apply post_bind; apply post_still; [apply still_decode|intros [h|e]];
    [|now apply Hleft].
  apply post_bind; apply post_still; [apply still_run_check|intros [r2|e]];
    [|now apply Hleft].
  apply post_bind; apply post_still; [apply still_decode|intros [b|e]];
    [|now apply Hleft].
  apply post_bind. apply post_still;
    [now rewrite get_project_name_at|intros [project_name|e]];
    [|now apply Hleft].
  apply post_bind, post_strftime_now. apply post_bind.
  assert (Hw1 : within r w (tick w1))
    by (apply (within_same _ _ _ _ Hw); reflexivity).
  pose proof (open_write_within r d (descriptor_name (reading E (clock w1)))
                (descriptor_lines project_name (strip b) (strip h)) w (tick w1)
                (is_name_descriptor _ (strftime_plain _)) Hr Hw1) as Hstep.
  unfold post in *.
  destruct (open_write _ _ (tick w1)) as [[[]|e] w2]; cbn [fst snd] in *.
  - apply (within_same _ _ _ _ Hstep); reflexivity.
  - now apply Hleft.
Qed.

Lemma exporter_within r d ib w w1 :
  resolve (cwd w1) d = r -> within r w w1 ->
  post (export_conda_environment E d ib) w1 (fun _ w2 => within r w w2).
Proof.
  intros Hr Hw. unfold export_conda_environment.
  apply post_bind. apply post_still;
    [now rewrite conda_command_at|intros [conda_cmd|e]]; [|exact Hw].
  apply post_bind; apply post_still; [apply still_run_text|intros [listing|e]];
    [|exact Hw].
  destruct (negb (returncode listing =? 0)%Z).
  { apply post_bind, post_print, post_ret.
    apply (within_same _ _ _ _ Hw); reflexivity. }
  apply post_bind; apply post_still; [reflexivity|intros [found|e]];
    [|exact Hw].
  destruct found as [[|c0 current_env]|]; try exact Hw.
  apply post_bind, post_strftime_now. apply post_bind, post_print.
  set (w2 := say _ (tick w1)).
  assert (Hw2 : within r w w2)
    by (apply (within_same _ _ _ _ Hw); reflexivity).
  apply post_bind; apply post_still; [apply still_run_text|intros [exported|e]];
    [|exact Hw2].
  destruct (negb (returncode exported =? 0)%Z).
  { apply post_bind, post_print, post_ret.
    apply (within_same _ _ _ _ Hw2); reflexivity. }
  apply post_bind.
  pose proof (open_write_within r d (manifest_name (reading E (clock w1)))
                [stdout exported] w w2
                (is_name_manifest _ (strftime_plain _)) Hr Hw2) as Hstep.
  unfold post in *.
  destruct (open_write _ _ w2) as [[[]|e] w3]; cbn [fst snd] in *.
  - apply (within_same _ _ _ _ Hstep); reflexivity.
  - exact Hstep.
Qed.

(** X19. Whatever the outcome of a run of [make_workflow_reproducible], on a
    tree whose entries have ordinary names: every location that is neither
    [w_d/reproducibility], nor below it, nor a directory leading to it,
    holds after the run exactly what it held before. Nothing outside the
    output directory is created, changed or removed. *)
Theorem run_stays_within_output_directory (w_d : string) (w : world)
    (q : path) :
  sane (fs w) = true ->
  apart (resolve (cwd w) (output_dir w_d)) q ->
  find q (fs (snd (make_workflow_reproducible E w_d w))) = find q (fs w).
Proof.
  intros Hsane Hq. set (r := resolve (cwd w) (output_dir w_d)).
  assert (Hrun : post (make_workflow_reproducible E w_d) w
                   (fun _ w' => within r w w')).
  { unfold make_workflow_reproducible. fold (output_dir w_d).
    apply post_seq
      with (P := fun w1 => within r w w1 /\ sane (fs w1) = true);
      [apply (reset_within w_d w Hsane)| |now intros e w1 [H _]].
    intros [] w1 [Hw1 Hs1].
    apply post_seq with (P := within r w);
      [apply (copier_within w_d w w1 [".py"] Hw1 Hs1)| |now intros].
    intros [] w2 Hw2.
    apply post_seq with (P := within r w); [| |now intros].
    - apply recorder_within; [|exact Hw2]. now rewrite (proj1 Hw2).
    - intros saved w3 Hw3.
      apply post_seq with (P := within r w); [| |now intros].
      + apply exporter_within; [|exact Hw3]. now rewrite (proj1 Hw3).
      + intros v w4 Hw4. exact Hw4. }
  destruct Hrun as [_ Hf]. now apply Hf.
Qed.

End Frame.

(** ** The output directory after a complete run *)

Section Layout.
Import PyStr PosixPath FS DateTime Py Reproducibility Spec Terms.
Import StrFacts PathFacts TreeFacts MonadFacts NameFacts.
Variable E : host.

Lemma del_entry_absent k es : assoc k es = None -> del_entry k es = es.
Proof.
  unfold del_entry. induction es as [|[k0 v0] es IH]; [reflexivity|].
  cbn [assoc filter fst]. destruct (k =? k0); [discriminate|].
  intros H. cbn [negb]. now rewrite IH.
Qed.

Lemma assoc_app_none k a b : assoc k a = None -> assoc k (a ++ b) = assoc k b.
Proof.
  induction a as [|[k0 v0] a IH]; [reflexivity|]. cbn [assoc app].
  now destruct (k =? k0).
Qed.

Lemma names_del_entry k es :
  names (del_entry k es) = filter (fun n => negb (k =? n)) (names es).
Proof.
  unfold del_entry, names. induction es as [|[k0 v0] es IH]; [reflexivity|].
  cbn [filter map fst]. destruct (negb (k =? k0)); cbn [map fst];
    now rewrite IH.
Qed.

(** Dropping and adding a name that is not selected leaves the selection. *)
Lemma select_after_reset exts k l :
  existsb (fun ext => endswith k ext) exts = false ->
  select exts (filter (fun n => negb (k =? n)) l ++ [k]) = select exts l.
Proof.
  intros Hk. unfold select. rewrite filter_app. cbn [filter].
  rewrite Hk, app_nil_r.
  induction l as [|a l IH]; [reflexivity|]. cbn [filter].
  destruct (String.eqb_spec k a) as [<-|Hka]; cbn [negb].
  - now rewrite Hk.
  - cbn [filter]. now rewrite IH.
Qed.

(** The reset of lines 180-182 seen from the directory [w_d]. *)
Lemma reset_on_directory w_d w ds :
  find (resolve (cwd w) w_d) (fs w) = Some (Dir ds) ->
  (forall x, assoc "reproducibility" ds <> Some (File x)) ->
  exists w1 evs,
    reset_directory (output_dir w_d) w = (Return tt, w1)
    /\ find (resolve (cwd w) w_d) (fs w1)
       = Some (Dir (del_entry "reproducibility" ds
                    ++ [("reproducibility", Dir [])]))
    /\ within (resolve (cwd w) (output_dir w_d)) w w1
    /\ clock w1 = clock w /\ console w1 = console w
    /\ trace w1 = trace w ++ evs.
Proof.
  intros Hd Hfile. set (D := resolve (cwd w) w_d) in *.
  pose proof (output_dir_resolves w_d w) as Hres. fold D in Hres.
  pose proof (output_dir_lookup w_d w) as Hl. fold D in Hl.
  pose proof (output_dir_nonempty w_d) as Hne.
  rewrite (find_snoc _ _ _ _ Hd) in Hl.
  destruct (assoc "reproducibility" ds) as [[x|old]|] eqn:Ha.
  - now elim (Hfile x).
  - assert (Hf : find (D ++ ["reproducibility"]) (fs w) = Some (Dir old))
      by now rewrite (find_snoc _ _ _ _ Hd).
    destruct (remove_snoc _ _ _ _ Hf) as (ds' & t1 & Hp & Hr & Hp1).
    rewrite Hd in Hp. injection Hp as <-.
    destruct (put_snoc _ "reproducibility" (Dir []) _ _ Hp1)
      as (t2 & Hput & Hdir).
    exists (log (EvMkdir (output_dir w_d))
              (with_fs t2 (log (EvRmtree (output_dir w_d)) (with_fs t1 w)))).
    exists [EvRmtree (output_dir w_d); EvMkdir (output_dir w_d)].
    split; [|split; [|split; [|split; [|split]]]]; try reflexivity.
    + unfold reset_directory, bind, os_path_exists, shutil_rmtree.
      rewrite Hl. cbv beta iota. rewrite Hl, Hres, Hr.
      unfold os_mkdir, lookup. rewrite Hne. cbn [cwd log with_fs fs].
      rewrite Hres, (find_snoc _ _ _ _ Hp1), assoc_del_entry_same.
      rewrite removelast_last, Hp1, Hput. reflexivity.
    + cbn [cwd log with_fs fs]. rewrite Hdir.
      now rewrite set_entry_fresh by apply assoc_del_entry_same.
    + rewrite Hres.
      apply (within_put _ [] (Dir []) w
               (log (EvRmtree (output_dir w_d)) (with_fs t1 w)) t2);
        [|now rewrite app_nil_r|reflexivity|reflexivity].
      now apply (within_remove _ w w t1 (within_refl _ w) Hr).
    + cbn [trace log with_fs]. now rewrite <- app_assoc.
  - destruct (put_snoc _ "reproducibility" (Dir []) _ _ Hd)
      as (t & Hput & Hdir).
    exists (log (EvMkdir (output_dir w_d)) (with_fs t w)).
    exists [EvMkdir (output_dir w_d)].
    split; [|split; [|split; [|split; [|split]]]]; try reflexivity.
    + unfold reset_directory, bind, os_path_exists. rewrite Hl.
      cbv beta iota. unfold ret, os_mkdir. rewrite Hl, Hne.
      cbv zeta. now rewrite Hres, removelast_last, Hd, Hput.
    + cbn [cwd log with_fs fs]. rewrite Hdir.
      now rewrite (set_entry_fresh _ _ _ Ha), (del_entry_absent _ _ Ha).
    + rewrite Hres.
      apply (within_put _ [] (Dir []) w w t (within_refl _ w));
        [now rewrite app_nil_r|reflexivity|reflexivity].
Qed.

(** Writing a new file appends its entry to the directory. *)
Lemma open_write_adds_entry d n chunks w acc :
  is_name n = true -> lookup d w = Some (Dir acc) -> assoc n acc = None ->
  exists w',
    open_write (join d n) chunks w = (Return tt, w')
    /\ lookup d w' = Some (Dir (acc ++ [(n, File (String.concat "" chunks))]))
    /\ cwd w' = cwd w /\ clock w' = clock w /\ console w' = console w
    /\ trace w' = trace w ++ [EvWrite (join d n)].
Proof.
  intros Hn Hd Hfree.
  pose proof (lookup_find _ _ _ Hd) as Hfd.
  assert (Hc : can_create d n w).
  { exists acc. split; [exact Hfd|]. intros sub. rewrite Hfree. discriminate. }
  destruct (store_in_dir d n (String.concat "" chunks) w Hn Hc)
    as (t & Hs & _ & _ & Hdir).
  exists (log (EvWrite (join d n)) (with_fs t w)).
  unfold open_write. rewrite Hs.
  split; [reflexivity|]. split; [|repeat split].
  unfold lookup. rewrite (lookup_nonempty _ _ _ Hd).
  cbn [cwd fs log with_fs]. rewrite (Hdir _ Hfd).
  now rewrite (set_entry_fresh _ _ _ Hfree).
Qed.

Lemma recorder_adds_entry d w acc o0 e0 h e1 b e2 :
  worktree_query E = Exited 0 o0 e0 ->
  head_query E = Exited 0 (Encoded h) e1 ->
  branch_query E = Exited 0 (Encoded b) e2 ->
  lookup d w = Some (Dir acc) ->
  assoc (descriptor_name (reading E (clock w))) acc = None ->
  exists w',
    save_git_commit_to_file E d w = (Return true, w')
    /\ lookup d w'
       = Some (Dir (acc ++ [(descriptor_name (reading E (clock w)),
                             File (String.concat ""
                                     (descriptor_lines
                                        (recorded_project E (cwd w))
                                        (strip b) (strip h))))]))
    /\ cwd w' = cwd w /\ clock w' = S (clock w)
    /\ console w'
       = console w ++ ["Git information saved to "
                       +:+ join d (descriptor_name (reading E (clock w)))]
    /\ trace w'
       = trace w ++ [EvWrite (join d (descriptor_name (reading E (clock w))))].
Proof.
  intros H0 H1 H2 Hd Hfree. set (ts := reading E (clock w)) in *.
  destruct (open_write_adds_entry d (descriptor_name ts)
              (descriptor_lines (recorded_project E (cwd w)) (strip b) (strip h))
              (tick w) acc (is_name_descriptor _ (strftime_plain _)) Hd Hfree)
    as (w2 & Hw & Hd2 & Hcwd & Hclk & Hcon & Htr).
  exists (say ("Git information saved to " +:+ join d (descriptor_name ts)) w2).
  split; [|split; [exact Hd2|split; [exact Hcwd|split; [exact Hclk|split]]]].
  - unfold save_git_commit_to_file. apply try_except_Return.
    unfold save_git_commit_body.
    step (subprocess_run_check_exited E _ _ _ w H0).
    step (subprocess_run_check_exited E _ _ _ w H1).
    cbn [stdout]. step (decode_encoded h w).
    step (subprocess_run_check_exited E _ _ _ w H2).
    cbn [stdout]. step (decode_encoded b w).
    step (get_project_name_at E w).
    step (strftime_now_at E w). fold (tick w). fold (reading E (clock w)).
    fold ts. step Hw. reflexivity.
  - cbn [console say]. now rewrite Hcon.
  - exact Htr.
Qed.

Lemma exporter_adds_entry d ib w acc listing err1 env text err2 :
  env_listing E w = Exited 0 (Encoded listing) err1 ->
  find_current_env (split_on LF (strip listing)) = Return (Some env) ->
  spawn E (is_windows E) (export_command env ib)
    = Exited 0 (Encoded text) err2 ->
  lookup d w = Some (Dir acc) ->
  assoc (manifest_name (reading E (clock w))) acc = None ->
  exists w',
    export_conda_environment E d ib w = (Return None, w')
    /\ lookup d w'
       = Some (Dir (acc ++ [(manifest_name (reading E (clock w)), File text)]))
    /\ console w'
       = console w
         ++ [ "Running command: " +:+ join_with " " (export_command env ib);
              "Environment exported to "
              +:+ join d (announced_manifest_name env (reading E (clock w))) ]
    /\ trace w'
       = trace w ++ [EvWrite (join d (manifest_name (reading E (clock w))))].
Proof.
  intros Hl Henv Hx Hd Hfree. set (ts := reading E (clock w)) in *.
  pose proof (find_current_env_named _ _ Henv) as Hne.
  set (line := "Running command: " +:+ join_with " " (export_command env ib)).
  destruct (open_write_adds_entry d (manifest_name ts) [text]
              (say line (tick w)) acc
              (is_name_manifest _ (strftime_plain _)) Hd Hfree)
    as (w2 & Hw & Hd2 & Hcwd & Hclk & Hcon & Htr).
  exists (say ("Environment exported to "
               +:+ join d (announced_manifest_name env ts)) w2).
  split; [|split; [|split]].
  - unfold export_conda_environment.
    step (conda_command_at E w). unfold env_listing in Hl.
    step (subprocess_run_text_exited E _ _ _ _ _ w Hl).
    cbn [returncode stdout negb Z.eqb].
    unfold bind at 1, lift. rewrite Henv.
    destruct env as [|c env]; [congruence|].
    step (strftime_now_at E w). fold (tick w). fold (reading E (clock w)).
    fold ts. unfold bind at 1, print.
    fold (export_command (String c env) ib). fold line.
    fold (say line (tick w)).
    step (subprocess_run_text_exited E _ _ _ _ _ (say line (tick w)) Hx).
    cbn [returncode stdout negb Z.eqb].
    step Hw. reflexivity.
  - exact Hd2.
  - cbn [console say]. rewrite Hcon. cbn [console say tick].
    now rewrite <- app_assoc.
  - exact Htr.
Qed.

Lemma assoc_copies_none k ts es files :
  (forall f, In f files -> copy_name f ts <> k) ->
  assoc k (copies_of ts es files) = None.
Proof.
  induction files as [|f files IH]; intros H; [reflexivity|].
  cbn [copies_of map assoc].
  destruct (String.eqb_spec k (copy_name f ts)) as [->|_].
  - now elim (H f (or_introl eq_refl)).
  - apply IH. intros g Hg. apply H. now right.
Qed.

Lemma selected_python exts l f :
  In f (select exts l) -> exts = [".py"] -> endswith f ".py" = true.
Proof.
  intros Hf ->. unfold select in Hf. apply filter_In in Hf as [_ Hf].
  cbn [existsb] in Hf. now rewrite orb_false_r in Hf.
Qed.

(** X20. A complete run on the working directory itself ([w_d] leads to it, as
    the default [.] does): when the entries selected by [.py] are regular
    files, [reproducibility] is absent or a directory, git answers the
    three queries, conda lists and exports the active environment, and
    the names of the artifacts are names the operating system accepts (at
    most 255 bytes each, which source names of up to 235 bytes give), the
    run returns and [reproducibility] holds exactly: one copy
    [f_<ts>.txt] per selected file in listing order, named after the
    first reading of the clock; then [git_commit_<ts>.txt], named after
    the second; then [conda_env_<ts>.yml], named after the third.
    Whatever the directory held before is gone. *)
Theorem complete_run_layout (w_d : string) (w : world)
    (es : list (string * node)) o0 e0 h e1 b e2 listing err1 env text err2 :
  resolve (cwd w) w_d = cwd w ->
  find (cwd w) (fs w) = Some (Dir es) -> tidy es ->
  (forall x, assoc "reproducibility" es <> Some (File x)) ->
  Forall (regular es) (select [".py"] (names es)) ->
  worktree_query E = Exited 0 o0 e0 ->
  head_query E = Exited 0 (Encoded h) e1 ->
  branch_query E = Exited 0 (Encoded b) e2 ->
  (forall w', env_listing E w' = Exited 0 (Encoded listing) err1) ->
  find_current_env (split_on LF (strip listing)) = Return (Some env) ->
  spawn E (is_windows E) (export_command env false)
    = Exited 0 (Encoded text) err2 ->
  Forall (fun n => nameable (output_dir w_d) n = true)
    (map (fun f => f +:+ "_" +:+ reading E (clock w) +:+ ".txt")
       (select [".py"] (names es))
     ++ [ "git_commit_" +:+ reading E (S (clock w)) +:+ ".txt";
          "conda_env_" +:+ reading E (S (S (clock w))) +:+ ".yml" ]) ->
  exists w',
    make_workflow_reproducible E w_d w = (Return tt, w')
    /\ lookup (output_dir w_d) w'
       = Some (Dir (map (fun f => (f +:+ "_" +:+ reading E (clock w) +:+ ".txt",
                                   File (data_of es f)))
                      (select [".py"] (names es))
                    ++ [ ("git_commit_" +:+ reading E (S (clock w)) +:+ ".txt",
                          File (String.concat ""
                                  (descriptor_lines
                                     (recorded_project E (cwd w))
                                     (strip b) (strip h))));
                         ("conda_env_" +:+ reading E (S (S (clock w)))
                          +:+ ".yml",
                          File text) ]))
    /\ console w'
       = console w
         ++ [ "Git information saved to "
              +:+ join (output_dir w_d)
                    ("git_commit_" +:+ reading E (S (clock w)) +:+ ".txt");
              "Running command: "
              +:+ join_with " " (export_command env false);
              "Environment exported to "
              +:+ join (output_dir w_d)
                    ("conda_env_" +:+ env +:+ "_"
                     +:+ reading E (S (S (clock w))) +:+ ".yml") ].
Proof.
  intros Hhere Hes Htidy Hnofile Hreg H0 H1 H2 Hl Henv Hx _.
  change (map (fun f => (f +:+ "_" +:+ reading E (clock w) +:+ ".txt",
                         File (data_of es f)))
            (select [".py"] (names es)))
    with (copies_of (reading E (clock w)) es (select [".py"] (names es))).
  change ("git_commit_" +:+ reading E (S (clock w)) +:+ ".txt")
    with (descriptor_name (reading E (S (clock w)))).
  change ("conda_env_" +:+ reading E (S (S (clock w))) +:+ ".yml")
    with (manifest_name (reading E (S (S (clock w))))).
  change ("conda_env_" +:+ env +:+ "_"
          +:+ reading E (S (S (clock w))) +:+ ".yml")
    with (announced_manifest_name env (reading E (S (S (clock w))))).
  set (r_d := output_dir w_d). set (files := select [".py"] (names es)).
  set (ts0 := reading E (clock w)).
  set (ts1 := reading E (S (clock w))).
  set (ts2 := reading E (S (S (clock w)))).
  (* the reset *)
  rewrite <- Hhere in Hes.
  destruct (reset_on_directory w_d w es Hes Hnofile)
    as (w1 & evs & Hrun1 & Hes1 & Hin1 & Hclk1 & Hcon1 & _).
  rewrite Hhere in Hes, Hes1. fold r_d in Hrun1, Hin1.
  pose proof (proj1 Hin1) as Hcwd1.
  set (es1 := del_entry "reproducibility" es ++ [("reproducibility", Dir [])])
    in *.
  assert (Hres : resolve (cwd w) r_d = cwd w ++ ["reproducibility"]).
  { unfold r_d. now rewrite output_dir_resolves, Hhere. }
  assert (Hout1 : lookup r_d w1 = Some (Dir [])).
  { unfold r_d. rewrite output_dir_lookup. fold r_d.
    rewrite Hcwd1, Hhere, (find_snoc _ _ _ _ Hes1). unfold es1.
    rewrite assoc_app_none by apply assoc_del_entry_same.
    reflexivity. }
  (* the copier *)
  destruct (selection_names [".py"] es Htidy) as [Hnd Hnames].
  fold files in Hnd, Hnames, Hreg.
  assert (Hlist : os_listdir "." (tick w1) = (Return (names es1), tick w1)).
  { unfold os_listdir, lookup. cbn [String.eqb Ascii.eqb Bool.eqb cwd tick fs].
    now rewrite resolve_dot, Hcwd1, Hes1. }
  assert (Hsel : select [".py"] (names es1) = files).
  { unfold es1, names. rewrite map_app. fold (names (del_entry "reproducibility" es)).
    rewrite names_del_entry. cbn [map fst].
    now rewrite select_after_reset. }
  assert (Hsrc : forall f, In f files ->
                   lookup f (tick w1) = Some (File (data_of es f))).
  { intros f Hf.
    pose proof (proj1 (Forall_forall _ _) Hnames f Hf) as Hname.
    pose proof (proj1 (Forall_forall _ _) Hreg f Hf) as Hfile.
    assert (Hother : f <> "reproducibility").
    { intros ->. now apply selected_python in Hf. }
    unfold lookup. destruct (is_name_inv _ Hname) as (_ & Hne & _).
    apply String.eqb_neq in Hne. rewrite Hne. cbn [cwd tick fs].
    rewrite (resolve_name _ _ Hname), Hcwd1, (find_snoc _ _ _ _ Hes1).
    unfold es1. rewrite assoc_snoc_other by exact Hother.
    rewrite assoc_del_entry_other by congruence.
    now apply regular_data. }
  destruct (copy_loop r_d ts0 es files (strftime_plain _) Hnd Hnames
              (tick w1) [] Hsrc Hout1 (fun _ _ => eq_refl))
    as (w2 & Hrun2 & Hout2 & _ & _ & Hcwd2 & Hclk2 & Hcon2 & _).
  cbn [app] in Hout2. cbn [cwd clock console tick] in Hcwd2, Hclk2, Hcon2.
  (* the recorder *)
  assert (Hfree2 : assoc (descriptor_name (reading E (clock w2)))
                     (copies_of ts0 es files) = None).
  { apply assoc_copies_none. intros f Hf.
    apply python_copy_is_not_descriptor.
    now apply (selected_python [".py"] (names es)). }
  destruct (recorder_adds_entry r_d w2 _ o0 e0 h e1 b e2 H0 H1 H2 Hout2 Hfree2)
    as (w3 & Hrun3 & Hout3 & Hcwd3 & Hclk3 & Hcon3 & _).
  rewrite Hclk2, Hclk1 in Hout3, Hcon3, Hclk3. fold ts1 in Hout3, Hcon3.
  rewrite Hcwd2, Hcwd1 in Hout3.
  (* the exporter *)
  assert (Hfree3 : assoc (manifest_name (reading E (clock w3)))
                     (copies_of ts0 es files
                      ++ [(descriptor_name ts1,
                           File (String.concat ""
                                   (descriptor_lines
                                      (recorded_project E (cwd w))
                                      (strip b) (strip h))))]) = None).
  { rewrite assoc_app_none.
    - cbn [assoc]. destruct (String.eqb_spec (manifest_name (reading E (clock w3)))
                               (descriptor_name ts1)) as [Heq|_];
        [|reflexivity].
      symmetry in Heq. unfold descriptor_name, manifest_name in Heq.
      rewrite <- !append_assoc in Heq. now apply txt_is_not_yml in Heq.
    - apply assoc_copies_none. intros f _. apply copy_is_not_manifest. }
  destruct (exporter_adds_entry r_d false w3 _ listing err1 env text err2
              (Hl w3) Henv Hx Hout3 Hfree3)
    as (w4 & Hrun4 & Hout4 & Hcon4 & _).
  rewrite Hclk3 in Hout4, Hcon4. fold ts2 in Hout4, Hcon4.
  exists w4. split; [|split].
  - unfold make_workflow_reproducible. fold (output_dir w_d). fold r_d.
    assert (Hcopier : save_files_rootdir E r_d [".py"] w1 = (Return tt, w2)).
    { unfold save_files_rootdir.
      step (strftime_now_at E w1). fold (tick w1).
      step Hlist. rewrite Hsel, Hclk1. exact Hrun2. }
    step Hrun1. step Hcopier. step Hrun3. step Hrun4. reflexivity.
  - rewrite Hout4. now rewrite <- app_assoc.
  - rewrite Hcon4, Hcon3, Hcon2, Hcon1. now rewrite <- app_assoc.
Qed.

End Layout.

(** ** The lines of the descriptor, for any repository *)

Section DescriptorLines.
Import PyStr PosixPath FS DateTime Py Reproducibility Spec Terms.
Import StrFacts.

Lemma split_line a rest :
  contains LF a = false ->
  split_on LF ((a +:+ nl) +:+ rest) = a :: split_on LF rest.
Proof.
  intros Ha. rewrite append_assoc.
  change (nl +:+ rest) with (String LF rest).
  now rewrite split_on_append, (split_on_plain _ _ Ha).
Qed.

(** X21. Whatever the project, branch and commit are called, as long as none
    of the three holds a line feed, the text written by the six [f.write]
    calls is six lines: the three values after their labels, the two links
    built from project and commit around the unfilled [<user>], and the
    fixed warning. The values can be read back from the first three
    lines. *)
Theorem descriptor_has_six_lines (project_name branch_name commit_hash : string) :
  contains LF project_name = false ->
  contains LF branch_name = false ->
  contains LF commit_hash = false ->
  lines_of (String.concat ""
              (descriptor_lines project_name branch_name commit_hash))
  = [ "Project Name: " +:+ project_name;
      "Branch Name: " +:+ branch_name;
      "Commit Hash: " +:+ commit_hash;
      "View single commit: https://github.com/<user>/" +:+ project_name
        +:+ "/commit/" +:+ commit_hash;
      "View log: https://github.com/<user>/" +:+ project_name
        +:+ "/commits/" +:+ commit_hash;
      "/!\ the files in the directory may have been modified since the last commit!!" ].
Proof.
  intros Hp Hb Hh. unfold lines_of, descriptor_lines.
  set (l1 := "Project Name: " +:+ project_name).
  set (l2 := "Branch Name: " +:+ branch_name).
  set (l3 := "Commit Hash: " +:+ commit_hash).
  set (l4 := "View single commit: https://github.com/<user>/" +:+ project_name
             +:+ "/commit/" +:+ commit_hash).
  set (l5 := "View log: https://github.com/<user>/" +:+ project_name
             +:+ "/commits/" +:+ commit_hash).
  set (l6 := "/!\ the files in the directory may have been modified since the last commit!!").
  assert (Htext :
    String.concat ""
      [ "Project Name: " +:+ project_name +:+ nl;
        "Branch Name: " +:+ branch_name +:+ nl;
        "Commit Hash: " +:+ commit_hash +:+ nl;
        "View single commit: https://github.com/<user>/" +:+ project_name
          +:+ "/commit/" +:+ commit_hash +:+ nl;
        "View log: https://github.com/<user>/" +:+ project_name
          +:+ "/commits/" +:+ commit_hash +:+ nl;
        l6 +:+ nl ]
    = (l1 +:+ nl) +:+ (l2 +:+ nl) +:+ (l3 +:+ nl) +:+ (l4 +:+ nl)
      +:+ (l5 +:+ nl) +:+ (l6 +:+ nl) +:+ "").
  { unfold l1, l2, l3, l4, l5. cbn [String.concat].
    rewrite !append_assoc, append_nil_r. reflexivity. }
  rewrite Htext.
  assert (H1 : contains LF l1 = false)
    by (unfold l1; now rewrite contains_append, Hp).
  assert (H2 : contains LF l2 = false)
    by (unfold l2; now rewrite contains_append, Hb).
  assert (H3 : contains LF l3 = false)
    by (unfold l3; now rewrite contains_append, Hh).
  assert (H4 : contains LF l4 = false)
    by (unfold l4; now rewrite !contains_append, Hp, Hh).
  assert (H5 : contains LF l5 = false)
    by (unfold l5; now rewrite !contains_append, Hp, Hh).
  assert (H6 : contains LF l6 = false) by reflexivity.
  rewrite (split_line _ _ H1), (split_line _ _ H2), (split_line _ _ H3).
  rewrite (split_line _ _ H4), (split_line _ _ H5), (split_line _ _ H6).
  reflexivity.
Qed.

End DescriptorLines.

(** ** The copier and its destination *)

Section CopierDestination.
Import PyStr PosixPath FS DateTime Py Reproducibility Spec Terms.
Import StrFacts PathFacts TreeFacts MonadFacts NameFacts.
Variable E : host.


End CopierDestination.

(** ** Names identify the file and the second *)

Section Seconds.
Import PyStr PosixPath FS DateTime Py Reproducibility Spec Terms.
Import StrFacts.

Lemma zfill_padded w n :
  zfill w n
  = DecimalString.NilEmpty.string_of_uint
      (padded (w - String.length (digits n)) (Nat.to_uint n)).
Proof.
  unfold zfill, digits.
  induction (w - _)%nat as [|k IH]; [reflexivity|].
  cbn [zeros padded DecimalString.NilEmpty.string_of_uint].
  change (String "0" (zeros k) +:+ ?s) with (String "0" (zeros k +:+ s)).
  now rewrite IH.
Qed.

Lemma of_uint_padded k u : Nat.of_uint (padded k u) = Nat.of_uint u.
Proof. induction k as [|k IH]; [reflexivity|]. cbn [padded]. exact IH. Qed.

(** The padded rendering still determines the number. *)
Lemma zfill_inj w n m : zfill w n = zfill w m -> n = m.
Proof.
  rewrite !zfill_padded. intros H.
  apply (f_equal DecimalString.NilEmpty.uint_of_string) in H.
  rewrite !DecimalString.NilEmpty.usu in H. injection H as H.
  apply (f_equal Nat.of_uint) in H.
  now rewrite !of_uint_padded, !DecimalNat.Unsigned.of_to in H.
Qed.

Lemma zfill_two n : n < 100 -> String.length (zfill 2 n) = 2.
Proof.
  intros Hn.
  assert (Hall : forallb (fun k => String.length (zfill 2 k) =? 2)%nat
                   (seq 0 100) = true) by (vm_compute; reflexivity).
  rewrite forallb_forall in Hall.
  apply Nat.eqb_eq, Hall, in_seq. lia.
Qed.

Lemma zfill_four n : n < 10 * 1000 -> String.length (zfill 4 n) = 4.
Proof.
  intros Hn.
  assert (Hall : forallb (fun k => String.length (zfill 4 k) =? 4)%nat
                   (seq 0 (10 * 1000)) = true) by (vm_compute; reflexivity).
  rewrite forallb_forall in Hall.
  apply Nat.eqb_eq, Hall, in_seq. lia.
Qed.

Lemma append_inj_length a a' b b' :
  String.length a = String.length a' ->
  a +:+ b = a' +:+ b' -> a = a' /\ b = b'.
Proof.
  revert a'. induction a as [|x a IH]; intros [|x' a'] Hlen H;
    try discriminate Hlen.
  - now split.
  - cbn in H. injection H as -> H. injection Hlen as Hlen.
    destruct (IH a' Hlen H) as [-> ->]. now split.
Qed.

Lemma plausible_inv t :
  plausible t = true ->
  year t < 10 * 1000 /\ month t < 100 /\ day t < 100
  /\ hour t < 100 /\ minute t < 100 /\ second t < 100.
Proof.
  unfold plausible. rewrite !andb_true_iff, !Nat.ltb_lt, !Nat.leb_le. lia.
Qed.

Lemma strftime_length t : plausible t = true -> String.length (strftime t) = 15.
Proof.
  intros H. apply plausible_inv in H as (Hy & Hm & Hd & Hh & Hmi & Hs).
  unfold strftime. rewrite !length_append.
  rewrite (zfill_four _ Hy), (zfill_two _ Hm), (zfill_two _ Hd),
    (zfill_two _ Hh), (zfill_two _ Hmi), (zfill_two _ Hs).
  reflexivity.
Qed.

Lemma strftime_inj t t' :
  plausible t = true -> plausible t' = true ->
  strftime t = strftime t' -> t = t'.
Proof.
  intros H H'.
  apply plausible_inv in H as (Hy & Hm & Hd & Hh & Hmi & Hs).
  apply plausible_inv in H' as (Hy' & Hm' & Hd' & Hh' & Hmi' & Hs').
  destruct t as [y m d hh mi s], t' as [y' m' d' hh' mi' s'].
  cbn [year month day hour minute second] in *. unfold strftime.
  cbn [year month day hour minute second]. intros H.
  apply append_inj_length in H as [Ey H];
    [|now rewrite !zfill_four].
  apply append_inj_length in H as [Em H];
    [|now rewrite !zfill_two].
  apply append_inj_length in H as [Ed H];
    [|now rewrite !zfill_two].
  apply append_inj_length in H as [_ H]; [|reflexivity].
  apply append_inj_length in H as [Eh H];
    [|now rewrite !zfill_two].
  apply append_inj_length in H as [Emi Es];
    [|now rewrite !zfill_two].
  apply zfill_inj in Ey, Em, Ed, Eh, Emi, Es. now subst.
Qed.

Lemma append_inj_suffix a a' b b' :
  String.length b = String.length b' ->
  a +:+ b = a' +:+ b' -> a = a' /\ b = b'.
Proof.
  intros Hlen H.
  assert (Hl : String.length a = String.length a').
  { apply (f_equal String.length) in H. rewrite !length_append in H. lia. }
  now apply append_inj_length.
Qed.

(** X23. Timestamps are fifteen characters wide and name their second, so a
    stamped name tells which file and which second it belongs to: two
    copies share a name only when they copy the same source name in the
    same second, and two descriptors, or two manifests, only when they
    were written in the same second. *)
Theorem stamped_names_identify (f f' : string) (t t' : datetime) :
  plausible t = true -> plausible t' = true ->
  String.length (strftime t) = 15
  /\ (copy_name f (strftime t) = copy_name f' (strftime t')
      <-> f = f' /\ t = t')
  /\ (descriptor_name (strftime t) = descriptor_name (strftime t')
      <-> t = t')
  /\ (manifest_name (strftime t) = manifest_name (strftime t') <-> t = t').
Proof.
  intros H H'. split; [now apply strftime_length|].
  split; [|split]; (split; [|now intuition subst]).
  - unfold copy_name. intros Heq.
    rewrite <- !append_assoc in Heq. apply append_inv_tail in Heq.
    rewrite !append_assoc in Heq.
    apply append_inj_suffix in Heq as [Hf Hts].
    + injection Hts as Hts. split; [exact Hf|now apply strftime_inj].
    + rewrite !length_append. now rewrite !strftime_length.
  - unfold descriptor_name. intros Heq.
    apply append_inv_head, append_inv_tail in Heq. now apply strftime_inj.
  - unfold manifest_name. intros Heq.
    apply append_inv_head, append_inv_tail in Heq. now apply strftime_inj.
Qed.

End Seconds.

(** ** What the exporter hands back *)

Section ExporterReports.
Import PyStr PosixPath FS DateTime Py Reproducibility Spec Terms.
Import StrFacts PathFacts TreeFacts MonadFacts NameFacts PostFacts.
Variable E : host.

(** X24. Whatever conda does, the exporter never returns the path of the file
    it created: it returns [None] or raises. When it raises the tree is as
    it was; when it returns, either the tree is as it was or the manifest
    [d/conda_env_<timestamp>.yml] is the one file written. *)
Theorem exporter_never_returns_a_path (d : string) (ib : bool) (w : world) :
  post (export_conda_environment E d ib) w
    (exporter_report (join d (manifest_name (reading E (clock w)))) w).
Proof.
  unfold export_conda_environment.
  apply post_bind. apply post_still;
    [now rewrite conda_command_at|intros [conda_cmd|e]];
    [|now split].
  apply post_bind; apply post_still; [apply still_run_text|intros [listing|e]];
    [|now split].
  destruct (negb (returncode listing =? 0)%Z).
  { apply post_bind, post_print, post_ret. left. now split. }
  apply post_bind; apply post_still; [reflexivity|intros [found|e]];
    [|now split].
  destruct found as [[|c0 current_env]|]; try (now split).
  apply post_bind, post_strftime_now. apply post_bind, post_print.
  apply post_bind; apply post_still; [apply still_run_text|intros [exported|e]];
    [|now split].
  destruct (negb (returncode exported =? 0)%Z).
  { apply post_bind, post_print, post_ret. left. now split. }
  apply post_bind, post_open_write.
  - intros t. apply post_bind, post_print, post_ret. now right.
  - intros e. now split.
Qed.

End ExporterReports.

(** ** Further instances *)

Section Instances.
Import PyStr PosixPath FS DateTime Py Reproducibility Spec Sample Terms Cases.

Lemma artifact_names_sample :
  NoDup [ copy_name "a.py" (strftime (frozen 0));
          copy_name "b.py" (strftime (frozen 0));
          descriptor_name (strftime (frozen 1));
          manifest_name (strftime (frozen 2)) ].
Proof.
  apply (artifact_names_distinct "a.py" "b.py" (frozen 0) (frozen 1) (frozen 2));
    [reflexivity|reflexivity|discriminate].
Defined.

Lemma hosted_url_sample :
  project_of_url ("git@github.com:someone" +:+ "/" +:+ "demo" +:+ ".git") = "demo"
  /\ project_of_url ("git@github.com:someone" +:+ "/" +:+ "demo") = "demo"
  /\ project_of_url ("git@github.com:someone" +:+ "/") = "".
Proof.
  apply (project_of_hosted_url "git@github.com:someone" "demo"). reflexivity.
Defined.

Lemma legend_row_sample :
  find_current_env legend_rows = Return (Some "#").
Proof.
  apply (active_env_is_first_column [] (tl legend_rows) "#" " " " -> active");
    [constructor|reflexivity|discriminate|reflexivity|discriminate].
Defined.

Lemma unnamed_env_sample :
  find_current_env
    [ "# conda environments:"; "#";
      "base                     /opt/conda";
      "                      *  /home/me/project/env" ]
  = Return (Some "/home/me/project/env").
Proof.
  apply (unnamed_env_is_its_path
           ["# conda environments:"; "#"; "base                     /opt/conda"]
           [] "                      " "  " "/home/me/project/env" "");
    [repeat constructor|reflexivity|reflexivity|discriminate
    |reflexivity|reflexivity].
Defined.

Lemma failed_listing_sample :
  export_conda_environment host_broken_conda "out" false project
  = (Return None,
     say "Error running conda command: CondaError: cannot read configuration"
       project).
Proof.
  apply (failed_listing_is_only_printed host_broken_conda "out" false project
           1 "" "CondaError: cannot read configuration");
    [reflexivity|discriminate].
Defined.

Lemma failed_export_sample :
  export_conda_environment host_failed_export "out" false project
  = (Return None,
     say "Error exporting environment: EnvironmentLocationNotFound: sci"
       (say "Running command: conda env export -n sci --no-builds"
          (tick project))).
Proof.
  apply (failed_export_is_only_printed host_failed_export "out" false project
           (conda_rows +:+ nl) "" "sci" 1 ""
           "EnvironmentLocationNotFound: sci");
    [reflexivity|reflexivity|reflexivity|discriminate].
Defined.

Lemma unstartable_conda_sample :
  export_conda_environment host_no_conda "out" false project
  = (Raise (FileNotFoundError "conda"), project).
Proof.
  apply (unstartable_conda_ends_run host_no_conda "out" false project).
  reflexivity.
Defined.

Lemma lone_marker_sample :
  export_conda_environment host_lone_marker "out" false project
  = (Raise IndexError, project).
Proof.
  apply (lone_marker_raises_index_error host_lone_marker "out" false project
           ("# conda environments:" +:+ nl +:+ "#" +:+ nl +:+ " * " +:+ nl
            +:+ "base                     /opt/conda" +:+ nl) ""
           ["# conda environments:"; "#"]
           ["base                     /opt/conda"] " " " ");
    [reflexivity|reflexivity|repeat constructor|reflexivity|reflexivity].
Defined.


Lemma unborn_head_sample :
  save_git_commit_to_file host_unborn "." project
  = (Return false,
     say "Error: Not a git repository or git is not installed." project).
Proof.
  apply (failed_query_is_reported_as_no_repository host_unborn "." project
           (Encoded ("true" +:+ nl)) "");
    [reflexivity|left; discriminate].
Defined.


Lemma first_run_sample :
  exists w',
    reset_directory (output_dir ".") fresh_project = (Return tt, w')
    /\ lookup (output_dir ".") w' = Some (Dir [])
    /\ find (resolve (cwd fresh_project) ".") (fs w')
       = Some (Dir (fresh_entries ++ [("reproducibility", Dir [])]))
    /\ (forall q x, lookup q fresh_project = Some (File x) ->
                    lookup q w' = Some (File x))
    /\ trace w' = trace fresh_project ++ [EvMkdir (output_dir ".")].
Proof.
  apply (first_run_creates_directory "." fresh_project fresh_entries);
    reflexivity.
Defined.

Lemma blocked_project_sample :
  reset_directory (output_dir ".") blocked_project
  = (Raise (NotADirectoryError (output_dir ".")), blocked_project)
  /\ make_workflow_reproducible host_ticking "." blocked_project
     = (Raise (NotADirectoryError (output_dir ".")), blocked_project).
Proof.
  apply (file_in_place_of_directory_ends_run host_ticking "." blocked_project
           "notes").
  reflexivity.
Defined.


Lemma copier_sample :
  exists w',
    save_files_rootdir host_ticking "/out" [".py"] three_files_only
    = (Return tt, w')
    /\ lookup "/out" w'
       = Some (Dir [ ("b.py_20240101_120000.txt", File "print('b')");
                     ("a.py_20240101_120000.txt", File "print('a')") ])
    /\ (forall q x, lookup q three_files_only = Some (File x) ->
                    lookup q w' = Some (File x))
    /\ clock w' = 1 /\ console w' = []
    /\ trace w'
       = [ EvCopy "b.py" "/out/b.py_20240101_120000.txt";
           EvCopy "a.py" "/out/a.py_20240101_120000.txt" ].
Proof.
  apply (copier_copies_selection host_ticking "/out" [".py"] three_files_only
           [("b.py", File "print('b')"); ("notes.txt", File "todo");
            ("a.py", File "print('a')")] []).
  - reflexivity.
  - split; [|repeat constructor].
    repeat constructor; simpl; intuition discriminate.
  - repeat constructor; eexists; reflexivity.
  - reflexivity.
  - intros f _. reflexivity.
  - repeat constructor.
Defined.

Lemma copier_stops_sample :
  exists w',
    save_files_rootdir host_ticking "." [".py"] with_package_dir
    = (Raise (IsADirectoryError "plugins.py"), w')
    /\ lookup "." w'
       = Some (Dir [ ("a.py", File "print('a')");
                     ("plugins.py", Dir [("__init__.py", File "")]);
                     ("a.py_20240101_120000.txt", File "print('a')") ])
    /\ trace w' = [ EvCopy "a.py" "./a.py_20240101_120000.txt" ].
Proof.
  apply (copier_stops_at_directory host_ticking "." [".py"] with_package_dir
           [("a.py", File "print('a')");
            ("plugins.py", Dir [("__init__.py", File "")])]
           [("a.py", File "print('a')");
            ("plugins.py", Dir [("__init__.py", File "")])]
           [("__init__.py", File "")] ["a.py"] [] "plugins.py").
  - reflexivity.
  - split; [|repeat constructor].
    repeat constructor; simpl; intuition discriminate.
  - reflexivity.
  - repeat constructor; eexists; reflexivity.
  - reflexivity.
  - reflexivity.
  - intros g [<-|[<-|[]]]; reflexivity.
  - repeat constructor.
Defined.

Lemma frame_sample :
  find ["home"; "demo"; "notes.txt"]
    (fs (snd (make_workflow_reproducible host_ticking "." project)))
  = find ["home"; "demo"; "notes.txt"] (fs project).
Proof.
  apply (run_stays_within_output_directory host_ticking "." project
           ["home"; "demo"; "notes.txt"]);
    [reflexivity|split; reflexivity].
Defined.

Lemma complete_run_sample :
  exists w',
    make_workflow_reproducible host_ticking "." project = (Return tt, w')
    /\ lookup (output_dir ".") w'
       = Some (Dir [ ("a.py_20240101_120000.txt", File "print('a')");
                     ("b.py_20240101_120000.txt", File "print('b')");
                     ("git_commit_20240101_120001.txt",
                      File (String.concat ""
                              (descriptor_lines "demo" "main" "abc123")));
                     ("conda_env_20240101_120002.yml",
                      File ("name: sci" +:+ nl)) ])
    /\ console w'
       = [ "Git information saved to "
           +:+ "./reproducibility/git_commit_20240101_120001.txt";
           "Running command: conda env export -n sci --no-builds";
           "Environment exported to "
           +:+ "./reproducibility/conda_env_sci_20240101_120002.yml" ].
Proof.
  apply (complete_run_layout host_ticking "." project
           [("a.py", File "print('a')"); ("b.py", File "print('b')");
            ("notes.txt", File "todo"); ("reproducibility", Dir old_snapshot)]
           (Encoded ("true" +:+ nl)) "" ("abc123" +:+ nl) ""
           ("main" +:+ nl) "" (conda_rows +:+ nl) "" "sci"
           ("name: sci" +:+ nl) "").
  - reflexivity.
  - reflexivity.
  - split; [|repeat constructor].
    repeat constructor; simpl; intuition discriminate.
  - intros x H. discriminate H.
  - repeat constructor; eexists; reflexivity.
  - reflexivity.
  - reflexivity.
  - reflexivity.
  - intros w'. reflexivity.
  - reflexivity.
  - reflexivity.
  - repeat constructor.
Defined.

Lemma descriptor_lines_sample :
  lines_of (String.concat "" (descriptor_lines "demo" "feature/x" "0a1b2c"))
  = [ "Project Name: demo";
      "Branch Name: feature/x";
      "Commit Hash: 0a1b2c";
      "View single commit: https://github.com/<user>/demo/commit/0a1b2c";
      "View log: https://github.com/<user>/demo/commits/0a1b2c";
      "/!\ the files in the directory may have been modified since the last commit!!" ].
Proof.
  apply (descriptor_has_six_lines "demo" "feature/x" "0a1b2c"); reflexivity.
Defined.


Lemma seconds_sample :
  String.length (strftime (ticking 0)) = 15
  /\ (copy_name "a.py" (strftime (ticking 0))
      = copy_name "a.py" (strftime (ticking 1))
      <-> "a.py" = "a.py" /\ ticking 0 = ticking 1)
  /\ (descriptor_name (strftime (ticking 0))
      = descriptor_name (strftime (ticking 1))
      <-> ticking 0 = ticking 1)
  /\ (manifest_name (strftime (ticking 0))
      = manifest_name (strftime (ticking 1))
      <-> ticking 0 = ticking 1).
Proof.
  apply (stamped_names_identify "a.py" "a.py" (ticking 0) (ticking 1));
    reflexivity.
Defined.

End Instances.
